(** * Retrieval pipeline of the conversation chatbot: chunking, vector
      store, context assembly

    A shallow embedding of
      - [server/utils/document_processor.py]  (TextSplitter, DocumentProcessor)
      - [server/utils/vectorstore.py]         (Document, MockEmbeddings,
                                               FAISSVectorStore, VectorStoreManager)
      - [server/ai/qa_rag.py]                 (RAGSystem)
    followed by the properties of the retrieval core.

    Conventions.  A Python [str] is a [string]; its code points are the
    256 values of [ascii].  Python [int] is [Z].  A Python [float] is
    carried as a rational [Q]: no theorem below depends on rounding.  A
    Python [dict] with string keys is a [gmap string _].  Methods that
    mutate [self], write files, log or raise run in the monad [M], a state
    monad over [World] whose result is either a value or the exception
    raised; the state reached when an exception is raised is kept, as in
    Python. *)

From Stdlib Require Import ZArith QArith Ascii String.
From stdpp Require Import base option list gmap strings pretty.
From stdpp Require Import list_numbers.

#[local] Open Scope string_scope.
#[local] Open Scope list_scope.
#[local] Open Scope Z_scope.

(* ===================================================================== *)
(** * Python string primitives *)
(* ===================================================================== *)

Module Py.

(** [len(s)] *)
Definition len (s : string) : Z := Z.of_nat (String.length s).

(** Code points below 256 for which [str.isspace] holds: TAB..CR,
    FS..US, SPACE, NEL and NBSP. *)
Definition isspace (c : ascii) : bool :=
  let n := N_of_ascii c in
  ((9 <=? n) && (n <=? 13) || (28 <=? n) && (n <=? 32)
   || (n =? 133) || (n =? 160))%N.

(** [s.lstrip()] *)
Fixpoint lstrip (s : string) : string :=
  match s with
  | String c s' => if isspace c then lstrip s' else s
  | EmptyString => EmptyString
  end.

(** [s.rstrip()] *)
Fixpoint rstrip (s : string) : string :=
  match s with
  | String c s' =>
      match rstrip s' with
      | EmptyString => if isspace c then EmptyString else String c EmptyString
      | r => String c r
      end
  | EmptyString => EmptyString
  end.

(** [s.strip()] *)
Definition strip (s : string) : string := rstrip (lstrip s).

(** Truthiness of a string: [if s:] *)
Definition truthy (s : string) : bool :=
  match s with EmptyString => false | String _ _ => true end.

(** Index normalisation of a slice bound against a sequence of length
    [n]: a negative bound counts from the end, and the result is clipped
    to [0..n]. *)
Definition adjust (n i : Z) : Z :=
  if i <? 0 then Z.max 0 (i + n) else Z.min i n.

(** [s[a:b]] *)
Definition slice (s : string) (a b : Z) : string :=
  let a' := adjust (len s) a in
  let b' := adjust (len s) b in
  substring (Z.to_nat a') (Z.to_nat (b' - a')) s.

(** Does [sub] occur in [s] at position [p]? *)
Definition occurs_at (s sub : string) (p : Z) : bool :=
  String.eqb (substring (Z.to_nat p) (String.length sub) s) sub.

(** Scan downwards from offset [i] to offset 0, relative to [st]. *)
Fixpoint rfind_go (s sub : string) (st : Z) (i : nat) : Z :=
  if occurs_at s sub (st + Z.of_nat i) then st + Z.of_nat i
  else match i with
       | O => -1
       | S i' => rfind_go s sub st i'
       end.

(** [s.rfind(sub, start, end)]: the highest index in [s] where [sub] is
    found within [s[start:end]], or [-1]. *)
Definition rfind (s sub : string) (start end_ : Z) : Z :=
  let n := len s in
  let e := if n <? end_ then n
           else if end_ <? 0 then Z.max 0 (end_ + n) else end_ in
  let st := if start <? 0 then Z.max 0 (start + n) else start in
  if e - st <? len sub then -1
  else rfind_go s sub st (Z.to_nat (e - st - len sub)).

(** [sep.join(parts)] *)
Definition join (sep : string) (parts : list string) : string :=
  String.concat sep parts.

(** [str(n)] for an integer, as used by f-strings. *)
Definition str_of_int (n : Z) : string := pretty n.

End Py.

(* ===================================================================== *)
(** * document_processor.py: TextSplitter *)
(* ===================================================================== *)

Module Chunker.

Record TextSplitter := {
  chunk_size : Z;
  chunk_overlap : Z;
  separator : string
}.

(** [TextSplitter()] with the default arguments. *)
Definition default_splitter : TextSplitter :=
  {| chunk_size := 1000; chunk_overlap := 200;
     separator := String "010" (String "010" EmptyString) |}.

(** The value of [end] when the chunk is cut, for the window that starts
    at [start]: lines 68-82. *)
Definition cut_point (ts : TextSplitter) (text : string) (start : Z) : Z :=
  let end_ := start + chunk_size ts in
  if end_ <? Py.len text then
    let break_point := Py.rfind text (separator ts) start end_ in
    let break_point :=
      if break_point =? -1 then
        let break_point := Py.rfind text "." start end_ in
        if break_point =? -1 then
          let break_point := Py.rfind text " " start end_ in
          if break_point =? -1 then end_ else break_point
        else break_point
      else break_point in
    break_point + 1
  else end_.

(** [start] of the next iteration: line 89. *)
Definition next_start (ts : TextSplitter) (start end_ : Z) : Z :=
  Z.max (start + 1) (end_ - chunk_overlap ts).

(** The [while start < len(text)] loop, lines 67-89, run for at most
    [fuel] iterations; [None] when the bound is exhausted before the
    loop condition fails. *)
Fixpoint split_loop (ts : TextSplitter) (text : string) (fuel : nat)
    (start : Z) (chunks : list string) : option (list string) :=
  if start <? Py.len text then
    match fuel with
    | O => None
    | S fuel' =>
        let end_ := cut_point ts text start in
        let chunk := Py.strip (Py.slice text start end_) in
        let chunks := if Py.truthy chunk then chunks ++ [chunk] else chunks in
        split_loop ts text fuel' (next_start ts start end_) chunks
    end
  else Some chunks.

(** [TextSplitter.split_text] with an explicit iteration bound. *)
Definition split_text_fuel (ts : TextSplitter) (fuel : nat) (text : string)
    : option (list string) :=
  if Py.len text <=? chunk_size ts then Some [text]
  else split_loop ts text fuel 0 [].

(** [TextSplitter.split_text].  [len(text)] iterations always suffice, as
    proved below, so the default is never taken. *)
Definition split_text (ts : TextSplitter) (text : string) : list string :=
  default [] (split_text_fuel ts (String.length text) text).

(** The same loop, recording for every iteration the window
    [(start, end)] whose slice [text[start:end]] is cut, before it is
    stripped and possibly dropped. *)
Fixpoint split_windows (ts : TextSplitter) (text : string) (fuel : nat)
    (start : Z) : option (list (Z * Z)) :=
  if start <? Py.len text then
    match fuel with
    | O => None
    | S fuel' =>
        let end_ := cut_point ts text start in
        cons (start, end_) <$>
          split_windows ts text fuel' (next_start ts start end_)
    end
  else Some [].

(** The chunk list built from a list of windows: lines 84-86. *)
Definition chunks_of_windows (text : string) (ws : list (Z * Z)) : list string :=
  filter (λ c, Py.truthy c = true)
         (map (λ w, Py.strip (Py.slice text w.1 w.2)) ws).

(** No leading and no trailing whitespace. *)
Definition trimmed (s : string) : Prop :=
  Py.lstrip s = s ∧ Py.rstrip s = s.

End Chunker.

Import Chunker.

(* ===================================================================== *)
(** * Exceptions, values and the world *)
(* ===================================================================== *)

(** The exception classes the modelled code can meet.  All of them derive
    from [Exception]. *)
Inductive exn_class :=
  ValueError | AssertionError | KeyError | RuntimeError | IOError
| TypeError | ImportError.

Record Exn := mkExn { exn_cls : exn_class; exn_msg : string }.

Inductive result (A : Type) :=
| Ok (a : A)
| Raise (e : Exn).
Arguments Ok {A} a.
Arguments Raise {A} e.

(** Values stored in a metadata dictionary ([Dict[str, Any]]). *)
Inductive pyval :=
| PNone
| PBool (b : bool)
| PInt (z : Z)
| PStr (s : string).

#[export] Instance pyval_eq_dec : EqDecision pyval.
Proof. solve_decision. Defined.

(** Python's [==] on these values: [True] and [False] are the integers 1
    and 0. *)
Definition py_eq (a b : pyval) : bool :=
  match a, b with
  | PNone, PNone => true
  | PBool x, PBool y => Bool.eqb x y
  | PBool x, PInt z | PInt z, PBool x => Z.b2z x =? z
  | PInt x, PInt y => x =? y
  | PStr x, PStr y => String.eqb x y
  | _, _ => false
  end.

Abbreviation vector := (list Q).
Abbreviation metadata := (gmap string pyval).

(** [class Document].  [created_at] is kept as its ISO rendering. *)
Record Document := {
  doc_id : string;
  doc_content : string;
  doc_metadata : metadata;
  doc_created_at : string;
  doc_embedding : option vector
}.

(** The faiss index objects the store creates.  [IndexIVFFlat] holds no
    vectors until it is trained: [None] is the untrained index. *)
Inductive FaissIndex :=
| IndexFlatL2 (d : Z) (xb : list vector)
| IndexIVFFlat (d : Z) (nlist : Z) (xb : option (list vector)).

Definition index_d (ix : FaissIndex) : Z :=
  match ix with IndexFlatL2 d _ | IndexIVFFlat d _ _ => d end.

Definition is_trained (ix : FaissIndex) : bool :=
  match ix with
  | IndexFlatL2 _ _ => true
  | IndexIVFFlat _ _ xb => bool_decide (is_Some xb)
  end.

Definition index_vectors (ix : FaissIndex) : list vector :=
  match ix with
  | IndexFlatL2 _ xb => xb
  | IndexIVFFlat _ _ xb => default [] xb
  end.

(** [index.ntotal] *)
Definition ntotal (ix : FaissIndex) : Z :=
  Z.of_nat (length (index_vectors ix)).

(** [class FAISSVectorStore]: the fields of [self]. *)
Record FAISSVectorStore := {
  dimension : Z;
  index_type : string;
  index : FaissIndex;
  documents : gmap string Document;
  id_to_index : gmap string Z;
  index_to_id : gmap Z string;
  next_index : Z
}.

(** What [pickle.load] returns from [metadata.pkl], as far as [load_index]
    reads it.  [load_index] takes whatever was pickled, so a key may be
    missing: a part that is [None] is a key whose subscript raises.  An
    entry of [metadata["documents"]] is the [to_dict] of a document without
    its [id] and [has_embedding] keys, which [load_index] does not read;
    [dd_created_at] is what [datetime.fromisoformat] makes of the stored
    value: a datetime, kept as its ISO rendering, or the exception raised
    for a value that is not an ISO timestamp.  The other values that are
    present have the types that [save_index] writes. *)
Record DocDict := {
  dd_content : option string;
  dd_metadata : option metadata;
  dd_created_at : option (result string)
}.

(** [md_documents] holds the items of [metadata["documents"]] in the order
    in which [.items()] yields them.  [md_dimension] and [md_index_type]
    are written by [save_index] and never read back. *)
Record Metadata := {
  md_documents : option (list (string * DocDict));
  md_id_to_index : option (gmap string Z);
  md_index_to_id : option (gmap Z string);
  md_next_index : option Z;
  md_dimension : Z;
  md_index_type : string
}.

(** A file of the persist directory: absent, present but refused by its
    loader ([faiss.read_index], [pickle.load]) with the exception [e], or
    present with the value its loader returns. *)
Inductive file (A : Type) :=
| Missing
| Unreadable (e : Exn)
| Stored (a : A).
Arguments Missing {A}.
Arguments Unreadable {A} e.
Arguments Stored {A} a.

Definition exists_ {A} (f : file A) : bool :=
  match f with Missing => false | _ => true end.

Record Disk := {
  faiss_index_file : file FaissIndex;      (* faiss.index *)
  metadata_file : file Metadata            (* metadata.pkl *)
}.

Inductive level := INFO | WARNING | ERROR.

#[export] Instance level_eq_dec : EqDecision level.
Proof. solve_decision. Defined.

(** Everything a call can read or change. *)
Record World := {
  store : FAISSVectorStore;
  disk : Disk;
  log : list (level * string);
  uuids_drawn : nat;
  clock_reads : nat
}.

(** What the code takes from outside the repository: the built-in string
    hash, the uuid generator, the clock, the nearest-neighbour search of
    faiss, and the environment the module runs in.  [faiss_search ix x k]
    stands for [index.search] on the one-row query [x] and returns
    [zip(distances[0], indices[0])]; faiss pads missing results with the
    label [-1].  [FAISS_AVAILABLE] tells whether [import faiss] succeeded.
    The last three fields are the file system: [mkdir] is [None] when
    [persist_directory.mkdir(exist_ok=True)] returns and the exception when
    it raises; [faiss_write_index] and [write_metadata] are [None] when the
    write of [faiss.index], respectively of [metadata.pkl], succeeds, and
    otherwise the exception raised together with what is left in place of
    the file.  They may depend on everything that has happened so far. *)
Class Externals := {
  py_hash : string → Z;
  uuid4 : nat → string;
  now_isoformat : nat → string;
  faiss_search : FaissIndex → vector → Z → result (list (Q * Z));
  FAISS_AVAILABLE : bool;
  mkdir : World → option Exn;
  faiss_write_index : World → option (Exn * file FaissIndex);
  write_metadata : World → option (Exn * file Metadata)
}.

(** ** The monad of effectful calls *)

Definition M (A : Type) : Type := World → result A * World.

Definition ret {A} (a : A) : M A := λ w, (Ok a, w).

Definition bind {A B} (m : M A) (k : A → M B) : M B :=
  λ w, match m w with
       | (Ok a, w') => k a w'
       | (Raise e, w') => (Raise e, w')
       end.

Definition raise {A} (c : exn_class) (msg : string) : M A :=
  λ w, (Raise (mkExn c msg), w).

Definition lift {A} (r : result A) : M A := λ w, (r, w).

(** [try: body  except Exception as e: handler e] *)
Definition try_except {A} (body : M A) (handler : Exn → M A) : M A :=
  λ w, match body w with
       | (Ok a, w') => (Ok a, w')
       | (Raise e, w') => handler e w'
       end.

Definition get_world : M World := λ w, (Ok w, w).

Definition get_store : M FAISSVectorStore := λ w, (Ok (store w), w).

Definition get_disk : M Disk := λ w, (Ok (disk w), w).

Definition put_store (s : FAISSVectorStore) : M unit :=
  λ w, (Ok tt, {| store := s; disk := disk w; log := log w;
                  uuids_drawn := uuids_drawn w;
                  clock_reads := clock_reads w |}).

Definition put_disk (d : Disk) : M unit :=
  λ w, (Ok tt, {| store := store w; disk := d; log := log w;
                  uuids_drawn := uuids_drawn w;
                  clock_reads := clock_reads w |}).

(** Modelled from the spec: [utils/logger.py] is not among the sources.
    The spec only speaks of a warning being logged, so a call of
    [logger.info], [logger.warning] or [logger.error] appends its level and
    message to the log of the world and never raises. *)
Definition logger (lv : level) (msg : string) : M unit :=
  λ w, (Ok tt, {| store := store w; disk := disk w;
                  log := log w ++ [(lv, msg)];
                  uuids_drawn := uuids_drawn w;
                  clock_reads := clock_reads w |}).

(** [str(uuid.uuid4())] *)
Definition draw_uuid `{Externals} : M string :=
  λ w, (Ok (uuid4 (uuids_drawn w)),
        {| store := store w; disk := disk w; log := log w;
           uuids_drawn := S (uuids_drawn w);
           clock_reads := clock_reads w |}).

(** [datetime.now()] *)
Definition read_clock `{Externals} : M string :=
  λ w, (Ok (now_isoformat (clock_reads w)),
        {| store := store w; disk := disk w; log := log w;
           uuids_drawn := uuids_drawn w;
           clock_reads := S (clock_reads w) |}).

(** A bare [raise] inside an [except] block. *)
Definition reraise {A} (e : Exn) : M A := λ w, (Raise e, w).

Declare Scope py_scope.
Delimit Scope py_scope with py.
Notation "x <- m ;; k" := (bind m (λ x, k))
  (at level 100, m at next level, right associativity) : py_scope.
Notation "m ;;; k" := (bind m (λ _, k))
  (at level 100, right associativity) : py_scope.
#[local] Open Scope py_scope.

(** Field updates of [self]. *)
Definition set_index (ix : FaissIndex) (s : FAISSVectorStore) : FAISSVectorStore :=
  {| dimension := dimension s; index_type := index_type s; index := ix;
     documents := documents s; id_to_index := id_to_index s;
     index_to_id := index_to_id s; next_index := next_index s |}.

Definition set_documents (ds : gmap string Document) (s : FAISSVectorStore)
    : FAISSVectorStore :=
  {| dimension := dimension s; index_type := index_type s; index := index s;
     documents := ds; id_to_index := id_to_index s;
     index_to_id := index_to_id s; next_index := next_index s |}.

Definition set_id_to_index (m : gmap string Z) (s : FAISSVectorStore)
    : FAISSVectorStore :=
  {| dimension := dimension s; index_type := index_type s; index := index s;
     documents := documents s; id_to_index := m;
     index_to_id := index_to_id s; next_index := next_index s |}.

Definition set_index_to_id (m : gmap Z string) (s : FAISSVectorStore)
    : FAISSVectorStore :=
  {| dimension := dimension s; index_type := index_type s; index := index s;
     documents := documents s; id_to_index := id_to_index s;
     index_to_id := m; next_index := next_index s |}.

Definition set_next_index (n : Z) (s : FAISSVectorStore) : FAISSVectorStore :=
  {| dimension := dimension s; index_type := index_type s; index := index s;
     documents := documents s; id_to_index := id_to_index s;
     index_to_id := index_to_id s; next_index := n |}.

Definition modify_store (f : FAISSVectorStore → FAISSVectorStore) : M unit :=
  s <- get_store ;; put_store (f s).

(** A list comprehension or [for] loop whose body has effects. *)
Fixpoint for_each {A B} (f : A → M B) (l : list A) : M (list B) :=
  match l with
  | [] => ret []
  | a :: l' => b <- f a ;; bs <- for_each f l' ;; ret (b :: bs)
  end.

(* ===================================================================== *)
(** * numpy and faiss, as far as the store calls them *)
(* ===================================================================== *)

(** The result of [np.array(embeddings, dtype=np.float32)] on a list of
    lists of floats: the empty list gives a one-dimensional array of shape
    [(0,)], rows of one common length [d] give an array of shape [(n, d)],
    and rows of different lengths are refused. *)
Inductive ndarray :=
| Array1D_empty
| Array2D (n d : Z) (rows : list vector).

Definition np_array (embeddings : list vector) : result ndarray :=
  match embeddings with
  | [] => Ok Array1D_empty
  | v :: vs =>
      if forallb (λ u, Nat.eqb (length u) (length v)) vs
      then Ok (Array2D (Z.of_nat (length embeddings)) (Z.of_nat (length v))
                       embeddings)
      else Raise (mkExn ValueError
                    "setting an array element with a sequence.")
  end.

(** [x.shape[0]] *)
Definition shape0 (x : ndarray) : Z :=
  match x with Array1D_empty => 0 | Array2D n _ _ => n end.

(** The faiss wrappers [train] and [add] start with [n, d = x.shape] and
    [assert d == self.d]. *)
Definition faiss_rows (ix : FaissIndex) (x : ndarray) : result (list vector) :=
  match x with
  | Array1D_empty =>
      Raise (mkExn ValueError "not enough values to unpack (expected 2, got 1)")
  | Array2D n d rows =>
      if d =? index_d ix then Ok rows else Raise (mkExn AssertionError "")
  end.

(** [index.train(x)] *)
Definition faiss_train (ix : FaissIndex) (x : ndarray) : result FaissIndex :=
  match faiss_rows ix x with
  | Raise e => Raise e
  | Ok _ =>
      match ix with
      | IndexFlatL2 _ _ => Ok ix
      | IndexIVFFlat d nlist None => Ok (IndexIVFFlat d nlist (Some []))
      | IndexIVFFlat _ _ (Some _) => Ok ix
      end
  end.

(** [index.add(x)] *)
Definition faiss_add (ix : FaissIndex) (x : ndarray) : result FaissIndex :=
  match faiss_rows ix x with
  | Raise e => Raise e
  | Ok rows =>
      match ix with
      | IndexFlatL2 d xb => Ok (IndexFlatL2 d (xb ++ rows))
      | IndexIVFFlat d nlist (Some xb) => Ok (IndexIVFFlat d nlist (Some (xb ++ rows)))
      | IndexIVFFlat _ _ None =>
          Raise (mkExn RuntimeError "Error: 'is_trained' failed")
      end
  end.

(* ===================================================================== *)
(** * vectorstore.py: MockEmbeddings and FAISSVectorStore *)
(* ===================================================================== *)

Section VectorStore.
Context `{Externals}.

(** [Document(content, metadata)] *)
Definition new_Document (content : string) (md : metadata) : M Document :=
  id <- draw_uuid ;;
  created_at <- read_clock ;;
  ret {| doc_id := id; doc_content := content; doc_metadata := md;
         doc_created_at := created_at; doc_embedding := None |}.

(** [MockEmbeddings.embed_documents] for one text: the list comprehension
    over [range(self.dimension)]. *)
Definition mock_embedding (dim : Z) (text : string) : vector :=
  let hash_val := py_hash text in
  map (λ i, Qmake ((hash_val + i) `mod` 1000) 1000) (seqZ 0 dim).

Definition embed_documents (dim : Z) (texts : list string) : list vector :=
  map (mock_embedding dim) texts.

(** [MockEmbeddings.embed_query]: [embed_documents([text])[0]] *)
Definition embed_query (dim : Z) (text : string) : vector :=
  default [] (head (embed_documents dim [text])).

(** The [for i, doc in enumerate(documents)] loop of [add_documents]. *)
Definition store_documents (start_index : Z) (docs : list Document)
    (embeddings : list vector) (s : FAISSVectorStore) : FAISSVectorStore :=
  foldl (λ s '(i, doc),
           let doc := {| doc_id := doc_id doc; doc_content := doc_content doc;
                         doc_metadata := doc_metadata doc;
                         doc_created_at := doc_created_at doc;
                         doc_embedding := embeddings !! i |} in
           let index_pos := start_index + Z.of_nat i in
           set_index_to_id (<[index_pos := doc_id doc]> (index_to_id s))
             (set_id_to_index (<[doc_id doc := index_pos]> (id_to_index s))
                (set_documents (<[doc_id doc := doc]> (documents s)) s)))
        s (imap (λ i doc, (i, doc)) docs).

(** [FAISSVectorStore.add_documents] *)
Definition add_documents (docs : list Document) (embeddings : list vector)
    : M unit :=
  if negb (Nat.eqb (length docs) (length embeddings)) then
    raise ValueError "Number of documents must match number of embeddings"
  else
    embeddings_array <- lift (np_array embeddings) ;;
    s <- get_store ;;
    (if String.eqb (index_type s) "ivf" && negb (is_trained (index s)) then
       if 100 <=? shape0 embeddings_array then
         ix <- lift (faiss_train (index s) embeddings_array) ;;
         modify_store (set_index ix)
       else
         logger WARNING
           "Not enough documents to train IVF index, using flat index" ;;;
         modify_store (set_index (IndexFlatL2 (dimension s) []))
     else ret tt) ;;;
    s <- get_store ;;
    let start_index := next_index s in
    ix <- lift (faiss_add (index s) embeddings_array) ;;
    modify_store (set_index ix) ;;;
    modify_store (store_documents start_index docs embeddings) ;;;
    modify_store (λ s, set_next_index (next_index s + Z.of_nat (length docs)) s) ;;;
    logger INFO ("Added " +:+ Py.str_of_int (Z.of_nat (length docs))
                 +:+ " documents to vector store").

(** [all(doc.metadata.get(k) == v for k, v in filter_metadata.items())] *)
Definition metadata_matches (doc : Document) (filter_metadata : metadata) : bool :=
  bool_decide
    (map_Forall (λ k v, py_eq (default PNone (doc_metadata doc !! k)) v = true)
                filter_metadata).

(** The body of the [for distance, index in zip(...)] loop of
    [similarity_search]: [Some] when the candidate is appended. *)
Definition search_candidate (s : FAISSVectorStore)
    (filter_metadata : option metadata) (cand : Q * Z) : option (Document * Q) :=
  let '(distance, index) := cand in
  if index =? -1 then None
  else
    match index_to_id s !! index with
    | Some doc_id =>
        if Py.truthy doc_id then
          match documents s !! doc_id with
          | Some doc =>
              match filter_metadata with
              | Some f =>
                  if bool_decide (f ≠ ∅) && negb (metadata_matches doc f)
                  then None
                  else Some (doc, distance)
              | None => Some (doc, distance)
              end
          | None => None
          end
        else None
    | None => None
    end.

(** [FAISSVectorStore.similarity_search] *)
Definition similarity_search (query_embedding : vector) (k : Z)
    (filter_metadata : option metadata) : M (list (Document * Q)) :=
  s <- get_store ;;
  if ntotal (index s) =? 0 then ret []
  else
    found <- lift (faiss_search (index s) query_embedding
                                (Z.min k (ntotal (index s)))) ;;
    ret (omap (search_candidate s filter_metadata) found).

(** [FAISSVectorStore.delete_document] *)
Definition delete_document (doc_id : string) : M bool :=
  s <- get_store ;;
  if bool_decide (is_Some (documents s !! doc_id)) then
    modify_store (λ s, set_documents (delete doc_id (documents s)) s) ;;;
    (match id_to_index s !! doc_id with
     | Some index_pos =>
         modify_store (λ s, set_id_to_index (delete doc_id (id_to_index s)) s) ;;;
         s <- get_store ;;
         if bool_decide (is_Some (index_to_id s !! index_pos)) then
           modify_store (set_index_to_id (delete index_pos (index_to_id s)))
         else raise KeyError (Py.str_of_int index_pos)
     | None => ret tt
     end) ;;;
    logger INFO ("Deleted document " +:+ doc_id) ;;;
    ret true
  else ret false.

(** [Document.to_dict], without the [id] and [has_embedding] keys. *)
Definition to_dict (doc : Document) : DocDict :=
  {| dd_content := Some (doc_content doc);
     dd_metadata := Some (doc_metadata doc);
     dd_created_at := Some (Ok (doc_created_at doc)) |}.

(** [faiss.write_index(self.index, str(index_path))] *)
Definition write_index_file (ix : FaissIndex) : M unit :=
  w <- get_world ;;
  d <- get_disk ;;
  match faiss_write_index w with
  | None =>
      put_disk {| faiss_index_file := Stored ix;
                  metadata_file := metadata_file d |}
  | Some (e, leftover) =>
      put_disk {| faiss_index_file := leftover;
                  metadata_file := metadata_file d |} ;;;
      reraise e
  end.

(** [with open(metadata_path, "wb") as f: pickle.dump(metadata, f)] *)
Definition write_metadata_file (md : Metadata) : M unit :=
  w <- get_world ;;
  d <- get_disk ;;
  match write_metadata w with
  | None =>
      put_disk {| faiss_index_file := faiss_index_file d;
                  metadata_file := Stored md |}
  | Some (e, leftover) =>
      put_disk {| faiss_index_file := faiss_index_file d;
                  metadata_file := leftover |} ;;;
      reraise e
  end.

(** [FAISSVectorStore.save_index].  The items of [self.documents] are
    written in the order of [map_to_list]; the order of the items can only
    be observed through an entry that [load_index] refuses, and no entry
    made by [to_dict] is refused.  The success line also names the persist
    directory, which is left out of the message. *)
Definition save_index : M unit :=
  try_except
    (s <- get_store ;;
     write_index_file (index s) ;;;
     let md := {| md_documents := Some (map_to_list (to_dict <$> documents s));
                  md_id_to_index := Some (id_to_index s);
                  md_index_to_id := Some (index_to_id s);
                  md_next_index := Some (next_index s);
                  md_dimension := dimension s;
                  md_index_type := index_type s |} in
     write_metadata_file md ;;;
     logger INFO "Saved vector store")
    (λ e, logger ERROR ("Failed to save vector store: " +:+ exn_msg e)).

(** [faiss.read_index] and [pickle.load] on a file that exists. *)
Definition read_file {A} (f : file A) : M A :=
  match f with
  | Stored a => ret a
  | Unreadable e => reraise e
  | Missing => raise IOError "No such file or directory"
  end.

(** [d[key]] on a dictionary read from the metadata file. *)
Definition subscript {A} (key : string) (v : option A) : M A :=
  match v with
  | Some a => ret a
  | None => raise KeyError ("'" +:+ key +:+ "'")
  end.

(** The body of the [for doc_id, doc_data in ...items()] loop of
    [load_index], lines 237-240. *)
Definition restore_entry (entry : string * DocDict) : M unit :=
  let '(doc_id, doc_data) := entry in
  content <- subscript "content" (dd_content doc_data) ;;
  md <- subscript "metadata" (dd_metadata doc_data) ;;
  doc <- new_Document content md ;;
  parsed <- subscript "created_at" (dd_created_at doc_data) ;;
  created_at <- lift parsed ;;
  let doc := {| doc_id := doc_id; doc_content := doc_content doc;
                doc_metadata := doc_metadata doc;
                doc_created_at := created_at;
                doc_embedding := doc_embedding doc |} in
  modify_store (λ s, set_documents (<[doc_id := doc]> (documents s)) s).

(** The body of the [try] block of [load_index]. *)
Definition load_index_body : M unit :=
  d <- get_disk ;;
  if exists_ (faiss_index_file d) && exists_ (metadata_file d) then
    ix <- read_file (faiss_index_file d) ;;
    modify_store (set_index ix) ;;;
    md <- read_file (metadata_file d) ;;
    modify_store (set_documents ∅) ;;;
    items <- subscript "documents" (md_documents md) ;;
    for_each restore_entry items ;;;
    id_to_index <- subscript "id_to_index" (md_id_to_index md) ;;
    modify_store (set_id_to_index id_to_index) ;;;
    index_to_id <- subscript "index_to_id" (md_index_to_id md) ;;
    modify_store (set_index_to_id index_to_id) ;;;
    next_index <- subscript "next_index" (md_next_index md) ;;
    modify_store (set_next_index next_index) ;;;
    s <- get_store ;;
    logger INFO ("Loaded vector store with "
                 +:+ Py.str_of_int (Z.of_nat (size (documents s)))
                 +:+ " documents")
  else ret tt.

(** [FAISSVectorStore.load_index] *)
Definition load_index : M unit :=
  try_except load_index_body
    (λ e, logger WARNING ("Could not load existing vector store: " +:+ exn_msg e)).

(** [faiss.IndexFlatL2(d)]: the wrapper takes [d] as a signed 64-bit
    integer and refuses any other integer with a [TypeError]. *)
Definition faiss_IndexFlatL2 (d : Z) : result FaissIndex :=
  if (- 2 ^ 63 <=? d) && (d <? 2 ^ 63) then Ok (IndexFlatL2 d [])
  else Raise (mkExn TypeError "Wrong number or type of arguments").

(** [faiss.IndexIVFFlat(quantizer, d, nlist)]: the wrapper takes [d] and
    [nlist] as unsigned 64-bit integers. *)
Definition faiss_IndexIVFFlat (quantizer : FaissIndex) (d nlist : Z)
    : result FaissIndex :=
  if (0 <=? d) && (d <? 2 ^ 64) && (0 <=? nlist) && (nlist <? 2 ^ 64)
  then Ok (IndexIVFFlat d nlist None)
  else Raise (mkExn TypeError "Wrong number or type of arguments").

(** [self.persist_directory.mkdir(exist_ok=True)] *)
Definition persist_directory_mkdir : M unit :=
  w <- get_world ;;
  match mkdir w with
  | None => ret tt
  | Some e => reraise e
  end.

(** [self] as [__init__] has set it just before it calls [load_index]. *)
Definition fresh_store (dim : Z) (ty : string) (ix : FaissIndex) : FAISSVectorStore :=
  {| dimension := dim; index_type := ty; index := ix; documents := ∅;
     id_to_index := ∅; index_to_id := ∅; next_index := 0 |}.

(** [FAISSVectorStore.__init__]; the new object replaces [store] once its
    fields are set.  When the constructor raises there is no new object,
    and [store] is the one from before. *)
Definition FAISSVectorStore_init (dim : Z) (ty : string) : M unit :=
  if negb FAISS_AVAILABLE then
    raise ImportError
      "FAISS is not installed. Install with: pip install faiss-cpu"
  else
    persist_directory_mkdir ;;;
    ix <- (if String.eqb ty "flat" then lift (faiss_IndexFlatL2 dim)
           else if String.eqb ty "ivf" then
             quantizer <- lift (faiss_IndexFlatL2 dim) ;;
             lift (faiss_IndexIVFFlat quantizer dim 100)
           else raise ValueError ("Unsupported index type: " +:+ ty)) ;;
    put_store (fresh_store dim ty ix) ;;;
    load_index ;;;
    s <- get_store ;;
    logger INFO ("Initialized FAISS vector store with "
                 +:+ Py.str_of_int (ntotal (index s)) +:+ " documents").

End VectorStore.

(* ===================================================================== *)
(** * vectorstore.py: VectorStoreManager *)
(* ===================================================================== *)

Section Manager.
Context `{Externals}.

(** [VectorStoreManager.add_texts].  The manager hands its own
    [dimension] to both [MockEmbeddings] and [FAISSVectorStore], so the
    embedder's dimension is read from the store. *)
Definition add_texts (texts : list string) (metadatas : option (list metadata))
    : M (list string) :=
  let metadatas := default (replicate (length texts) ∅) metadatas in
  docs <- for_each (λ '(text, md), new_Document text md) (zip texts metadatas) ;;
  s <- get_store ;;
  let embeddings := embed_documents (dimension s) texts in
  add_documents docs embeddings ;;;
  save_index ;;;
  ret (map doc_id docs).

(** [VectorStoreManager.similarity_search] *)
Definition manager_similarity_search (query : string) (k : Z)
    (filter_metadata : option metadata) : M (list (string * Q)) :=
  s <- get_store ;;
  let query_embedding := embed_query (dimension s) query in
  results <- similarity_search query_embedding k filter_metadata ;;
  ret (map (λ '(doc, score), (doc_content doc, score)) results).

End Manager.

(* ===================================================================== *)
(** * document_processor.py: DocumentProcessor.process_text_content *)
(* ===================================================================== *)

Record DocumentChunk := {
  chunk_id : string;
  chunk_content : string;
  chunk_source : string;
  chunk_index : Z;
  chunk_metadata : metadata;
  chunk_created_at : string
}.

Section Processor.
Context `{Externals}.

(** [DocumentChunk(content, source, chunk_index, metadata)] *)
Definition new_DocumentChunk (content source : string) (chunk_index : Z)
    (md : metadata) : M DocumentChunk :=
  id <- draw_uuid ;;
  created_at <- read_clock ;;
  ret {| chunk_id := id; chunk_content := content; chunk_source := source;
         chunk_index := chunk_index; chunk_metadata := md;
         chunk_created_at := created_at |}.

(** [DocumentProcessor.process_text_content] *)
Definition process_text_content (ts : TextSplitter) (content source_name : string)
    (md : option metadata) : M (list DocumentChunk) :=
  let chunks := split_text ts content in
  document_chunks <-
    for_each (λ '(i, chunk),
                new_DocumentChunk chunk source_name (Z.of_nat i)
                  (<["content_length" := PInt (Py.len content)]>
                     (<["total_chunks" := PInt (Z.of_nat (length chunks))]>
                        (<["file_type" := PStr "text"]> (default ∅ md)))))
             (imap (λ i chunk, (i, chunk)) chunks) ;;
  logger INFO ("Processed text content into "
               +:+ Py.str_of_int (Z.of_nat (length chunks)) +:+ " chunks") ;;;
  ret document_chunks.

End Processor.

(* ===================================================================== *)
(** * qa_rag.py: RAGSystem *)
(* ===================================================================== *)

Record RAGSystem := {
  max_context_length : Z;
  similarity_threshold : Q;
  text_splitter : TextSplitter       (* document_processor.text_splitter *)
}.

(** [RAGSystem()] with the default arguments and the module-level
    [document_processor]. *)
Definition default_rag : RAGSystem :=
  {| max_context_length := 4000; similarity_threshold := 100;
     text_splitter := default_splitter |}.

(** The dictionary returned by [add_text_content]. *)
Record IngestResult := {
  res_source_name : string;
  chunks_created : Z;
  document_ids : list string;
  total_characters : Z;
  res_metadata : option metadata;
  processed_at : string
}.

(** An entry of [source_docs]. *)
Record SourceDoc := {
  src_content : string;
  similarity_score : Q;
  rank : Z
}.

Definition newline2 : string := String "010" (String "010" EmptyString).

(** [f"[Document {i+1}]: {content}"] *)
Definition document_block (i : nat) (content : string) : string :=
  "[Document " +:+ Py.str_of_int (Z.of_nat i + 1) +:+ "]: " +:+ content.

(** [content[:remaining_space-3] + "..."] *)
Definition partial_content (content : string) (remaining_space : Z) : string :=
  Py.slice content 0 (remaining_space - 3) +:+ "...".

(** The [for i, (content, score) in enumerate(filtered_results)] loop of
    [retrieve_context], lines 188-204, started at index [i] with the
    current values of the three accumulators. *)
Fixpoint context_loop (max_len : Z) (i : nat) (results : list (string * Q))
    (context_parts : list string) (total_length : Z)
    (source_docs : list SourceDoc) : list string * list SourceDoc :=
  match results with
  | [] => (context_parts, source_docs)
  | (content, score) :: rest =>
      if max_len <? total_length + Py.len content then
        let remaining_space := max_len - total_length in
        if 100 <? remaining_space then
          (context_parts
             ++ [document_block i (partial_content content remaining_space)],
           source_docs)
        else (context_parts, source_docs)
      else
        context_loop max_len (S i) rest
          (context_parts ++ [document_block i content])
          (total_length + Py.len content)
          (source_docs ++ [{| src_content := content;
                              similarity_score := score;
                              rank := Z.of_nat i + 1 |}])
  end.

(** Context assembly: lines 184-206 of [retrieve_context], from the
    initialisation of the accumulators to the joined context string. *)
Definition assemble (max_len : Z) (hits : list (string * Q))
    : string * list SourceDoc :=
  let '(context_parts, source_docs) := context_loop max_len 0 hits [] 0 [] in
  (Py.join newline2 context_parts, source_docs).

Section RAG.
Context `{Externals}.

(** The metadata dictionary built for one chunk in [add_text_content]. *)
Definition chunk_metadata_for (chunk : DocumentChunk) (source_name : string)
    (md : option metadata) (now : string) : metadata :=
  <["processed_at" := PStr now]>
    (<["chunk_index" := PInt (chunk_index chunk)]>
       (<["source_name" := PStr source_name]>
          (<["chunk_id" := PStr (chunk_id chunk)]>
             (default ∅ md ∪ chunk_metadata chunk)))).

(** [RAGSystem.add_text_content] *)
Definition add_text_content (rag : RAGSystem) (content source_name : string)
    (md : option metadata) : M IngestResult :=
  try_except
    (chunks <- process_text_content (text_splitter rag) content source_name md ;;
     if bool_decide (chunks = []) then raise ValueError "No content to process"
     else
       entries <- for_each (λ chunk,
                              now <- read_clock ;;
                              ret (chunk_content chunk,
                                   chunk_metadata_for chunk source_name md now))
                           chunks ;;
       doc_ids <- add_texts (entries.*1) (Some (entries.*2)) ;;
       now <- read_clock ;;
       let result := {| res_source_name := source_name;
                        chunks_created := Z.of_nat (length chunks);
                        document_ids := doc_ids;
                        total_characters := Py.len content;
                        res_metadata := md;
                        processed_at := now |} in
       logger INFO ("Added text content '" +:+ source_name +:+ "' with "
                    +:+ Py.str_of_int (Z.of_nat (length chunks))
                    +:+ " chunks to RAG system") ;;;
       ret result)
    (λ e, logger ERROR ("Error adding text content to RAG: " +:+ exn_msg e) ;;;
          reraise e).

(** [RAGSystem.retrieve_context].  The first log line also prints the
    first three scores; their rendering is left out of the message. *)
Definition retrieve_context (rag : RAGSystem) (query : string) (k : Z)
    (filter_metadata : option metadata) : M (string * list SourceDoc) :=
  try_except
    (results <- manager_similarity_search query k filter_metadata ;;
     if bool_decide (results = []) then ret ("", [])
     else
       logger INFO ("Found " +:+ Py.str_of_int (Z.of_nat (length results))
                    +:+ " documents") ;;;
       let filtered_results := results in
       if bool_decide (filtered_results = []) then
         logger INFO "No documents found" ;;; ret ("", [])
       else
         let '(context_string, source_docs) :=
           assemble (max_context_length rag) filtered_results in
         logger INFO ("Retrieved "
                      +:+ Py.str_of_int (Z.of_nat (length source_docs))
                      +:+ " relevant documents for query") ;;;
         ret (context_string, source_docs))
    (λ e, logger ERROR ("Error retrieving context for query: " +:+ exn_msg e) ;;;
          ret ("", [])).

End RAG.

(* ===================================================================== *)
(** * A reference instance of the external functions *)
(* ===================================================================== *)

(** Squared Euclidean distance, the metric of [IndexFlatL2]. *)
Definition l2_sqr (x y : vector) : Q :=
  foldr Qplus 0%Q (zip_with (λ a b, (a - b) * (a - b))%Q x y).

Fixpoint insert_by_distance (c : Q * Z) (l : list (Q * Z)) : list (Q * Z) :=
  match l with
  | [] => [c]
  | c' :: l' =>
      if Qle_bool c.1 c'.1 then c :: l else c' :: insert_by_distance c l'
  end.

(** Exhaustive search: the [k] nearest stored vectors in ascending
    distance, earlier slots first among equals. *)
Definition flat_search (ix : FaissIndex) (x : vector) (k : Z)
    : result (list (Q * Z)) :=
  if negb (Z.of_nat (length x) =? index_d ix) then Raise (mkExn AssertionError "")
  else if k <=? 0 then Raise (mkExn AssertionError "")
  else
    let scored := imap (λ i v, (l2_sqr x v, Z.of_nat i)) (index_vectors ix) in
    Ok (take (Z.to_nat k) (foldr insert_by_distance [] scored)).

(** Identifiers [doc-0], [doc-1], ..., timestamps [t0], [t1], ..., and
    the length of the text as its hash. *)
Definition reference_externals : Externals :=
  {| py_hash := λ s, Py.len s;
     uuid4 := λ n, "doc-" +:+ pretty n;
     now_isoformat := λ n, "t" +:+ pretty n;
     faiss_search := flat_search;
     FAISS_AVAILABLE := true;
     mkdir := λ _, None;
     faiss_write_index := λ _, None;
     write_metadata := λ _, None |}.

(** A persist directory with nothing in it. *)
Definition empty_disk : Disk :=
  {| faiss_index_file := Missing; metadata_file := Missing |}.

(** The world after [m], whatever its outcome. *)
Definition after {A} (m : M A) (w : World) : World := (m w).2.

(* ===================================================================== *)
(** * Calls on a store and the states they reach *)
(* ===================================================================== *)

(** The calls a client makes on a constructed store. *)
Inductive call :=
| CallAdd (docs : list Document) (embeddings : list vector)
| CallDelete (doc_id : string)
| CallSearch (query_embedding : vector) (k : Z) (filter_metadata : option metadata)
| CallSave.

Section Calls.
Context `{Externals}.

(** The world after a call; an exception raised by the call is caught by
    the client. *)
Definition exec (c : call) : World → World :=
  match c with
  | CallAdd docs embeddings => after (add_documents docs embeddings)
  | CallDelete doc_id => after (delete_document doc_id)
  | CallSearch q k f => after (similarity_search q k f)
  | CallSave => after save_index
  end.

Definition exec_all (cs : list call) (w : World) : World :=
  foldl (λ w c, exec c w) w cs.

(** States of a store that was constructed, on any disk contents, and then
    used through its methods. *)
Inductive reachable : World → Prop :=
| reach_init dim ty w0 w :
    FAISSVectorStore_init dim ty w0 = (Ok tt, w) → reachable w
| reach_call c w :
    reachable w → reachable (exec c w).

End Calls.

(** Does the call hand a document with this id to [add_documents]? *)
Definition inserts (id : string) (c : call) : Prop :=
  match c with
  | CallAdd docs _ => id ∈ map doc_id docs
  | _ => False
  end.

(** Every key of [documents] is the id of the document stored under it. *)
Definition docs_keyed (s : FAISSVectorStore) : Prop :=
  ∀ k d, documents s !! k = Some d → doc_id d = k.


(** An entry of [metadata["documents"]] that the loop of [load_index]
    restores: it has the three keys and its timestamp parses. *)
Definition entry_ok (dd : DocDict) : bool :=
  match dd_content dd, dd_metadata dd, dd_created_at dd with
  | Some _, Some _, Some (Ok _) => true
  | _, _, _ => false
  end.

(** A metadata dictionary that [load_index] restores in full: it has the
    four keys and every document entry is restorable. *)
Definition metadata_ok (md : Metadata) : bool :=
  match md_documents md, md_id_to_index md, md_index_to_id md,
        md_next_index md with
  | Some items, Some _, Some _, Some _ => forallb (λ e, entry_ok e.2) items
  | _, _, _, _ => false
  end.


(** The document that [load_index] rebuilds from a restorable entry: the
    constructor's uuid and clock reading are overwritten by the key and the
    stored timestamp, and there is no embedding. *)
Definition restore_document (doc_id : string) (dd : DocDict) : Document :=
  {| doc_id := doc_id;
     doc_content := default "" (dd_content dd);
     doc_metadata := default ∅ (dd_metadata dd);
     doc_created_at := match dd_created_at dd with
                       | Some (Ok t) => t
                       | _ => ""
                       end;
     doc_embedding := None |}.

(** The document map after the loop of [load_index] has gone through
    [items], starting from [docs]. *)
Definition restored (items : list (string * DocDict))
    (docs : gmap string Document) : gmap string Document :=
  foldl (λ m e, <[e.1 := restore_document e.1 e.2]> m) docs items.

(** Total length of the contents of a list of hits. *)
Definition total_len (hits : list (string * Q)) : Z :=
  foldr (λ h n, Py.len h.1 + n) 0 hits.

(** The blocks and the source records of hits that are included in full,
    the first of them at index [i]. *)
Definition full_blocks (i : nat) (hits : list (string * Q)) : list string :=
  imap (λ j h, document_block (i + j) h.1) hits.

Definition full_sources (i : nat) (hits : list (string * Q)) : list SourceDoc :=
  imap (λ j h, {| src_content := h.1; similarity_score := h.2;
                  rank := Z.of_nat (i + j) + 1 |}) hits.


(** The world in which a flat store of dimension [dim] has just been set
    up over the disk contents [d]. *)
Definition fresh_world (dim : Z) (d : Disk) : World :=
  {| store := fresh_store dim "flat" (IndexFlatL2 dim []); disk := d;
     log := []; uuids_drawn := 0; clock_reads := 0 |}.

(** ** Sample data for the instances below *)

Definition sample_doc (id content : string) : Document :=
  {| doc_id := id; doc_content := content; doc_metadata := ∅;
     doc_created_at := "2024-01-01T00:00:00"; doc_embedding := None |}.

(** A store of dimension 3 holding two documents. *)
Definition sample_world : World :=
  after (add_documents
           [sample_doc "a" "refund window"; sample_doc "b" "free shipping"]
           [[1; 0; 0]%Q; [0; 1; 0]%Q])
        (fresh_world 3 empty_disk).

(** A store of dimension 3 holding an English and a German document. *)
Definition tagged_world : World :=
  after (add_documents
           [{| doc_id := "en-1"; doc_content := "refund window";
               doc_metadata := {[ "lang" := PStr "en" ]};
               doc_created_at := "2024-01-01T00:00:00";
               doc_embedding := None |};
            {| doc_id := "de-1"; doc_content := "Widerrufsfrist";
               doc_metadata := {[ "lang" := PStr "de" ]};
               doc_created_at := "2024-01-01T00:00:00";
               doc_embedding := None |}]
           [[1; 0; 0]%Q; [1; 0; 0]%Q])
        (fresh_world 3 empty_disk).

(** A persist directory written by a store of dimension 3. *)
Definition disk_of_dimension_3 : Disk :=
  {| faiss_index_file := Stored (IndexFlatL2 3 [[1; 0; 0]%Q]);
     metadata_file :=
       Stored {| md_documents :=
                   Some [("a", {| dd_content := Some "refund window";
                                  dd_metadata := Some ∅;
                                  dd_created_at :=
                                    Some (Ok "2024-01-01T00:00:00") |})];
                 md_id_to_index := Some {[ "a" := 0 ]};
                 md_index_to_id := Some {[ 0 := "a" ]};
                 md_next_index := Some 1;
                 md_dimension := 3;
                 md_index_type := "flat" |} |}.

(** A persist directory whose metadata file cannot be unpickled. *)
Definition disk_with_bad_metadata : Disk :=
  {| faiss_index_file := Stored (IndexFlatL2 3 [[1; 0; 0]%Q]);
     metadata_file := Unreadable (mkExn RuntimeError "pickle data was truncated") |}.

(** A persist directory whose metadata file unpickles to a dictionary
    with two document entries and no ["id_to_index"] key; the second entry
    has a timestamp that [datetime.fromisoformat] refuses. *)
Definition disk_with_partial_metadata : Disk :=
  {| faiss_index_file := Stored (IndexFlatL2 3 [[1; 0; 0]%Q; [0; 1; 0]%Q]);
     metadata_file :=
       Stored {| md_documents :=
                   Some [("a", {| dd_content := Some "refund window";
                                  dd_metadata := Some ∅;
                                  dd_created_at :=
                                    Some (Ok "2024-01-01T00:00:00") |});
                         ("b", {| dd_content := Some "free shipping";
                                  dd_metadata := Some ∅;
                                  dd_created_at :=
                                    Some (Raise (mkExn ValueError
                                      "Invalid isoformat string: 'yesterday'")) |})];
                 md_id_to_index := None;
                 md_index_to_id := Some {[ 0 := "a"; 1 := "b" ]};
                 md_next_index := Some 2;
                 md_dimension := 3;
                 md_index_type := "flat" |} |}.

(** The same directory with parseable timestamps: only the
    ["id_to_index"] key is missing. *)
Definition disk_without_id_to_index : Disk :=
  {| faiss_index_file := Stored (IndexFlatL2 3 [[1; 0; 0]%Q]);
     metadata_file :=
       Stored {| md_documents :=
                   Some [("a", {| dd_content := Some "refund window";
                                  dd_metadata := Some ∅;
                                  dd_created_at :=
                                    Some (Ok "2024-01-01T00:00:00") |})];
                 md_id_to_index := None;
                 md_index_to_id := Some {[ 0 := "a" ]};
                 md_next_index := Some 1;
                 md_dimension := 3;
                 md_index_type := "flat" |} |}.

(* ===================================================================== *)
(** * vectorstore.py: lookups and statistics *)
(* ===================================================================== *)

(** [FAISSVectorStore.get_document] *)
Definition get_document (doc_id : string) : M (option Document) :=
  s <- get_store ;; ret (documents s !! doc_id).

(** The dictionary returned by [get_stats]. *)
Record Stats := {
  total_documents : Z;
  index_size : Z;
  stats_dimension : Z;
  stats_index_type : string;
  stats_is_trained : bool
}.

(** [FAISSVectorStore.get_stats], which [VectorStoreManager.get_stats]
    returns as it is. *)
Definition get_stats : M Stats :=
  s <- get_store ;;
  ret {| total_documents := Z.of_nat (size (documents s));
         index_size := ntotal (index s);
         stats_dimension := dimension s;
         stats_index_type := index_type s;
         stats_is_trained := is_trained (index s) |}.

(** The index after [index.add] of the rows [rows], for a trained index. *)
Definition with_rows (ix : FaissIndex) (rows : list vector) : FaissIndex :=
  match ix with
  | IndexFlatL2 d xb => IndexFlatL2 d (xb ++ rows)
  | IndexIVFFlat d nlist xb => IndexIVFFlat d nlist (Some (default [] xb ++ rows))
  end.

(** The world after a batch was added to the index [ix]. *)
Definition added (docs : list Document) (embeddings : list vector)
    (ix : FaissIndex) (lg : list (level * string)) (w : World) : World :=
  {| store :=
       set_next_index (next_index (store w) + Z.of_nat (length docs))
         (store_documents (next_index (store w)) docs embeddings
            (set_index (with_rows ix embeddings) (store w)));
     disk := disk w;
     log := lg ++ [(INFO, "Added " +:+ Py.str_of_int (Z.of_nat (length docs))
                          +:+ " documents to vector store")];
     uuids_drawn := uuids_drawn w;
     clock_reads := clock_reads w |}.

(** The world after [du] further uuid draws and [dc] further clock reads. *)
Definition bump (du dc : nat) (w : World) : World :=
  {| store := store w; disk := disk w; log := log w;
     uuids_drawn := du + uuids_drawn w;
     clock_reads := dc + clock_reads w |}.

(** The document that [Document(text, md)] builds when [u] uuids have been
    drawn and the clock has been read [c] times, and likewise the chunk
    that [DocumentChunk(...)] builds. *)
Definition drawn_document `{Externals} (u c : nat) (p : string * metadata)
    : Document :=
  {| doc_id := uuid4 u; doc_content := p.1; doc_metadata := p.2;
     doc_created_at := now_isoformat c; doc_embedding := None |}.

Definition drawn_chunk `{Externals} (source : string) (md : metadata)
    (u c : nat) (p : nat * string) : DocumentChunk :=
  {| chunk_id := uuid4 u; chunk_content := p.2; chunk_source := source;
     chunk_index := Z.of_nat p.1; chunk_metadata := md;
     chunk_created_at := now_isoformat c |}.

(** The metadata that [process_text_content] gives every chunk of a text
    split into [n] chunks. *)
Definition processed_metadata (md : option metadata) (content : string)
    (n : nat) : metadata :=
  <["content_length" := PInt (Py.len content)]>
    (<["total_chunks" := PInt (Z.of_nat n)]>
       (<["file_type" := PStr "text"]> (default ∅ md))).

(** The two id mappings agree, and every slot in use is below the slot
    counter. *)
Definition maps_agree (s : FAISSVectorStore) : Prop :=
  ∀ id p, id_to_index s !! id = Some p →
          index_to_id s !! p = Some id ∧ p < next_index s.

(** The documents are exactly the ids that have a slot, and the mappings
    agree. *)
Definition store_consistent (s : FAISSVectorStore) : Prop :=
  maps_agree s ∧
  ∀ id, is_Some (documents s !! id) ↔ is_Some (id_to_index s !! id).

(** A document as [load_index] rebuilds it: the embedding is not
    persisted. *)
Definition without_embedding (doc : Document) : Document :=
  {| doc_id := doc_id doc; doc_content := doc_content doc;
     doc_metadata := doc_metadata doc; doc_created_at := doc_created_at doc;
     doc_embedding := None |}.

(** [s1] occurs in [s2] as a contiguous piece. *)
Definition infix_of (s1 s2 : string) : Prop :=
  ∃ pre post, s2 = pre +:+ s1 +:+ post.

(* ===================================================================== *)
(** * Properties of the chunker *)
(* ===================================================================== *)

Section ChunkerFacts.
Variable ts : TextSplitter.
Variable text : string.

Lemma next_start_gt start end_ : start < next_start ts start end_.
Proof. unfold next_start. lia. Qed.

(** The loop leaves within [fuel] iterations when [fuel] covers the
    distance from [start] to the end of the text. *)
Lemma split_windows_enough fuel start :
  Py.len text - start ≤ Z.of_nat fuel →
  is_Some (split_windows ts text fuel start).
Proof.
  revert start. induction fuel as [|fuel IH]; intros start Hfuel; simpl.
  - destruct (Z.ltb_spec start (Py.len text)); [lia | eauto].
  - destruct (Z.ltb_spec start (Py.len text)); [| eauto].
    destruct (IH (next_start ts start (cut_point ts text start))) as [ws Hws].
    + pose proof (next_start_gt start (cut_point ts text start)). lia.
    + rewrite Hws. simpl. eauto.
Qed.

(** Once the loop has left, more fuel does not change the windows. *)
Lemma split_windows_more_fuel fuel fuel' start ws :
  (fuel ≤ fuel')%nat →
  split_windows ts text fuel start = Some ws →
  split_windows ts text fuel' start = Some ws.
Proof.
  revert fuel' start ws.
  induction fuel as [|fuel IH]; intros fuel' start ws Hle; simpl.
  - destruct (Z.ltb_spec start (Py.len text)) as [Hlt|Hge]; [done |].
    intros [= <-]. destruct fuel'; simpl;
      destruct (Z.ltb_spec start (Py.len text)); (done || lia).
  - destruct fuel' as [|fuel']; [lia |]. simpl.
    destruct (start <? Py.len text); [| done].
    destruct (split_windows ts text fuel _) as [ws'|] eqn:Hws'; [| done].
    intros [= <-]. erewrite IH; [done | lia | done].
Qed.

(** The chunk list is the accumulator followed by the chunks of the
    windows. *)
Lemma split_loop_windows fuel start chunks :
  split_loop ts text fuel start chunks =
  (λ ws, chunks ++ chunks_of_windows text ws) <$> split_windows ts text fuel start.
Proof.
  revert start chunks. induction fuel as [|fuel IH]; intros start chunks; simpl.
  - destruct (start <? Py.len text); simpl; [done |].
    unfold chunks_of_windows. simpl. by rewrite app_nil_r.
  - destruct (start <? Py.len text); simpl.
    + rewrite IH. destruct (split_windows ts text fuel _) as [ws|]; simpl; [| done].
      f_equal. unfold chunks_of_windows. simpl. rewrite filter_cons.
      destruct (Py.truthy _) eqn:Htr; simpl.
      * destruct (decide (true = true)); [| done]. by rewrite <- app_assoc.
      * destruct (decide (false = true)); done.
    + unfold chunks_of_windows. simpl. by rewrite app_nil_r.
Qed.

(** Shape of the window list. *)
Lemma split_windows_shape fuel start ws :
  split_windows ts text fuel start = Some ws →
  (∀ i s e, ws !! i = Some (s, e) → start ≤ s ∧ e = cut_point ts text s) ∧
  (∀ i s e s' e', ws !! i = Some (s, e) → ws !! S i = Some (s', e') →
                  s' = Z.max (s + 1) (e - chunk_overlap ts)) ∧
  (∀ i j s e s' e', (i < j)%nat → ws !! i = Some (s, e) →
                    ws !! j = Some (s', e') → s < s').
Proof.
  revert start ws. induction fuel as [|fuel IH]; intros start ws; simpl.
  - destruct (start <? Py.len text); [done |]. intros [= <-].
    repeat split; intros; by rewrite ?lookup_nil in *.
  - destruct (start <? Py.len text); [| intros [= <-];
      repeat split; intros; by rewrite ?lookup_nil in *].
    destruct (split_windows ts text fuel _) as [ws'|] eqn:Hws'; [| done].
    simpl. intros [= <-].
    destruct (IH _ _ Hws') as (Hge & Hstep & Hinc).
    pose proof (next_start_gt start (cut_point ts text start)) as Hgt.
    assert (Hhead : ∀ j s e, ws' !! j = Some (s, e) → start < s).
    { intros j s e Hj. destruct (Hge _ _ _ Hj). lia. }
    repeat split.
    + destruct i as [|i]; simpl in *; [by simplify_eq | ].
      destruct (Hge _ _ _ H). pose proof (Hhead _ _ _ H). lia.
    + destruct i as [|i]; simpl in *; [by simplify_eq |].
      by destruct (Hge _ _ _ H).
    + intros i s e s' e' Hi Hsi. destruct i as [|i]; simpl in *.
      * simplify_eq. destruct ws' as [|[s0 e0] ws']; simpl in *; [done |].
        simplify_eq. simpl in Hws'. 
        destruct fuel; simpl in Hws'.
        -- destruct (_ <? _); done.
        -- destruct (_ <? _); [| done].
           destruct (split_windows ts text fuel _); simpl in Hws'; [| done].
           by simplify_eq.
      * eauto.
    + intros i j s e s' e' Hij Hi Hj.
      destruct j as [|j]; [lia |]. destruct i as [|i]; simpl in *.
      * simplify_eq. eauto.
      * eapply (Hinc i j); [lia | done | done].
Qed.

End ChunkerFacts.

(** ** Stripping *)

Lemma rstrip_idem s : Py.rstrip (Py.rstrip s) = Py.rstrip s.
Proof.
  induction s as [|c s IH]; simpl; [done |].
  destruct (Py.rstrip s) as [|a r] eqn:Hr.
  - destruct (Py.isspace c) eqn:Hc; simpl; [done |]. by rewrite Hc.
  - simpl in *. by rewrite IH.
Qed.

Lemma lstrip_head s :
  Py.lstrip s = "" ∨ ∃ c s', Py.lstrip s = String c s' ∧ Py.isspace c = false.
Proof.
  induction s as [|c s IH]; simpl; [by left |].
  destruct (Py.isspace c) eqn:Hc; [done |]. right. eauto.
Qed.

Lemma rstrip_head c s :
  Py.isspace c = false → ∃ r, Py.rstrip (String c s) = String c r.
Proof.
  intros Hc. simpl. destruct (Py.rstrip s); [rewrite Hc|]; eauto.
Qed.

Lemma strip_trimmed s : trimmed (Py.strip s).
Proof.
  unfold trimmed, Py.strip. split; [| apply rstrip_idem].
  destruct (lstrip_head s) as [-> | (c & s' & -> & Hc)]; [done |].
  destruct (rstrip_head c s' Hc) as [r ->]. simpl. by rewrite Hc.
Qed.

Lemma truthy_nonempty s : Py.truthy s = true ↔ s ≠ "".
Proof. destruct s; simpl; split; done. Qed.

Lemma chunks_of_windows_trimmed text ws :
  Forall (λ c, trimmed c ∧ c ≠ "") (chunks_of_windows text ws).
Proof.
  apply Forall_forall. intros c Hc. unfold chunks_of_windows in Hc.
  apply list_elem_of_filter in Hc as [Htr Hc].
  apply list_elem_of_fmap in Hc as (w & -> & _).
  split; [apply strip_trimmed | by apply truthy_nonempty].
Qed.

(** ** Lengths of slices and positions found by [rfind] *)

Lemma substring_length_le n m s : (String.length (substring n m s) ≤ m)%nat.
Proof.
  revert n m. induction s as [|c s IH]; intros [|n] [|m]; simpl; try lia.
  - specialize (IH 0%nat m). lia.
  - apply (IH n 0%nat).
  - apply (IH n (S m)).
Qed.

Lemma slice_length_le s a b :
  0 ≤ a → a ≤ b → Py.len (Py.slice s a b) ≤ b - a.
Proof.
  intros Ha Hab. unfold Py.slice, Py.len, Py.adjust.
  pose proof (substring_length_le
    (Z.to_nat (if a <? 0 then Z.max 0 (a + Z.of_nat (String.length s))
               else Z.min a (Z.of_nat (String.length s))))
    (Z.to_nat ((if b <? 0 then Z.max 0 (b + Z.of_nat (String.length s))
                else Z.min b (Z.of_nat (String.length s)))
               - (if a <? 0 then Z.max 0 (a + Z.of_nat (String.length s))
                  else Z.min a (Z.of_nat (String.length s))))) s) as Hlen.
  destruct (Z.ltb_spec a 0), (Z.ltb_spec b 0); lia.
Qed.

Lemma rfind_go_bound s sub st i :
  Py.rfind_go s sub st i = -1 ∨
  (st ≤ Py.rfind_go s sub st i ∧ Py.rfind_go s sub st i ≤ st + Z.of_nat i).
Proof.
  induction i as [|i IH]; simpl.
  - destruct (Py.occurs_at _ _ _); [right; lia | by left].
  - destruct (Py.occurs_at _ _ _); [right; lia |].
    destruct IH as [-> | ?]; [by left | right; lia].
Qed.

Lemma rfind_bound s sub start end_ :
  0 ≤ start → 0 ≤ end_ → end_ ≤ Py.len s →
  Py.rfind s sub start end_ = -1 ∨
  (start ≤ Py.rfind s sub start end_ ∧
   Py.rfind s sub start end_ + Py.len sub ≤ end_).
Proof.
  intros Hs He Hn. unfold Py.rfind.
  destruct (Z.ltb_spec (Py.len s) end_); [lia |].
  destruct (Z.ltb_spec end_ 0); [lia |].
  destruct (Z.ltb_spec start 0); [lia |].
  destruct (Z.ltb_spec (end_ - start) (Py.len sub)); [by left |].
  destruct (rfind_go_bound s sub start
              (Z.to_nat (end_ - start - Py.len sub))) as [-> | ?];
    [by left | right; lia].
Qed.

Lemma len_nonneg s : 0 ≤ Py.len s.
Proof. unfold Py.len. lia. Qed.

(** The cut is not before the window start and at most one position past
    the window end. *)
Lemma cut_point_bounds ts text start :
  0 ≤ start → 0 ≤ chunk_size ts →
  start ≤ cut_point ts text start ≤ start + chunk_size ts + 1.
Proof.
  intros Hs Hc. unfold cut_point.
  destruct (Z.ltb_spec (start + chunk_size ts) (Py.len text)); [| lia].
  pose proof (len_nonneg (separator ts)).
  pose proof (len_nonneg ".").
  pose proof (len_nonneg " ").
  destruct (rfind_bound text (separator ts) start (start + chunk_size ts))
    as [-> | ?]; [lia | lia | lia | | ].
  - simpl.
    destruct (rfind_bound text "." start (start + chunk_size ts))
      as [-> | ?]; [lia | lia | lia | | ].
    + simpl.
      destruct (rfind_bound text " " start (start + chunk_size ts))
        as [-> | ?]; [lia | lia | lia | simpl; lia | ].
      destruct (Z.eqb_spec (Py.rfind text " " start (start + chunk_size ts)) (-1)); lia.
    + destruct (Z.eqb_spec (Py.rfind text "." start (start + chunk_size ts)) (-1)); [|lia].
      destruct (Z.eqb_spec (Py.rfind text " " start (start + chunk_size ts)) (-1)); lia.
  - destruct (Z.eqb_spec (Py.rfind text (separator ts) start (start + chunk_size ts)) (-1)); [|lia].
    destruct (Z.eqb_spec (Py.rfind text "." start (start + chunk_size ts)) (-1)); [|lia].
    destruct (Z.eqb_spec (Py.rfind text " " start (start + chunk_size ts)) (-1)); lia.
Qed.

(** Every slice cut by the loop has at most [chunk_size + 1] characters. *)
Lemma window_length_le_succ ts text fuel ws s e :
  0 ≤ chunk_size ts →
  split_windows ts text fuel 0 = Some ws → (s, e) ∈ ws →
  Py.len (Py.slice text s e) ≤ chunk_size ts + 1.
Proof.
  intros Hc Hws Hin. apply list_elem_of_lookup in Hin as [i Hi].
  destruct (split_windows_shape ts text fuel 0 ws Hws) as (Hge & _ & _).
  destruct (Hge _ _ _ Hi) as [Hs ->].
  pose proof (cut_point_bounds ts text s Hs Hc).
  pose proof (slice_length_le text s (cut_point ts text s) Hs). lia.
Qed.

(** ** The theorems on [split_text] *)

(** C7.  For a text longer than [chunk_size] and a non-negative overlap,
    the loop of [split_text] leaves within [len(text)] iterations, with the
    chunks of the windows it went through as its result (and the same
    result for any larger bound); every window is cut at [cut_point], the
    next window starts at [max(start + 1, cut - overlap)], and the window
    starts increase strictly. *)
Theorem split_text_terminates (ts : TextSplitter) (text : string) :
  chunk_size ts < Py.len text →
  0 ≤ chunk_overlap ts →
  ∃ ws,
    split_windows ts text (String.length text) 0 = Some ws ∧
    (∀ fuel, (String.length text ≤ fuel)%nat →
             split_text_fuel ts fuel text = Some (chunks_of_windows text ws)) ∧
    split_text ts text = chunks_of_windows text ws ∧
    (∀ i s e, ws !! i = Some (s, e) → e = cut_point ts text s) ∧
    (∀ i s e s' e', ws !! i = Some (s, e) → ws !! S i = Some (s', e') →
                    s' = Z.max (s + 1) (e - chunk_overlap ts)) ∧
    (∀ i j s e s' e', (i < j)%nat → ws !! i = Some (s, e) →
                      ws !! j = Some (s', e') → s < s').
Proof.
  intros Hlong _.
  destruct (split_windows_enough ts text (String.length text) 0) as [ws Hws].
  { unfold Py.len. lia. }
  assert (Hfuel : ∀ fuel, (String.length text ≤ fuel)%nat →
            split_text_fuel ts fuel text = Some (chunks_of_windows text ws)).
  { intros fuel Hle. unfold split_text_fuel.
    destruct (Z.leb_spec (Py.len text) (chunk_size ts)); [lia |].
    rewrite split_loop_windows.
    by rewrite (split_windows_more_fuel ts text _ fuel 0 ws Hle Hws). }
  destruct (split_windows_shape ts text _ 0 ws Hws) as (Hge & Hstep & Hinc).
  exists ws. repeat split; try done.
  - unfold split_text. by rewrite Hfuel.
  - intros i s e Hi. by destruct (Hge _ _ _ Hi).
Qed.

Lemma split_text_terminates_witness :
  let ts := {| chunk_size := 3; chunk_overlap := 5; separator := "," |} in
  chunk_size ts < Py.len "abcdefgh" ∧ 0 ≤ chunk_overlap ts ∧
  ∃ ws, split_windows ts "abcdefgh" 8 0 = Some ws ∧
        split_text ts "abcdefgh" = chunks_of_windows "abcdefgh" ws.
Proof.
  assert (Hlong : 3 < Py.len "abcdefgh") by (vm_compute; reflexivity).
  assert (Hov : 0 ≤ 5) by lia.
  split; [exact Hlong | split; [exact Hov |]].
  destruct (split_text_terminates
              {| chunk_size := 3; chunk_overlap := 5; separator := "," |}
              "abcdefgh" Hlong Hov) as (ws & Hws & _ & Hres & _).
  exists ws. split; [exact Hws | exact Hres].
Defined.

(** C6, amended.  For a text longer than [chunk_size], every chunk that
    [split_text] returns is free of leading and trailing whitespace and is
    not empty. *)
Theorem split_text_long_trimmed (ts : TextSplitter) (text : string) :
  chunk_size ts < Py.len text →
  Forall (λ c, trimmed c ∧ c ≠ "") (split_text ts text).
Proof.
  intros Hlong. unfold split_text, split_text_fuel.
  destruct (Z.leb_spec (Py.len text) (chunk_size ts)); [lia |].
  rewrite split_loop_windows.
  destruct (split_windows ts text _ 0) as [ws|]; simpl; [| constructor].
  apply chunks_of_windows_trimmed.
Qed.

Lemma split_text_long_trimmed_witness :
  let ts := {| chunk_size := 4; chunk_overlap := 1; separator := "," |} in
  chunk_size ts < Py.len "ab  cd, ef    gh" ∧
  Forall (λ c, trimmed c ∧ c ≠ "") (split_text ts "ab  cd, ef    gh").
Proof.
  assert (Hlong : 4 < Py.len "ab  cd, ef    gh") by (vm_compute; reflexivity).
  split; [exact Hlong |].
  exact (split_text_long_trimmed
           {| chunk_size := 4; chunk_overlap := 1; separator := "," |}
           "ab  cd, ef    gh" Hlong).
Defined.

(** A text of at most [chunk_size] characters is returned as it is. *)
Lemma split_text_short ts text :
  Py.len text ≤ chunk_size ts → split_text ts text = [text].
Proof.
  intros Hshort. unfold split_text, split_text_fuel.
  by destruct (Z.leb_spec (Py.len text) (chunk_size ts)); [| lia].
Qed.

(** C6, as stated, fails: a short text is returned untrimmed. *)
Lemma split_text_short_untrimmed :
  ¬ Forall (λ c, trimmed c ∧ c ≠ "") (split_text default_splitter " a ").
Proof.
  intros Hall. apply Forall_inv in Hall as [[Hl _] _]. discriminate Hl.
Qed.

(** A whitespace-only or empty short text is returned as a blank chunk. *)
Example split_text_blank :
  split_text default_splitter "" = [""] ∧
  split_text default_splitter "   " = ["   "].
Proof. by vm_compute. Qed.

(** C5 fails on the code.  With [chunk_size = 3] and no separator, period
    or blank in the text, the first slice cut from ["abcdef"] is
    [text[0:4]], four characters long. *)
Theorem split_text_hard_cut_overshoots :
  let ts := {| chunk_size := 3; chunk_overlap := 0; separator := newline2 |} in
  split_windows ts "abcdef" 6 0 = Some [(0, 4); (4, 7)] ∧
  split_text ts "abcdef" = ["abcd"; "ef"] ∧
  Py.slice "abcdef" 0 4 = "abcd" ∧
  chunk_size ts < Py.len (Py.slice "abcdef" 0 4).
Proof. by vm_compute. Qed.

(* ===================================================================== *)
(** * Properties of context assembly *)
(* ===================================================================== *)

Lemma total_len_snoc hits h :
  total_len (hits ++ [h]) = total_len hits + Py.len h.1.
Proof.
  unfold total_len. induction hits as [|h' hits IH]; simpl; [lia |].
  rewrite IH. lia.
Qed.

Lemma full_blocks_cons i h hits :
  full_blocks i (h :: hits) = document_block i h.1 :: full_blocks (S i) hits.
Proof.
  unfold full_blocks. simpl. replace (i + 0)%nat with i by lia.
  f_equal. apply imap_ext. intros j x _. simpl.
  by replace (i + S j)%nat with (S (i + j)) by lia.
Qed.

Lemma full_sources_cons i h hits :
  full_sources i (h :: hits) =
  {| src_content := h.1; similarity_score := h.2; rank := Z.of_nat i + 1 |}
    :: full_sources (S i) hits.
Proof.
  unfold full_sources. simpl. replace (i + 0)%nat with i by lia.
  f_equal. apply imap_ext. intros j x _. simpl.
  by replace (i + S j)%nat with (S (i + j)) by lia.
Qed.

(** What the loop adds to its accumulators: the blocks and sources of the
    longest prefix of hits that fits the budget and then, when a hit is
    left that does not fit and more than 100 characters of budget remain,
    one truncated block and no source. *)
Lemma context_loop_spec max_len hits :
  ∀ i parts total sources,
  ∃ n tail,
    (n ≤ length hits)%nat ∧
    context_loop max_len i hits parts total sources =
      (parts ++ full_blocks i (take n hits) ++ tail,
       sources ++ full_sources i (take n hits)) ∧
    (∀ m, (m ≤ n)%nat → total + total_len (take m hits) ≤ max_len
                        ∨ m = 0%nat) ∧
    ((n = length hits ∧ tail = []) ∨
     ∃ content score,
       hits !! n = Some (content, score) ∧
       let remaining_space := max_len - (total + total_len (take n hits)) in
       remaining_space < Py.len content ∧
       ((100 < remaining_space ∧
         tail = [document_block (i + n)
                   (Py.slice content 0 (remaining_space - 3) +:+ "...")])
        ∨ (remaining_space ≤ 100 ∧ tail = []))).
Proof.
  induction hits as [|[content score] hits IH]; intros i parts total sources.
  - exists 0%nat, []. simpl. rewrite !app_nil_r.
    repeat split; [lia | | by left].
    intros m Hm. right. lia.
  - simpl. destruct (Z.ltb_spec max_len (total + Py.len content)) as [Hover|Hfit].
    + destruct (Z.ltb_spec 100 (max_len - total)) as [Hroom|Hnoroom].
      * exists 0%nat, [document_block i (partial_content content (max_len - total))].
        simpl. rewrite app_nil_r. repeat split; [lia | | ].
        -- intros m Hm. right. lia.
        -- right. exists content, score. simpl.
           replace (total + 0) with total by lia.
           replace (i + 0)%nat with i by lia.
           split; [done |]. split; [lia |]. left. split; [lia | done].
      * exists 0%nat, []. simpl. rewrite !app_nil_r. repeat split; [lia | | ].
        -- intros m Hm. right. lia.
        -- right. exists content, score. simpl.
           replace (total + 0) with total by lia.
           split; [done |]. split; [lia |]. right. split; [lia | done].
    + destruct (IH (S i) (parts ++ [document_block i content])
                  (total + Py.len content)
                  (sources ++ [{| src_content := content;
                                  similarity_score := score;
                                  rank := Z.of_nat i + 1 |}]))
        as (n & tail & Hn & Heq & Hfits & Hend).
      exists (S n), tail. split; [simpl; lia |]. split; [| split].
      * rewrite Heq, firstn_cons, full_blocks_cons, full_sources_cons.
        by rewrite <- !app_assoc.
      * intros [|m] Hm; [by right |]. left. simpl.
        destruct (Hfits m ltac:(lia)) as [Hle | ->]; [lia |]. simpl. lia.
      * simpl. destruct Hend as [[-> ->] | (c & sc & Hlook & Hrem)]; [by left |].
        right. exists c, sc. split; [done |].
        replace (i + S n)%nat with (S i + n)%nat by lia.
        replace (max_len - (total + (Py.len content + total_len (take n hits))))
          with (max_len - (total + Py.len content + total_len (take n hits)))
          by lia.
        exact Hrem.
Qed.

(** A slice from the start of a string, within its length. *)
Lemma slice_prefix content b :
  0 ≤ b ≤ Py.len content →
  Py.slice content 0 b = substring 0 (Z.to_nat b) content.
Proof.
  intros Hb. unfold Py.slice, Py.adjust.
  destruct (Z.ltb_spec 0 0); [lia |].
  destruct (Z.ltb_spec b 0); [lia |].
  rewrite (Z.min_l 0) by lia. rewrite (Z.min_l b) by lia.
  by rewrite Z.sub_0_r.
Qed.

(** C8.  For every budget and hit list there is a number [n] such that the
    sources are exactly the first [n] hits, each with its content, its
    score and its rank 1, 2, ..., [n], and the context is the join, with a
    blank line between blocks, of the blocks "[Document j]: " followed by
    the whole content of hit [j], for those same [n] hits, and of at most
    one further block.  That further block is there exactly when hit
    [n + 1] exists, does not fit what is left of the budget, and more than
    100 characters are left: it carries the label "[Document n+1]: ", the
    first [remaining_space - 3] characters of that hit's content and the
    ellipsis.  That hit has no source, and no later hit is looked at.  So
    a hit is a source if and only if its whole content is in the context
    under its label. *)
Theorem assemble_sources_are_full_hits (max_len : Z) (hits : list (string * Q)) :
  ∃ n tail,
    (n ≤ length hits)%nat ∧
    assemble max_len hits =
      (String.concat (String "010" (String "010" ""))
         (imap (λ j h, "[Document " +:+ pretty (Z.of_nat j + 1) +:+ "]: "
                       +:+ h.1)
               (take n hits) ++ tail),
       imap (λ j h, {| src_content := h.1; similarity_score := h.2;
                       rank := Z.of_nat j + 1 |})
            (take n hits)) ∧
    (total_len (take n hits) ≤ max_len ∨ n = 0%nat) ∧
    ((n = length hits ∧ tail = []) ∨
     ∃ content score,
       hits !! n = Some (content, score) ∧
       let remaining_space := max_len - total_len (take n hits) in
       remaining_space < Py.len content ∧
       ((100 < remaining_space ∧
         tail = ["[Document " +:+ pretty (Z.of_nat n + 1) +:+ "]: "
                 +:+ (substring 0 (Z.to_nat (remaining_space - 3)) content
                      +:+ "...")])
        ∨ (remaining_space ≤ 100 ∧ tail = []))).
Proof.
  destruct (context_loop_spec max_len hits 0 [] 0 [])
    as (n & tail & Hn & Heq & Hfits & Hend).
  exists n, tail. unfold assemble. rewrite Heq. simpl.
  split; [done |]. split; [done |]. split.
  - destruct (Hfits n ltac:(lia)) as [Hle | ->]; [left; lia | by right].
  - destruct Hend as [? | (c & sc & Hlook & Hrem)]; [by left |].
    right. exists c, sc. split; [done |]. simpl in *.
    replace (max_len - (0 + total_len (take n hits)))
      with (max_len - total_len (take n hits)) in Hrem by lia.
    destruct Hrem as [Hover [[Hroom ->] | [Hnoroom ->]]].
    + split; [done |]. left. split; [done |].
      by rewrite slice_prefix by lia.
    + split; [done |]. by right.
Qed.

(** C9, as stated, fails: a hit with empty content fits a budget of 0. *)
Lemma assemble_zero_budget_empty_hit :
  assemble 0 [("", 0%Q)] ≠ ("", []).
Proof. vm_compute. discriminate. Qed.

(** C9, amended.  With a budget of 0, a hit list that is empty or starts
    with a hit of non-empty content gives the empty context and no
    source. *)
Theorem assemble_zero_budget (hits : list (string * Q)) :
  (∀ content score, head hits = Some (content, score) → content ≠ "") →
  assemble 0 hits = ("", []).
Proof.
  intros Hhead. destruct hits as [|[content score] hits]; [done |].
  specialize (Hhead content score eq_refl).
  unfold assemble. simpl.
  destruct content as [|c content]; [done |].
  unfold Py.len. simpl String.length.
  destruct (Z.ltb_spec 0 (0 + Z.of_nat (S (String.length content)))); [| lia].
  done.
Qed.

Lemma assemble_zero_budget_witness :
  (∀ content score,
     head [("refund window", 0%Q); ("shipping", 1%Q)] = Some (content, score) →
     content ≠ "") ∧
  assemble 0 [("refund window", 0%Q); ("shipping", 1%Q)] = ("", []).
Proof.
  assert (Hhead : ∀ content score,
            head [("refund window", 0%Q); ("shipping", 1%Q)]
              = Some (content, score) → content ≠ "").
  { intros content score [= <- _]. discriminate. }
  split; [exact Hhead |].
  exact (assemble_zero_budget _ Hhead).
Defined.

(* ===================================================================== *)
(** * Properties of the vector store *)
(* ===================================================================== *)

Ltac run_monad :=
  unfold bind, lift, ret, raise, reraise, get_store, get_disk, modify_store,
    put_store, put_disk, logger, try_except, get_world, after in *;
  cbn [fst snd store disk log uuids_drawn clock_reads] in *.

Lemma bind_Ok {A B} (m : M A) (k : A → M B) w a w' :
  m w = (Ok a, w') → bind m k w = k a w'.
Proof. unfold bind. by intros ->. Qed.

Lemma bind_Raise {A B} (m : M A) (k : A → M B) w e w' :
  m w = (Raise e, w') → bind m k w = (Raise e, w').
Proof. unfold bind. by intros ->. Qed.

Lemma np_array_uniform embeddings n d rows :
  np_array embeddings = Ok (Array2D n d rows) →
  ∀ v, v ∈ embeddings → Z.of_nat (length v) = d.
Proof.
  destruct embeddings as [|v0 vs]; simpl; [done |].
  destruct (forallb _ vs) eqn:Hall; [| done].
  intros [= _ <- _] v Hv. apply elem_of_cons in Hv as [-> | Hv]; [done |].
  rewrite forallb_forall in Hall. apply list_elem_of_In in Hv.
  apply Hall in Hv. apply Nat.eqb_eq in Hv. by rewrite Hv.
Qed.

Lemma faiss_rows_mismatch ix n d rows :
  d ≠ index_d ix → ∃ e, faiss_rows ix (Array2D n d rows) = Raise e.
Proof.
  intros Hd. simpl. destruct (Z.eqb_spec d (index_d ix)); [done | eauto].
Qed.

Lemma untrained_ntotal ix : is_trained ix = false → ntotal ix = 0.
Proof.
  by destruct ix as [d xb | d nlist [xb|]].
Qed.

Section StoreFacts.
Context `{Externals}.

(** C1.  On a store whose declared dimension and whose numeric index both
    have dimension [D], [add_documents] raises when the number of documents
    differs from the number of vectors or when a vector does not have [D]
    coordinates; the document map, both id mappings, the slot counter and
    the number of stored vectors are then what they were before the
    call. *)
Theorem add_documents_mismatch_fails
    (D : Z) (docs : list Document) (embeddings : list vector) (w : World) :
  dimension (store w) = D →
  index_d (index (store w)) = D →
  length docs ≠ length embeddings
    ∨ (∃ v, v ∈ embeddings ∧ Z.of_nat (length v) ≠ D) →
  ∃ e w',
    add_documents docs embeddings w = (Raise e, w') ∧
    documents (store w') = documents (store w) ∧
    id_to_index (store w') = id_to_index (store w) ∧
    index_to_id (store w') = index_to_id (store w) ∧
    next_index (store w') = next_index (store w) ∧
    ntotal (index (store w')) = ntotal (index (store w)).
Proof.
  intros Hdim Hd Hbad. unfold add_documents.
  destruct (Nat.eqb_spec (length docs) (length embeddings)) as [Hlen|Hlen];
    cbn [negb].
  2: { run_monad. eauto 10. }
  destruct Hbad as [? | (v & Hv & Hvlen)]; [done |].
  run_monad.
  destruct (np_array embeddings) as [[|n d rows]|e] eqn:Harr; [| | eauto 10].
  { destruct embeddings; [by apply elem_of_nil in Hv | simpl in Harr].
    by destruct (forallb _ _). }
  assert (Hne : d ≠ D).
  { rewrite <- (np_array_uniform _ _ _ _ Harr v Hv). done. }
  destruct (String.eqb (index_type (store w)) "ivf"
            && negb (is_trained (index (store w)))) eqn:Hivf.
  - apply andb_prop in Hivf as [_ Htr]. apply negb_true_iff in Htr.
    cbn [shape0]. destruct (100 <=? n).
    + unfold faiss_train.
      destruct (faiss_rows_mismatch (index (store w)) n d rows) as [e ->];
        [congruence | eauto 10].
    + cbn. unfold faiss_add.
      destruct (faiss_rows_mismatch (IndexFlatL2 (dimension (store w)) [])
                  n d rows) as [e ->]; [simpl; congruence |].
      do 2 eexists. split; [reflexivity |]. cbn.
      by rewrite (untrained_ntotal _ Htr).
  - unfold faiss_add.
    destruct (faiss_rows_mismatch (index (store w)) n d rows) as [e ->];
      [congruence | eauto 10].
Qed.

(** ** Which documents a call can put into, or leave in, the store *)

Lemma enumerate_ids (g : nat → nat) (docs : list Document) :
  map (λ p : nat * Document, doc_id p.2) (imap (λ i doc, (g i, doc)) docs)
  = map doc_id docs.
Proof.
  revert g. induction docs as [|doc docs IH]; intros g; simpl; [done |].
  f_equal. apply (IH (g ∘ S)).
Qed.

Lemma store_documents_lookup start docs embeddings s k d :
  documents (store_documents start docs embeddings s) !! k = Some d →
  documents s !! k = Some d ∨ (doc_id d = k ∧ k ∈ map doc_id docs).
Proof.
  unfold store_documents.
  rewrite <- (enumerate_ids id docs). unfold id.
  generalize (imap (λ i doc, (i, doc)) docs). intros l. revert s.
  induction l as [|[i doc] l IH]; intros s; simpl; [by left |].
  intros Hk. apply IH in Hk as [Hk | [Hid Hin]].
  - cbn in Hk. destruct (decide (doc_id doc = k)) as [<- | Hne].
    + rewrite lookup_insert_eq in Hk. simplify_eq. right.
      split; [done | apply elem_of_cons; by left].
    + rewrite lookup_insert_ne in Hk by done. by left.
  - right. split; [done | apply elem_of_cons; by right].
Qed.

Lemma add_documents_lookup docs embeddings w k d :
  documents (store (after (add_documents docs embeddings) w)) !! k = Some d →
  documents (store w) !! k = Some d ∨ (doc_id d = k ∧ k ∈ map doc_id docs).
Proof.
  unfold add_documents.
  destruct (negb _); [run_monad; by left |].
  run_monad.
  destruct (np_array embeddings) as [arr|e]; [| by left].
  destruct (String.eqb _ _ && negb _).
  - destruct (100 <=? shape0 arr).
    + destruct (faiss_train _ arr) as [ix|e]; cbn; [| by left].
      destruct (faiss_add ix arr) as [ix'|e]; cbn; [| by left].
      intros Hk. by apply store_documents_lookup in Hk.
    + cbn. destruct (faiss_add _ arr) as [ix'|e]; cbn; [| by left].
      intros Hk. by apply store_documents_lookup in Hk.
  - cbn. destruct (faiss_add _ arr) as [ix'|e]; cbn; [| by left].
    intros Hk. by apply store_documents_lookup in Hk.
Qed.

Lemma delete_document_lookup id w k d :
  documents (store (after (delete_document id) w)) !! k = Some d →
  documents (store w) !! k = Some d ∧ k ≠ id.
Proof.
  unfold delete_document. run_monad.
  destruct (bool_decide (is_Some (documents (store w) !! id))) eqn:Hin.
  - assert (Hdel : documents (store w) !! k = Some d ∧ k ≠ id
                   ∨ delete id (documents (store w)) !! k = Some d →
                   documents (store w) !! k = Some d ∧ k ≠ id).
    { intros [? | Hk]; [done |]. by apply lookup_delete_Some in Hk as [? ?]. }
    destruct (id_to_index (store w) !! id) as [index_pos|]; cbn.
    + destruct (bool_decide (is_Some (index_to_id (store w) !! index_pos)));
        run_monad; cbn; intros Hk; apply Hdel; by right.
    + intros Hk. apply Hdel. by right.
  - apply bool_decide_eq_false in Hin. cbn. intros Hk. split; [done |].
    intros ->. apply Hin. eauto.
Qed.

(** A successful [delete_document] removes the document and leaves the
    numeric index as it is. *)
Lemma delete_document_true id w w' :
  delete_document id w = (Ok true, w') →
  documents (store w') !! id = None ∧ index (store w') = index (store w).
Proof.
  intros Hdel. split.
  - destruct (documents (store w') !! id) as [d|] eqn:Hk; [| done].
    replace w' with (after (delete_document id) w) in Hk
      by (unfold after; by rewrite Hdel).
    by apply delete_document_lookup in Hk as [_ ?].
  - revert Hdel. unfold delete_document. run_monad.
    destruct (bool_decide (is_Some (documents (store w) !! id))); [| done].
    destruct (id_to_index (store w) !! id) as [index_pos|]; cbn.
    + destruct (bool_decide (is_Some (index_to_id (store w) !! index_pos)));
        run_monad; cbn; [| done]. by intros [= <-].
    + by intros [= <-].
Qed.

Lemma similarity_search_store q k f w :
  store (after (similarity_search q k f) w) = store w.
Proof.
  unfold similarity_search. run_monad.
  destruct (ntotal _ =? 0); [done |]. by destruct (faiss_search _ _ _).
Qed.

(** [save_index] returns normally whatever the file system does, and only
    the persist directory and the log change. *)
Lemma save_index_total w :
  ∃ w' lv msg,
    save_index w = (Ok tt, w') ∧ store w' = store w ∧
    log w' = log w ++ [(lv, msg)] ∧
    uuids_drawn w' = uuids_drawn w ∧ clock_reads w' = clock_reads w.
Proof.
  unfold save_index, write_index_file, write_metadata_file. run_monad.
  destruct (faiss_write_index w) as [[e f]|]; cbn; [eauto 10 |].
  destruct (write_metadata _) as [[e f]|]; cbn; eauto 10.
Qed.

Lemma save_index_store w : store (after save_index w) = store w.
Proof.
  destruct (save_index_total w) as (w' & lv & msg & Heq & Hstore & _).
  unfold after. by rewrite Heq.
Qed.

(** Every hit of a search is a document of the store, found under a key. *)
Lemma similarity_search_hits q k f w hits w' :
  similarity_search q k f w = (Ok hits, w') →
  ∀ hit, hit ∈ hits → ∃ key, documents (store w) !! key = Some hit.1.
Proof.
  unfold similarity_search. run_monad.
  destruct (ntotal _ =? 0); [intros [= <- _] hit Hin; by apply elem_of_nil in Hin |].
  destruct (faiss_search _ _ _) as [found|e]; [| done].
  intros [= <- _] hit Hin. apply list_elem_of_omap in Hin as ([dist ix] & _ & Hc).
  unfold search_candidate in Hc.
  destruct (ix =? -1); [done |].
  destruct (index_to_id (store w) !! ix) as [key|]; [| done].
  destruct (Py.truthy key); [| done].
  destruct (documents (store w) !! key) as [doc|] eqn:Hdoc; [| done].
  exists key. destruct f as [f|]; [destruct (_ && _) |]; by simplify_eq.
Qed.

(** ** The key invariant of reachable states *)

Lemma restored_keyed items docs :
  (∀ k d, docs !! k = Some d → doc_id d = k) →
  ∀ k d, restored items docs !! k = Some d → doc_id d = k.
Proof.
  revert docs. induction items as [|[id dd] items IH]; intros docs Hdocs;
    [done |].
  apply IH. intros k d. cbn. destruct (decide (id = k)) as [-> | Hne].
  - rewrite lookup_insert_eq. by intros [= <-].
  - rewrite lookup_insert_ne by done. apply Hdocs.
Qed.

(** One pass of the loop of [load_index] on a restorable entry. *)
Lemma restore_entry_ok id dd w :
  entry_ok dd = true →
  restore_entry (id, dd) w
  = (Ok tt,
     {| store := set_documents (<[id := restore_document id dd]>
                                  (documents (store w))) (store w);
        disk := disk w; log := log w;
        uuids_drawn := S (uuids_drawn w);
        clock_reads := S (clock_reads w) |}).
Proof.
  destruct dd as [[content|] [md|] [[created_at|e]|]]; intros Hok;
    try discriminate Hok.
  unfold restore_entry, subscript, new_Document, draw_uuid, read_clock.
  by run_monad.
Qed.

(** One pass of the loop on any other entry: it raises, and neither the
    store nor the directory nor the log has changed. *)
Lemma restore_entry_bad id dd w :
  entry_ok dd = false →
  ∃ e w',
    restore_entry (id, dd) w = (Raise e, w') ∧
    store w' = store w ∧ disk w' = disk w ∧ log w' = log w.
Proof.
  destruct dd as [[content|] [md|] [[created_at|e]|]]; intros Hbad;
    try discriminate Hbad;
    unfold restore_entry, subscript, new_Document, draw_uuid, read_clock;
    run_monad; eauto 10.
Qed.

(** The loop of [load_index]: it restores the entries in order, up to the
    first one that is not restorable, where it raises. *)
Lemma restore_loop items w :
  ∃ r w' n,
    for_each restore_entry items w = (r, w') ∧
    (n ≤ length items)%nat ∧
    store w' = set_documents (restored (take n items) (documents (store w)))
                             (store w) ∧
    disk w' = disk w ∧ log w' = log w ∧
    match r with
    | Ok _ =>
        forallb (λ e, entry_ok e.2) items = true ∧ n = length items ∧
        uuids_drawn w' = (length items + uuids_drawn w)%nat ∧
        clock_reads w' = (length items + clock_reads w)%nat
    | Raise _ => forallb (λ e, entry_ok e.2) items = false
    end.
Proof.
  revert w. induction items as [|[id dd] items IH]; intros w.
  - exists (Ok []), w, 0%nat. cbn. split_and!; try done. by destruct w as [[]].
  - cbn [for_each forallb snd]. destruct (entry_ok dd) eqn:Hdd.
    + rewrite (bind_Ok _ _ _ _ _ (restore_entry_ok id dd w Hdd)).
      match goal with
      | |- context [bind (for_each restore_entry items) _ ?w1] =>
          destruct (IH w1) as (r & w' & n & Heq & Hn & Hstore & Hdisk & Hlog & Hr)
      end.
      cbn [store disk log uuids_drawn clock_reads documents set_documents]
        in Hstore, Hdisk, Hlog, Hr.
      destruct r as [units|e].
      * rewrite (bind_Ok _ _ _ _ _ Heq). unfold ret.
        exists (Ok (tt :: units)), w', (S n). split; [done |].
        destruct Hr as (Hall & -> & Hu & Hc).
        cbn [length take andb]. split_and!; try done; lia.
      * rewrite (bind_Raise _ _ _ _ _ Heq).
        exists (Raise e), w', (S n). split; [done |]. cbn [length take andb].
        split_and!; try done. lia.
    + destruct (restore_entry_bad id dd w Hdd)
        as (e & w' & Heq & Hstore & Hdisk & Hlog).
      rewrite (bind_Raise _ _ _ _ _ Heq).
      exists (Raise e), w', 0%nat. cbn. split_and!; try done; [lia |].
      rewrite Hstore. by destruct (store w).
Qed.

(** With a file missing, [load_index] does nothing at all. *)
Lemma load_index_missing w :
  faiss_index_file (disk w) = Missing ∨ metadata_file (disk w) = Missing →
  load_index w = (Ok tt, w).
Proof.
  intros Hmissing. unfold load_index, load_index_body. run_monad.
  destruct Hmissing as [-> | ->]; cbn; [done |].
  by rewrite andb_false_r.
Qed.

(** With an index file that [faiss.read_index] refuses, the store is left
    as it is and the refusal is logged. *)
Lemma load_index_no_index w e :
  faiss_index_file (disk w) = Unreadable e →
  metadata_file (disk w) ≠ Missing →
  load_index w
  = (Ok tt,
     {| store := store w; disk := disk w;
        log := log w ++ [(WARNING, "Could not load existing vector store: "
                                   +:+ exn_msg e)];
        uuids_drawn := uuids_drawn w; clock_reads := clock_reads w |}).
Proof.
  intros Hix Hmd. unfold load_index, load_index_body. run_monad.
  rewrite Hix. by destruct (metadata_file (disk w)).
Qed.

(** With a metadata file that [pickle.load] refuses, the index read from
    the index file stays in the store and nothing else is touched. *)
Lemma load_index_no_metadata w ix e :
  faiss_index_file (disk w) = Stored ix →
  metadata_file (disk w) = Unreadable e →
  load_index w
  = (Ok tt,
     {| store := set_index ix (store w); disk := disk w;
        log := log w ++ [(WARNING, "Could not load existing vector store: "
                                   +:+ exn_msg e)];
        uuids_drawn := uuids_drawn w; clock_reads := clock_reads w |}).
Proof.
  intros Hix Hmd. unfold load_index, load_index_body. run_monad.
  by rewrite Hix, Hmd.
Qed.

(** With two files that their loaders accept: the index is replaced, the
    documents are the entries restored before the first entry that is not
    restorable, and the load ends with the info line when the dictionary
    is restorable in full and with a warning otherwise. *)
Lemma load_index_stored w ix md :
  faiss_index_file (disk w) = Stored ix →
  metadata_file (disk w) = Stored md →
  ∃ w' n,
    load_index w = (Ok tt, w') ∧
    disk w' = disk w ∧
    index (store w') = ix ∧
    dimension (store w') = dimension (store w) ∧
    index_type (store w') = index_type (store w) ∧
    (n ≤ length (default [] (md_documents md)))%nat ∧
    documents (store w')
      = restored (take n (default [] (md_documents md))) ∅ ∧
    (metadata_ok md = true →
       n = length (default [] (md_documents md)) ∧
       md_id_to_index md = Some (id_to_index (store w')) ∧
       md_index_to_id md = Some (index_to_id (store w')) ∧
       md_next_index md = Some (next_index (store w')) ∧
       log w' = log w ++ [(INFO, "Loaded vector store with "
                                 +:+ Py.str_of_int
                                       (Z.of_nat (size (documents (store w'))))
                                 +:+ " documents")]) ∧
    (metadata_ok md = false → ∃ msg, log w' = log w ++ [(WARNING, msg)]).
Proof.
  intros Hix Hmd. unfold load_index, load_index_body, try_except.
  rewrite (bind_Ok get_disk _ w (disk w) w eq_refl), Hix, Hmd.
  cbn [exists_ andb read_file].
  rewrite (bind_Ok (ret ix) _ w ix w eq_refl).
  set (w1 := {| store := set_index ix (store w); disk := disk w; log := log w;
                uuids_drawn := uuids_drawn w; clock_reads := clock_reads w |}).
  rewrite (bind_Ok (modify_store (set_index ix)) _ w tt w1 eq_refl).
  rewrite (bind_Ok (ret md) _ w1 md w1 eq_refl).
  set (w2 := {| store := set_documents ∅ (store w1); disk := disk w; log := log w;
                uuids_drawn := uuids_drawn w; clock_reads := clock_reads w |}).
  rewrite (bind_Ok (modify_store (set_documents ∅)) _ w1 tt w2 eq_refl).
  unfold metadata_ok.
  destruct (md_documents md) as [items|]; cbn [default from_option id subscript].
  2: { cbn. exists (after (logger WARNING
                   "Could not load existing vector store: 'documents'") w2), 0%nat.
       cbn. split_and!; try done. eauto. }
  rewrite (bind_Ok (ret items) _ w2 items w2 eq_refl).
  destruct (restore_loop items w2)
    as (r & w3 & n & Heq & Hn & Hstore & Hdisk & Hlog & Hr).
  cbn [store documents set_documents] in Hstore.
  destruct r as [units|e].
  2: { rewrite (bind_Raise _ _ _ _ _ Heq).
       exists (after (logger WARNING
                 ("Could not load existing vector store: " +:+ exn_msg e)) w3), n.
       run_monad. rewrite Hstore, Hlog, Hr. cbn.
       split_and!; try done; [by destruct (md_id_to_index md), (md_index_to_id md),
                                 (md_next_index md) | eauto]. }
  rewrite (bind_Ok _ _ _ _ _ Heq).
  destruct Hr as (Hall & -> & Hu & Hc). rewrite Hall. rewrite firstn_all in Hstore.
  destruct w3 as [s3 d3 lg3 u3 c3]. cbn in Hstore, Hdisk, Hlog. subst s3 d3 lg3.
  destruct (md_id_to_index md) as [i2x|]; cbn [subscript].
  2: { cbn. eexists _, (length items). split; [reflexivity |]. cbn.
       rewrite firstn_all. split_and!; try done. eauto. }
  destruct (md_index_to_id md) as [x2i|]; cbn [subscript].
  2: { cbn. eexists _, (length items). split; [reflexivity |]. cbn.
       rewrite firstn_all. split_and!; try done. eauto. }
  destruct (md_next_index md) as [next|]; cbn [subscript].
  2: { cbn. eexists _, (length items). split; [reflexivity |]. cbn.
       rewrite firstn_all. split_and!; try done. eauto. }
  cbn. eexists _, (length items). split; [reflexivity |]. cbn.
  rewrite firstn_all. split_and!; done.
Qed.

(** [load_index] never raises, never changes the configuration, and
    leaves every document filed under its own id. *)
Lemma load_index_total w :
  ∃ w', load_index w = (Ok tt, w') ∧
        disk w' = disk w ∧
        dimension (store w') = dimension (store w) ∧
        index_type (store w') = index_type (store w) ∧
        (docs_keyed (store w) → docs_keyed (store w')).
Proof.
  destruct (faiss_index_file (disk w)) as [|e|ix] eqn:Hix.
  { exists w. split; [apply load_index_missing; by left | done]. }
  all: destruct (metadata_file (disk w)) as [|e'|md] eqn:Hmd.
  all: try (exists w; split; [apply load_index_missing; by right | done]).
  - rewrite (load_index_no_index w e Hix) by (by rewrite Hmd). eauto 10.
  - rewrite (load_index_no_index w e Hix) by (by rewrite Hmd). eauto 10.
  - rewrite (load_index_no_metadata w ix e' Hix Hmd). eexists.
    split; [reflexivity |]. cbn. split_and!; try done.
  - destruct (load_index_stored w ix md Hix Hmd)
      as (w' & n & Heq & Hdisk & _ & Hdim & Hty & _ & Hdocs & _).
    exists w'. split_and!; try done. intros _ k d. rewrite Hdocs.
    apply restored_keyed. intros k' d'. by rewrite lookup_empty.
Qed.

Lemma load_index_keyed w :
  docs_keyed (store w) → docs_keyed (store (after load_index w)).
Proof.
  destruct (load_index_total w) as (w' & Heq & _ & _ & _ & Hkeyed).
  unfold after. by rewrite Heq.
Qed.

Lemma persist_directory_mkdir_eq w :
  persist_directory_mkdir w
  = match mkdir w with None => (Ok tt, w) | Some e => (Raise e, w) end.
Proof. unfold persist_directory_mkdir. run_monad. by destruct (mkdir w). Qed.

(** The constructor, once the environment checks have passed and the
    index object exists. *)
Lemma init_tail dim ty ix w :
  ∃ w',
    (put_store (fresh_store dim ty ix) ;;;
     load_index ;;;
     s <- get_store ;;
     logger INFO ("Initialized FAISS vector store with "
                  +:+ Py.str_of_int (ntotal (index s)) +:+ " documents")) w
    = (Ok tt, w') ∧
    dimension (store w') = dim ∧ index_type (store w') = ty ∧
    disk w' = disk w ∧
    docs_keyed (store w') ∧
    last (log w')
      = Some (INFO, "Initialized FAISS vector store with "
                    +:+ Py.str_of_int (ntotal (index (store w')))
                    +:+ " documents").
Proof.
  unfold bind at 1. cbn [put_store].
  match goal with
  | |- context [bind load_index _ ?w1] =>
      destruct (load_index_total w1) as (w2 & Heq & Hdisk & Hdim & Hty & Hkeyed)
  end.
  rewrite (bind_Ok _ _ _ _ _ Heq). run_monad. cbn in *.
  eexists. split; [reflexivity |]. cbn. split_and!; try done.
  - apply Hkeyed. intros k d. cbn. by rewrite lookup_empty.
  - by rewrite last_snoc.
Qed.

Lemma init_keyed dim ty w0 w :
  FAISSVectorStore_init dim ty w0 = (Ok tt, w) → docs_keyed (store w).
Proof.
  unfold FAISSVectorStore_init.
  destruct FAISS_AVAILABLE; cbn [negb]; [| done].
  unfold bind at 1. rewrite persist_directory_mkdir_eq.
  destruct (mkdir w0) as [e|]; [done |].
  assert (Hgo : ∀ ix r,
    (put_store (fresh_store dim ty ix) ;;;
     load_index ;;;
     s <- get_store ;;
     logger INFO ("Initialized FAISS vector store with "
                  +:+ Py.str_of_int (ntotal (index s)) +:+ " documents")) w0
    = (r, w) → docs_keyed (store w)).
  { intros ix r. destruct (init_tail dim ty ix w0) as (w' & -> & _ & _ & _ & Hk & _).
    by intros [= _ <-]. }
  unfold bind at 1.
  destruct (String.eqb ty "flat").
  - unfold lift. destruct (faiss_IndexFlatL2 dim) as [ix|e]; [apply Hgo | done].
  - destruct (String.eqb ty "ivf"); [| done].
    unfold bind at 1, lift.
    destruct (faiss_IndexFlatL2 dim) as [q|e]; [| done].
    destruct (faiss_IndexIVFFlat q dim 100) as [ix|e]; [apply Hgo | done].
Qed.

Lemma exec_keyed c w : docs_keyed (store w) → docs_keyed (store (exec c w)).
Proof.
  intros Hkeyed. destruct c as [docs embeddings | id | q k f |]; simpl.
  - intros key d Hk. by apply add_documents_lookup in Hk as [Hk | [? _]]; eauto.
  - intros key d Hk. apply delete_document_lookup in Hk as [Hk _]. eauto.
  - by rewrite similarity_search_store.
  - by rewrite save_index_store.
Qed.

Lemma reachable_keyed w : reachable w → docs_keyed (store w).
Proof.
  induction 1 as [dim ty w0 w Hinit | c w _ IH];
    [by eapply init_keyed | by apply exec_keyed].
Qed.

Lemma exec_absent id c w :
  ¬ inserts id c → docs_keyed (store w) →
  documents (store w) !! id = None →
  documents (store (exec c w)) !! id = None.
Proof.
  intros Hins Hkeyed Habs.
  destruct (documents (store (exec c w)) !! id) as [d|] eqn:Hk; [| done].
  exfalso. destruct c as [docs embeddings | id' | q k f |]; simpl in *.
  - apply add_documents_lookup in Hk as [Hk | [_ Hin]]; [congruence | done].
  - apply delete_document_lookup in Hk as [Hk _]. congruence.
  - rewrite similarity_search_store in Hk. congruence.
  - rewrite save_index_store in Hk. congruence.
Qed.

Lemma exec_all_absent id cs w :
  Forall (λ c, ¬ inserts id c) cs → docs_keyed (store w) →
  documents (store w) !! id = None →
  docs_keyed (store (exec_all cs w)) ∧
  documents (store (exec_all cs w)) !! id = None.
Proof.
  intros Hcs. revert w. induction Hcs as [|c cs Hc _ IH]; intros w Hkeyed Habs;
    [done |].
  apply IH; [by apply exec_keyed | by apply exec_absent].
Qed.

(** C3.  In a reachable state, once [delete_document id] has returned
    [True], the numeric index is what it was before the deletion (the slot
    is still stored), and a search made then, or after any further calls
    that do not insert a document with that id again, returns no hit whose
    document has the id. *)
Theorem deleted_document_never_returned
    (w : World) (id : string) (w1 : World) (cs : list call)
    (q : vector) (k : Z) (f : option metadata)
    (hits : list (Document * Q)) (w2 : World) :
  reachable w →
  delete_document id w = (Ok true, w1) →
  Forall (λ c, ¬ inserts id c) cs →
  similarity_search q k f (exec_all cs w1) = (Ok hits, w2) →
  index (store w1) = index (store w) ∧
  ntotal (index (store w1)) = ntotal (index (store w)) ∧
  Forall (λ hit, doc_id hit.1 ≠ id) hits.
Proof.
  intros Hreach Hdel Hcs Hsearch.
  destruct (delete_document_true _ _ _ Hdel) as [Habs Hindex].
  split; [done |]. split; [by rewrite Hindex |].
  assert (Hkeyed1 : docs_keyed (store w1)).
  { replace w1 with (exec (CallDelete id) w)
      by (simpl; unfold after; by rewrite Hdel).
    by apply exec_keyed, reachable_keyed. }
  destruct (exec_all_absent id cs w1 Hcs Hkeyed1 Habs) as [Hkeyed Habsent].
  apply Forall_forall. intros hit Hin Hid.
  destruct (similarity_search_hits _ _ _ _ _ _ Hsearch hit Hin) as [key Hkey].
  pose proof (Hkeyed _ _ Hkey) as Hkeyid. congruence.
Qed.

End StoreFacts.

Lemma add_documents_mismatch_fails_witness :
  let doc := sample_doc "c" "ten dimensions" in
  dimension (store sample_world) = 3 ∧
  index_d (index (store sample_world)) = 3 ∧
  (length [doc] ≠ length [[1; 2]%Q]
   ∨ (∃ v, v ∈ [[1; 2]%Q] ∧ Z.of_nat (length v) ≠ 3)) ∧
  ∃ e w',
    add_documents [doc] [[1; 2]%Q] sample_world = (Raise e, w') ∧
    ntotal (index (store w')) = 2.
Proof.
  assert (Hdim : dimension (store sample_world) = 3) by reflexivity.
  assert (Hd : index_d (index (store sample_world)) = 3) by reflexivity.
  assert (Hbad : length [sample_doc "c" "ten dimensions"] ≠ length [[1; 2]%Q]
                 ∨ (∃ v, v ∈ [[1; 2]%Q] ∧ Z.of_nat (length v) ≠ 3)).
  { right. exists [1; 2]%Q. split; [apply list_elem_of_here | simpl; lia]. }
  split; [exact Hdim |]. split; [exact Hd |]. split; [exact Hbad |].
  destruct (add_documents_mismatch_fails 3 [sample_doc "c" "ten dimensions"]
              [[1; 2]%Q] sample_world Hdim Hd Hbad)
    as (e & w' & Heq & _ & _ & _ & _ & Hn).
  exists e, w'. split; [exact Heq | exact Hn].
Defined.

Section StoreWitness.
#[local] Existing Instance reference_externals.

Lemma deleted_document_never_returned_witness :
  let w := exec (CallAdd [sample_doc "a" "refund window";
                          sample_doc "b" "free shipping"]
                         [[1; 0; 0]%Q; [0; 1; 0]%Q])
                (after (FAISSVectorStore_init 3 "flat") (fresh_world 0 empty_disk)) in
  let w1 := after (delete_document "a") w in
  let cs := [CallAdd [sample_doc "c" "gift cards"] [[0; 0; 1]%Q]; CallSave] in
  reachable w ∧
  delete_document "a" w = (Ok true, w1) ∧
  Forall (λ c, ¬ inserts "a" c) cs ∧
  ∃ hits w2,
    similarity_search [1; 0; 0]%Q 3 None (exec_all cs w1) = (Ok hits, w2) ∧
    ntotal (index (store w1)) = 2 ∧
    Forall (λ hit, doc_id hit.1 ≠ "a") hits.
Proof.
  set (w0 := after (FAISSVectorStore_init 3 "flat") (fresh_world 0 empty_disk)).
  set (w := exec (CallAdd [sample_doc "a" "refund window";
                           sample_doc "b" "free shipping"]
                          [[1; 0; 0]%Q; [0; 1; 0]%Q]) w0).
  set (w1 := after (delete_document "a") w).
  set (cs := [CallAdd [sample_doc "c" "gift cards"] [[0; 0; 1]%Q]; CallSave]).
  assert (Hreach : reachable w).
  { apply reach_call.
    apply (reach_init 3 "flat" (fresh_world 0 empty_disk)).
    vm_compute. reflexivity. }
  assert (Hdel : delete_document "a" w = (Ok true, w1))
    by (vm_compute; reflexivity).
  assert (Hcs : Forall (λ c, ¬ inserts "a" c) cs).
  { repeat constructor; simpl; [| tauto].
    intros Hin. apply list_elem_of_singleton in Hin. discriminate Hin. }
  cbv zeta. split; [exact Hreach |]. split; [exact Hdel |]. split; [exact Hcs |].
  destruct (similarity_search [1; 0; 0]%Q 3 None (exec_all cs w1))
    as [[hits|e] w2] eqn:Hsearch.
  - exists hits, w2. split; [exact Hsearch |].
    destruct (deleted_document_never_returned w "a" w1 cs [1; 0; 0]%Q 3 None
                hits w2 Hreach Hdel Hcs Hsearch) as (_ & Hn & Hhits).
    split; [vm_compute; reflexivity | exact Hhits].
  - vm_compute in Hsearch. discriminate Hsearch.
Defined.

End StoreWitness.

(* ===================================================================== *)
(** * Loading a persisted store *)
(* ===================================================================== *)


Section LoadFacts.
Context `{Externals}.


End LoadFacts.

Section LoadWitness.
#[local] Existing Instance reference_externals.



(** With an index file that is read and a metadata file that
    [pickle.load] refuses, the vectors of the index file are in the store
    after the load, and no document is. *)
Example load_index_bad_metadata_keeps_vectors :
  let w' := after load_index (fresh_world 3 disk_with_bad_metadata) in
  ntotal (index (store w')) = 1 ∧ documents (store w') = ∅ ∧
  log w' = [(WARNING,
             "Could not load existing vector store: pickle data was truncated")].
Proof. by vm_compute. Qed.

(** With a metadata file that unpickles to a dictionary whose second
    document entry has a bad timestamp, the first document is in the store
    after the load, with both vectors and no id mapping: the store is not
    empty. *)
Example load_index_restores_until_bad_entry :
  let w' := after load_index (fresh_world 3 disk_with_partial_metadata) in
  doc_content <$> documents (store w') !! "a" = Some "refund window" ∧
  documents (store w') !! "b" = None ∧
  ntotal (index (store w')) = 2 ∧
  id_to_index (store w') = ∅ ∧ index_to_id (store w') = ∅ ∧
  next_index (store w') = 0 ∧
  log w' = [(WARNING, "Could not load existing vector store: "
                      +:+ "Invalid isoformat string: 'yesterday'")].
Proof. by vm_compute. Qed.

(** With a dictionary that only lacks the ["id_to_index"] key, every
    document is restored and no mapping is. *)
Example load_index_without_id_to_index :
  let w' := after load_index (fresh_world 3 disk_without_id_to_index) in
  doc_content <$> documents (store w') !! "a" = Some "refund window" ∧
  id_to_index (store w') = ∅ ∧ index_to_id (store w') = ∅ ∧
  log w' = [(WARNING, "Could not load existing vector store: 'id_to_index'")].
Proof. by vm_compute. Qed.

End LoadWitness.

(* ===================================================================== *)
(** * Ingestion and retrieval *)
(* ===================================================================== *)

Section RagFacts.
Context `{Externals}.

(** When the chunker returns no chunk, [add_text_content] raises. *)
Lemma add_text_content_no_chunks rag content source_name md w :
  split_text (text_splitter rag) content = [] →
  ∃ w', add_text_content rag content source_name md w
        = (Raise (mkExn ValueError "No content to process"), w').
Proof.
  intros Hnone. unfold add_text_content, process_text_content.
  rewrite Hnone. run_monad. cbn. eauto.
Qed.

Lemma mock_embedding_length dim text :
  0 ≤ dim → Z.of_nat (length (mock_embedding dim text)) = dim.
Proof.
  intros Hdim. unfold mock_embedding. rewrite length_map, length_seqZ. lia.
Qed.

(** One document with a vector of the index's dimension is stored in a
    flat index. *)
Lemma add_documents_single doc v w dim xb :
  index (store w) = IndexFlatL2 dim xb →
  Z.of_nat (length v) = dim →
  ∃ w',
    add_documents [doc] [v] w = (Ok tt, w') ∧
    doc_content <$> documents (store w') !! doc_id doc = Some (doc_content doc) ∧
    ntotal (index (store w')) = ntotal (index (store w)) + 1.
Proof.
  intros Hindex Hlen.
  destruct w as [[dimension0 ty ix docs i2x x2i next] d lg u c].
  cbn in Hindex. subst ix.
  unfold add_documents. cbn [length Nat.eqb negb].
  unfold np_array. cbn [forallb length]. run_monad.
  cbn [index is_trained negb]. rewrite andb_false_r.
  unfold faiss_add, faiss_rows. cbn [index_d]. rewrite Hlen, Z.eqb_refl.
  eexists. split; [reflexivity |]. cbn. rewrite lookup_insert_eq. cbn.
  split; [done |]. unfold ntotal. cbn. rewrite length_app. cbn. lia.
Qed.

(** One text is embedded and stored under the next uuid. *)
Lemma add_texts_single text md w dim xb :
  index (store w) = IndexFlatL2 dim xb →
  dimension (store w) = dim →
  0 ≤ dim →
  ∃ w',
    add_texts [text] (Some [md]) w = (Ok [uuid4 (uuids_drawn w)], w') ∧
    doc_content <$> documents (store w') !! uuid4 (uuids_drawn w) = Some text.
Proof.
  intros Hindex Hdimension Hdim. unfold add_texts.
  cbn [default from_option id zip zip_with for_each].
  unfold new_Document, draw_uuid, read_clock. run_monad.
  rewrite Hdimension. cbn [embed_documents map].
  set (doc := {| doc_id := uuid4 (uuids_drawn w); doc_content := text;
                 doc_metadata := md;
                 doc_created_at := now_isoformat (clock_reads w);
                 doc_embedding := None |}).
  destruct (add_documents_single doc (mock_embedding dim text)
              {| store := store w; disk := disk w; log := log w;
                 uuids_drawn := S (uuids_drawn w);
                 clock_reads := S (clock_reads w) |} dim xb Hindex
              (mock_embedding_length dim text Hdim))
    as (w' & -> & Hdoc & _).
  destruct (save_index_total w') as (w2 & lv & msg & -> & Hstore & _).
  exists w2. rewrite Hstore. eauto.
Qed.

(** A text of at most [chunk_size] characters is ingested as one chunk with
    that very content, whatever the content is. *)
Lemma add_text_content_short_text rag content source_name md w dim xb :
  Py.len content ≤ chunk_size (text_splitter rag) →
  index (store w) = IndexFlatL2 dim xb →
  dimension (store w) = dim →
  0 ≤ dim →
  ∃ r w',
    add_text_content rag content source_name md w = (Ok r, w') ∧
    chunks_created r = 1 ∧
    document_ids r = [uuid4 (S (uuids_drawn w))] ∧
    doc_content <$> documents (store w') !! uuid4 (S (uuids_drawn w))
      = Some content.
Proof.
  intros Hshort Hindex Hdimension Hdim.
  unfold add_text_content, process_text_content.
  rewrite (split_text_short _ _ Hshort).
  cbn [imap for_each length].
  unfold new_DocumentChunk, draw_uuid, read_clock. run_monad.
  rewrite bool_decide_eq_false_2 by done.
  cbn [for_each]. run_monad. cbn [fmap list_fmap fst snd chunk_content].
  match goal with
  | |- context [add_texts [content] (Some [?m]) ?w1] =>
      destruct (add_texts_single content m w1 dim xb Hindex Hdimension Hdim)
        as (w' & -> & Hdoc)
  end.
  cbn [uuids_drawn] in Hdoc. eauto 10.
Qed.

(** C2 fails on the code.  The empty text is ingested without error: one
    chunk is created and a document with empty content is stored. *)
Theorem add_text_content_accepts_empty_text :
  ∃ r w',
    add_text_content default_rag "" "text_input" None
                     (fresh_world 1536 empty_disk) = (Ok r, w') ∧
    chunks_created r = 1 ∧
    document_ids r = [uuid4 1] ∧
    doc_content <$> documents (store w') !! uuid4 1 = Some "".
Proof.
  apply (add_text_content_short_text default_rag "" "text_input" None
           (fresh_world 1536 empty_disk) 1536 []); [| done | done | lia].
  vm_compute. discriminate.
Qed.

(** A text of blanks only is ingested in the same way. *)
Example add_text_content_accepts_blanks :
  ∃ r w',
    add_text_content default_rag "   " "text_input" None
                     (fresh_world 1536 empty_disk) = (Ok r, w') ∧
    chunks_created r = 1 ∧
    document_ids r = [uuid4 1] ∧
    doc_content <$> documents (store w') !! uuid4 1 = Some "   ".
Proof.
  apply (add_text_content_short_text default_rag "   " "text_input" None
           (fresh_world 1536 empty_disk) 1536 []); [| done | done | lia].
  vm_compute. discriminate.
Qed.

(** Blanks beyond [chunk_size] give no chunk, and the ingestion raises. *)
Example add_text_content_rejects_long_blanks :
  let rag := {| max_context_length := 4000; similarity_threshold := 100;
                text_splitter := {| chunk_size := 3; chunk_overlap := 1;
                                    separator := newline2 |} |} in
  split_text (text_splitter rag) "      " = [] ∧
  ∃ w', add_text_content rag "      " "text_input" None
                         (fresh_world 1536 empty_disk)
        = (Raise (mkExn ValueError "No content to process"), w').
Proof.
  split; [by vm_compute |]. by apply add_text_content_no_chunks.
Qed.

(** C10.  [retrieve_context] returns normally whatever the search does:
    when the search raises, the result is the empty context and no source;
    when it returns hits, the result is their assembly. *)
Theorem retrieve_context_never_raises
    (rag : RAGSystem) (query : string) (k : Z) (f : option metadata)
    (w : World) (outcome : result (list (string * Q))) (w1 : World) :
  manager_similarity_search query k f w = (outcome, w1) →
  ∃ context sources w',
    retrieve_context rag query k f w = (Ok (context, sources), w') ∧
    match outcome with
    | Raise _ => context = "" ∧ sources = []
    | Ok hits => (context, sources) = assemble (max_context_length rag) hits
    end.
Proof.
  intros Hsearch. unfold retrieve_context, try_except.
  destruct outcome as [hits|e].
  - rewrite (bind_Ok _ _ _ _ _ Hsearch). destruct hits as [|hit hits].
    + rewrite bool_decide_eq_true_2 by done. cbn. eauto 10.
    + rewrite !bool_decide_eq_false_2 by done.
      destruct (assemble (max_context_length rag) (hit :: hits))
        as [context sources].
      run_monad. eauto 10.
  - rewrite (bind_Raise _ _ _ _ _ Hsearch). run_monad. eauto 10.
Qed.

End RagFacts.

Section RagWitness.
#[local] Existing Instance reference_externals.

(** A store declared with dimension 2 over a directory written with
    dimension 3: the loaded index refuses the two-coordinate query. *)
Lemma retrieve_context_never_raises_witness :
  let w := after (FAISSVectorStore_init 2 "flat")
                 (fresh_world 0 disk_of_dimension_3) in
  ∃ e w1,
    manager_similarity_search "refund policy" 5 None w = (Raise e, w1) ∧
    ∃ w', retrieve_context default_rag "refund policy" 5 None w
          = (Ok ("", []), w').
Proof.
  set (w := after (FAISSVectorStore_init 2 "flat")
                  (fresh_world 0 disk_of_dimension_3)).
  cbv zeta.
  destruct (manager_similarity_search "refund policy" 5 None w)
    as [[hits|e] w1] eqn:Hsearch.
  - vm_compute in Hsearch. discriminate Hsearch.
  - exists e, w1. split; [reflexivity |].
    destruct (retrieve_context_never_raises default_rag "refund policy" 5 None
                w (Raise e) w1 Hsearch)
      as (context & sources & w' & Heq & Hctx & Hsrc).
    exists w'. rewrite Heq, Hctx, Hsrc. reflexivity.
Defined.

End RagWitness.

(* ===================================================================== *)
(** * Further properties of the chunker *)
(* ===================================================================== *)

Lemma string_app_cons x (a b : string) : String x a +:+ b = String x (a +:+ b).
Proof. reflexivity. Qed.

Lemma string_app_nil_l (a : string) : "" +:+ a = a.
Proof. reflexivity. Qed.

Lemma string_app_assoc (a b c : string) : (a +:+ b) +:+ c = a +:+ (b +:+ c).
Proof.
  induction a as [|x a IH]; [done |]. by rewrite !string_app_cons, IH.
Qed.

Lemma string_app_nil_r (a : string) : a +:+ "" = a.
Proof.
  induction a as [|x a IH]; [done |]. by rewrite string_app_cons, IH.
Qed.

Lemma string_app_length (a b : string) :
  String.length (a +:+ b) = (String.length a + String.length b)%nat.
Proof.
  induction a as [|x a IH]; [done |]. rewrite string_app_cons. simpl.
  by rewrite IH.
Qed.

Lemma infix_of_refl s : infix_of s s.
Proof. exists "", "". by rewrite string_app_nil_l, string_app_nil_r. Qed.

Lemma infix_of_trans a b c : infix_of a b → infix_of b c → infix_of a c.
Proof.
  intros (p1 & q1 & ->) (p2 & q2 & ->). exists (p2 +:+ p1), (q1 +:+ q2).
  by rewrite !string_app_assoc.
Qed.

(** [lstrip] removes a prefix, [rstrip] a suffix. *)
Lemma lstrip_suffix s : ∃ pre, s = pre +:+ Py.lstrip s.
Proof.
  induction s as [|c s [pre IH]]; simpl; [by exists "" |].
  destruct (Py.isspace c); [| by exists ""].
  exists (String c pre). by rewrite string_app_cons, <- IH.
Qed.

Lemma rstrip_prefix s : ∃ post, s = Py.rstrip s +:+ post.
Proof.
  induction s as [|c s [post IH]]; simpl; [by exists "" |].
  destruct (Py.rstrip s) as [|a r].
  - destruct (Py.isspace c); [by exists (String c s) | by exists s].
  - exists post. by rewrite string_app_cons, <- IH.
Qed.

Lemma strip_infix s : infix_of (Py.strip s) s.
Proof.
  unfold Py.strip. destruct (lstrip_suffix s) as [pre Hpre].
  destruct (rstrip_prefix (Py.lstrip s)) as [post Hpost].
  exists pre, post. by rewrite <- Hpost.
Qed.

Lemma substring_prefix m s : ∃ post, s = substring 0 m s +:+ post.
Proof.
  revert m. induction s as [|c s IH]; intros m.
  - destruct m; by exists "".
  - destruct m as [|m]; simpl; [by exists (String c s) |].
    destruct (IH m) as [post Hp]. exists post.
    by rewrite string_app_cons, <- Hp.
Qed.

Lemma substring_infix n m s : infix_of (substring n m s) s.
Proof.
  revert n. induction s as [|c s IH]; intros n.
  - destruct n, m; apply infix_of_refl.
  - destruct n as [|n].
    + destruct (substring_prefix m (String c s)) as [post Hp].
      exists "", post. by rewrite string_app_nil_l.
    + simpl. destruct (IH n) as (pre & post & Hs).
      exists (String c pre), post. by rewrite string_app_cons, <- Hs.
Qed.

Lemma slice_infix s a b : infix_of (Py.slice s a b) s.
Proof. apply substring_infix. Qed.

Lemma lstrip_length_le s : (String.length (Py.lstrip s) ≤ String.length s)%nat.
Proof.
  destruct (lstrip_suffix s) as [pre Hpre].
  rewrite Hpre at 2. rewrite string_app_length. lia.
Qed.

Lemma rstrip_length_le s : (String.length (Py.rstrip s) ≤ String.length s)%nat.
Proof.
  destruct (rstrip_prefix s) as [post Hpost].
  rewrite Hpost at 2. rewrite string_app_length. lia.
Qed.

Lemma strip_length_le s : Py.len (Py.strip s) ≤ Py.len s.
Proof.
  unfold Py.len, Py.strip.
  pose proof (rstrip_length_le (Py.lstrip s)).
  pose proof (lstrip_length_le s). lia.
Qed.

Lemma chunks_of_windows_elem text ws c :
  c ∈ chunks_of_windows text ws →
  c ≠ "" ∧ ∃ s e, (s, e) ∈ ws ∧ c = Py.strip (Py.slice text s e).
Proof.
  intros Hc. unfold chunks_of_windows in Hc.
  apply list_elem_of_filter in Hc as [Htr Hc].
  apply list_elem_of_fmap in Hc as ([s e] & -> & Hin).
  split; [by apply truthy_nonempty | eauto].
Qed.

(** The chunks of a long text are the chunks of the windows of the loop
    run with [len(text)] iterations. *)
Lemma split_text_long ts text :
  chunk_size ts < Py.len text →
  ∃ ws, split_windows ts text (String.length text) 0 = Some ws ∧
        split_text ts text = chunks_of_windows text ws.
Proof.
  intros Hlong.
  destruct (split_windows_enough ts text (String.length text) 0) as [ws Hws].
  { unfold Py.len. lia. }
  exists ws. split; [done |]. unfold split_text, split_text_fuel.
  destruct (Z.leb_spec (Py.len text) (chunk_size ts)); [lia |].
  by rewrite split_loop_windows, Hws.
Qed.

(** X1.  Every chunk that [split_text] returns is a contiguous piece of
    the input text. *)
Theorem split_text_chunks_are_pieces (ts : TextSplitter) (text : string) :
  Forall (λ c, infix_of c text) (split_text ts text).
Proof.
  destruct (Z.le_gt_cases (Py.len text) (chunk_size ts)) as [Hshort|Hlong].
  - rewrite split_text_short by done. repeat constructor. apply infix_of_refl.
  - destruct (split_text_long ts text) as (ws & _ & ->); [lia |].
    apply Forall_forall. intros c Hc.
    apply chunks_of_windows_elem in Hc as (_ & s & e & _ & ->).
    eapply infix_of_trans; [apply strip_infix | apply slice_infix].
Qed.

(** X2.  With a non-negative [chunk_size], no chunk that [split_text]
    returns has more than [chunk_size + 1] characters. *)
Theorem split_text_chunk_length (ts : TextSplitter) (text : string) :
  0 ≤ chunk_size ts →
  Forall (λ c, Py.len c ≤ chunk_size ts + 1) (split_text ts text).
Proof.
  intros Hcs.
  destruct (Z.le_gt_cases (Py.len text) (chunk_size ts)) as [Hshort|Hlong].
  - rewrite split_text_short by done. repeat constructor. lia.
  - destruct (split_text_long ts text) as (ws & Hws & ->); [lia |].
    apply Forall_forall. intros c Hc.
    apply chunks_of_windows_elem in Hc as (_ & s & e & Hin & ->).
    pose proof (window_length_le_succ ts text _ ws s e Hcs Hws Hin).
    pose proof (strip_length_le (Py.slice text s e)). lia.
Qed.

Lemma split_text_chunk_length_witness :
  let ts := {| chunk_size := 4; chunk_overlap := 1; separator := "," |} in
  0 ≤ chunk_size ts ∧
  Forall (λ c, Py.len c ≤ chunk_size ts + 1) (split_text ts "abcdefghij klm").
Proof.
  assert (Hcs : 0 ≤ 4) by lia.
  split; [exact Hcs |].
  exact (split_text_chunk_length
           {| chunk_size := 4; chunk_overlap := 1; separator := "," |}
           "abcdefghij klm" Hcs).
Defined.

Lemma split_windows_length ts text fuel start ws :
  split_windows ts text fuel start = Some ws → (length ws ≤ fuel)%nat.
Proof.
  revert start ws. induction fuel as [|fuel IH]; intros start ws; simpl.
  - destruct (start <? Py.len text); [done |]. intros [= <-]. simpl. lia.
  - destruct (start <? Py.len text); [| intros [= <-]; simpl; lia].
    destruct (split_windows ts text fuel _) as [ws'|] eqn:Hws'; [| done].
    simpl. intros [= <-]. simpl. apply IH in Hws'. lia.
Qed.

(** X3.  [split_text] returns at most [len(text)] chunks, and at most one
    for the empty text. *)
Theorem split_text_chunk_count (ts : TextSplitter) (text : string) :
  (length (split_text ts text) ≤ Nat.max 1 (String.length text))%nat.
Proof.
  destruct (Z.le_gt_cases (Py.len text) (chunk_size ts)) as [Hshort|Hlong].
  - rewrite split_text_short by done. simpl. lia.
  - destruct (split_text_long ts text) as (ws & Hws & ->); [lia |].
    apply split_windows_length in Hws. unfold chunks_of_windows.
    pose proof (length_filter (λ c, Py.truthy c = true)
                  (map (λ w, Py.strip (Py.slice text w.1 w.2)) ws)) as Hf.
    rewrite length_map in Hf. lia.
Qed.

(** A window that starts inside the text is cut after its start. *)
Lemma cut_point_gt ts text start :
  0 ≤ start → start < Py.len text → 0 ≤ chunk_size ts →
  start < cut_point ts text start.
Proof.
  intros Hs Hin Hc. unfold cut_point.
  destruct (Z.ltb_spec (start + chunk_size ts) (Py.len text)); [| lia].
  destruct (rfind_bound text (separator ts) start (start + chunk_size ts))
    as [-> | ?]; [lia | lia | lia | | ].
  - simpl.
    destruct (rfind_bound text "." start (start + chunk_size ts))
      as [-> | ?]; [lia | lia | lia | | ].
    + simpl.
      destruct (rfind_bound text " " start (start + chunk_size ts))
        as [-> | ?]; [lia | lia | lia | simpl; lia | ].
      destruct (Z.eqb_spec (Py.rfind text " " start (start + chunk_size ts)) (-1)); lia.
    + destruct (Z.eqb_spec (Py.rfind text "." start (start + chunk_size ts)) (-1)); [|lia].
      destruct (Z.eqb_spec (Py.rfind text " " start (start + chunk_size ts)) (-1)); lia.
  - destruct (Z.eqb_spec (Py.rfind text (separator ts) start (start + chunk_size ts)) (-1)); [|lia].
    destruct (Z.eqb_spec (Py.rfind text "." start (start + chunk_size ts)) (-1)); [|lia].
    destruct (Z.eqb_spec (Py.rfind text " " start (start + chunk_size ts)) (-1)); lia.
Qed.

Lemma split_windows_cover ts text fuel start ws p :
  0 ≤ chunk_size ts → 0 ≤ chunk_overlap ts → 0 ≤ start →
  split_windows ts text fuel start = Some ws →
  start ≤ p < Py.len text →
  ∃ s e, (s, e) ∈ ws ∧ s ≤ p < e.
Proof.
  intros Hcs Hov. revert start ws.
  induction fuel as [|fuel IH]; intros start ws Hs; simpl.
  - destruct (Z.ltb_spec start (Py.len text)); [done | intros; lia].
  - destruct (Z.ltb_spec start (Py.len text)) as [Hin|]; [| intros; lia].
    destruct (split_windows ts text fuel _) as [ws'|] eqn:Hws'; [| done].
    simpl. intros [= <-] Hp.
    pose proof (cut_point_gt ts text start Hs Hin Hcs) as Hcut.
    destruct (Z.lt_ge_cases p (cut_point ts text start)) as [Hlt|Hge].
    + exists start, (cut_point ts text start). split; [apply list_elem_of_here | lia].
    + assert (Hnext : 0 ≤ next_start ts start (cut_point ts text start))
        by (unfold next_start; lia).
      destruct (IH _ ws' Hnext Hws') as (s & e & Hin' & Hse).
      { unfold next_start. lia. }
      exists s, e. split; [by apply list_elem_of_further | done].
Qed.

(** X4.  With non-negative [chunk_size] and overlap, the windows that the
    loop cuts from a long text leave no gap: every position of the text
    lies in one of them. *)
Theorem split_text_windows_cover (ts : TextSplitter) (text : string) (p : Z) :
  0 ≤ chunk_size ts →
  0 ≤ chunk_overlap ts →
  chunk_size ts < Py.len text →
  0 ≤ p < Py.len text →
  ∃ ws s e,
    split_windows ts text (String.length text) 0 = Some ws ∧
    split_text ts text = chunks_of_windows text ws ∧
    (s, e) ∈ ws ∧ s ≤ p < e.
Proof.
  intros Hcs Hov Hlong Hp.
  destruct (split_text_long ts text Hlong) as (ws & Hws & Hres).
  destruct (split_windows_cover ts text _ 0 ws p Hcs Hov ltac:(lia) Hws Hp)
    as (s & e & Hin & Hse).
  exists ws, s, e. done.
Qed.

Lemma split_text_windows_cover_witness :
  let ts := {| chunk_size := 4; chunk_overlap := 1; separator := "," |} in
  0 ≤ chunk_size ts ∧ 0 ≤ chunk_overlap ts ∧
  chunk_size ts < Py.len "abcdefghij klm" ∧ 0 ≤ 7 < Py.len "abcdefghij klm" ∧
  ∃ ws s e, split_windows ts "abcdefghij klm" 14 0 = Some ws ∧
            (s, e) ∈ ws ∧ s ≤ 7 < e.
Proof.
  assert (Hcs : 0 ≤ 4) by lia.
  assert (Hov : 0 ≤ 1) by lia.
  assert (Hlong : 4 < Py.len "abcdefghij klm") by (vm_compute; reflexivity).
  assert (Hp : 0 ≤ 7 < Py.len "abcdefghij klm")
    by (split; vm_compute; [discriminate | reflexivity]).
  split; [exact Hcs |]. split; [exact Hov |]. split; [exact Hlong |].
  split; [exact Hp |].
  destruct (split_text_windows_cover
              {| chunk_size := 4; chunk_overlap := 1; separator := "," |}
              "abcdefghij klm" 7 Hcs Hov Hlong Hp)
    as (ws & s & e & Hws & _ & Hin & Hse).
  exists ws, s, e. split; [exact Hws | split; [exact Hin | exact Hse]].
Defined.

(* ===================================================================== *)
(** * Further properties of the embedder and the store *)
(* ===================================================================== *)

Section MoreStoreFacts.
Context `{Externals}.

Lemma mock_embedding_range dim text :
  Forall (λ q, (0 <= q)%Q ∧ (q < 1)%Q) (mock_embedding dim text).
Proof.
  unfold mock_embedding. apply Forall_forall. intros q Hq.
  apply list_elem_of_fmap in Hq as (i & -> & _).
  pose proof (Z.mod_pos_bound (py_hash text + i) 1000 ltac:(lia)).
  unfold Qle, Qlt. simpl. lia.
Qed.

(** X5.  For a non-negative dimension, [embed_documents] returns one
    vector per text, each with [dimension] coordinates in the interval
    [0, 1), and [embed_query] of a text that is among the documents is one
    of the vectors returned for them. *)
Theorem embed_documents_shape (dim : Z) (texts : list string) :
  0 ≤ dim →
  length (embed_documents dim texts) = length texts ∧
  Forall (λ v, Z.of_nat (length v) = dim
               ∧ Forall (λ q, (0 <= q)%Q ∧ (q < 1)%Q) v)
         (embed_documents dim texts) ∧
  (∀ text, text ∈ texts → embed_query dim text ∈ embed_documents dim texts).
Proof.
  intros Hdim. unfold embed_documents. split; [apply length_map |]. split.
  - apply Forall_forall. intros v Hv.
    apply list_elem_of_fmap in Hv as (text & -> & _).
    split; [by apply mock_embedding_length | apply mock_embedding_range].
  - intros text Hin. unfold embed_query, embed_documents. simpl.
    apply list_elem_of_fmap. eauto.
Qed.

(** ** What the loop of [add_documents] stores *)

Lemma store_documents_snoc start docs doc embeddings s :
  store_documents start (docs ++ [doc]) embeddings s =
  let s' := store_documents start docs embeddings s in
  let i := length docs in
  let doc' := {| doc_id := doc_id doc; doc_content := doc_content doc;
                 doc_metadata := doc_metadata doc;
                 doc_created_at := doc_created_at doc;
                 doc_embedding := embeddings !! i |} in
  set_index_to_id (<[start + Z.of_nat i := doc_id doc]> (index_to_id s'))
    (set_id_to_index (<[doc_id doc := start + Z.of_nat i]> (id_to_index s'))
       (set_documents (<[doc_id doc := doc']> (documents s')) s')).
Proof.
  unfold store_documents. rewrite imap_app, foldl_app. simpl.
  by rewrite Nat.add_0_r.
Qed.

(** The loop touches neither the index nor the counter nor the
    configuration. *)
Lemma store_documents_frame start docs embeddings s :
  index (store_documents start docs embeddings s) = index s ∧
  next_index (store_documents start docs embeddings s) = next_index s ∧
  dimension (store_documents start docs embeddings s) = dimension s ∧
  index_type (store_documents start docs embeddings s) = index_type s.
Proof.
  induction docs as [|doc docs IH] using rev_ind; [done |].
  rewrite store_documents_snoc. cbn. exact IH.
Qed.

(** Documents and slots that the batch does not name stay as they are. *)
Lemma store_documents_other start docs embeddings s :
  (∀ id, id ∉ map doc_id docs →
     documents (store_documents start docs embeddings s) !! id
       = documents s !! id ∧
     id_to_index (store_documents start docs embeddings s) !! id
       = id_to_index s !! id) ∧
  (∀ p, ¬ (start ≤ p < start + Z.of_nat (length docs)) →
     index_to_id (store_documents start docs embeddings s) !! p
       = index_to_id s !! p).
Proof.
  induction docs as [|doc docs [IHid IHpos]] using rev_ind; [done |].
  rewrite store_documents_snoc. cbn. split.
  - intros id Hid. rewrite map_app in Hid. simpl in Hid.
    assert (doc_id doc ≠ id).
    { intros <-. apply Hid. apply elem_of_app. right. apply list_elem_of_here. }
    rewrite !lookup_insert_ne by done. apply IHid.
    intros Hin. apply Hid. apply elem_of_app. by left.
  - intros p Hp. rewrite length_app in Hp. simpl in Hp.
    rewrite lookup_insert_ne by lia. apply IHpos. lia.
Qed.

(** With pairwise different ids, the i-th document of the batch is stored
    under its id with the i-th vector, at slot [start + i]. *)
Lemma store_documents_stored start docs embeddings s i doc :
  NoDup (map doc_id docs) →
  docs !! i = Some doc →
  documents (store_documents start docs embeddings s) !! doc_id doc
    = Some {| doc_id := doc_id doc; doc_content := doc_content doc;
              doc_metadata := doc_metadata doc;
              doc_created_at := doc_created_at doc;
              doc_embedding := embeddings !! i |} ∧
  id_to_index (store_documents start docs embeddings s) !! doc_id doc
    = Some (start + Z.of_nat i) ∧
  index_to_id (store_documents start docs embeddings s) !! (start + Z.of_nat i)
    = Some (doc_id doc).
Proof.
  revert i doc. induction docs as [|d docs IH] using rev_ind;
    intros i doc Hnodup Hi; [done |].
  rewrite map_app in Hnodup. apply NoDup_app in Hnodup as (Hnd & Hfresh & _).
  rewrite store_documents_snoc. cbn.
  apply lookup_snoc_Some in Hi as [[Hlt Hi] | [-> ->]].
  - destruct (IH i doc Hnd Hi) as (Hdoc & Hi2x & Hx2i).
    assert (doc_id d ≠ doc_id doc).
    { intros Heq. apply (Hfresh (doc_id doc)).
      - apply list_elem_of_fmap. exists doc. split; [done |].
        by eapply list_elem_of_lookup_2.
      - simpl. rewrite Heq. apply list_elem_of_here. }
    rewrite !lookup_insert_ne by (done || lia). done.
  - by rewrite !lookup_insert_eq.
Qed.

(** The loop keeps the two mappings in agreement when the slots it hands
    out are new. *)
Lemma store_documents_agree start docs embeddings s :
  (∀ id p, id_to_index s !! id = Some p →
           index_to_id s !! p = Some id ∧ p < start) →
  ∀ id p, id_to_index (store_documents start docs embeddings s) !! id = Some p →
          index_to_id (store_documents start docs embeddings s) !! p = Some id
          ∧ p < start + Z.of_nat (length docs).
Proof.
  intros Hagree. induction docs as [|doc docs IH] using rev_ind.
  - intros id p Hid. destruct (Hagree id p Hid). simpl. split; [done | lia].
  - rewrite store_documents_snoc, length_app. cbn. intros id p.
    destruct (decide (doc_id doc = id)) as [<- | Hne].
    + rewrite lookup_insert_eq. intros [= <-].
      rewrite lookup_insert_eq. split; [done | lia].
    + rewrite lookup_insert_ne by done. intros Hid.
      destruct (IH id p Hid) as [Hp Hlt].
      rewrite lookup_insert_ne by lia. split; [done | lia].
Qed.

(** ** The outcomes of [add_documents] *)

Lemma np_array_rows embeddings d :
  embeddings ≠ [] →
  Forall (λ v, Z.of_nat (length v) = d) embeddings →
  np_array embeddings
    = Ok (Array2D (Z.of_nat (length embeddings)) d embeddings).
Proof.
  intros Hne Hall. destruct embeddings as [|v vs]; [done |].
  apply Forall_cons in Hall as [Hv Hvs]. unfold np_array.
  assert (forallb (λ u, Nat.eqb (length u) (length v)) vs = true) as ->.
  { apply forallb_forall. intros u Hu. apply Nat.eqb_eq.
    apply list_elem_of_In in Hu. rewrite Forall_forall in Hvs.
    specialize (Hvs u Hu). lia. }
  by rewrite Hv.
Qed.

Lemma faiss_add_trained ix n rows :
  is_trained ix = true →
  faiss_add ix (Array2D n (index_d ix) rows) = Ok (with_rows ix rows).
Proof.
  intros Htr. unfold faiss_add, faiss_rows. rewrite Z.eqb_refl.
  by destruct ix as [d xb | d nlist [xb|]].
Qed.

Lemma add_documents_trained docs embeddings w :
  is_trained (index (store w)) = true →
  length docs = length embeddings →
  embeddings ≠ [] →
  Forall (λ v, Z.of_nat (length v) = index_d (index (store w))) embeddings →
  add_documents docs embeddings w
    = (Ok tt, added docs embeddings (index (store w)) (log w) w).
Proof.
  intros Htr Hlen Hne Hall. unfold add_documents.
  rewrite (proj2 (Nat.eqb_eq _ _) Hlen). cbn [negb].
  rewrite (bind_Ok _ _ w _ w (f_equal (λ r, (r, w)) (np_array_rows _ _ Hne Hall))).
  run_monad. rewrite Htr. cbn [negb]. rewrite andb_false_r.
  rewrite (faiss_add_trained _ _ _ Htr). run_monad. unfold added.
  by rewrite (proj1 (proj2 (store_documents_frame _ _ _ _))).
Qed.

Lemma add_documents_ivf_fallback docs embeddings w d nlist :
  index (store w) = IndexIVFFlat d nlist None →
  index_type (store w) = "ivf" →
  dimension (store w) = d →
  length docs = length embeddings →
  embeddings ≠ [] →
  (length embeddings < 100)%nat →
  Forall (λ v, Z.of_nat (length v) = d) embeddings →
  add_documents docs embeddings w
    = (Ok tt,
       added docs embeddings (IndexFlatL2 d [])
         (log w ++ [(WARNING,
             "Not enough documents to train IVF index, using flat index")]) w).
Proof.
  intros Hix Hty Hdim Hlen Hne Hsmall Hall. unfold add_documents.
  rewrite (proj2 (Nat.eqb_eq _ _) Hlen). cbn [negb].
  rewrite (bind_Ok _ _ w _ w (f_equal (λ r, (r, w)) (np_array_rows _ _ Hne Hall))).
  run_monad. rewrite Hix, Hty, Hdim. cbn [is_trained negb andb String.eqb shape0].
  replace (String.eqb "ivf" "ivf") with true by reflexivity.
  replace (bool_decide (is_Some (None : option (list vector)))) with false
    by reflexivity.
  cbn [negb andb].
  destruct (Z.leb_spec 100 (Z.of_nat (length embeddings))); [lia |].
  cbn. rewrite (faiss_add_trained (IndexFlatL2 d []) _ _ eq_refl).
  unfold added. rewrite (proj1 (proj2 (store_documents_frame _ _ _ _))).
  reflexivity.
Qed.

End MoreStoreFacts.

Section StoreRoundTrips.
Context `{Externals}.

Lemma ntotal_with_rows ix rows :
  ntotal (with_rows ix rows) = ntotal ix + Z.of_nat (length rows).
Proof.
  unfold ntotal. destruct ix as [d xb | d nlist [xb|]]; simpl;
    rewrite ?length_app; simpl; lia.
Qed.

(** X6.  A batch of documents with pairwise different ids and vectors of
    the index's dimension is accepted by a trained index; afterwards
    [get_document] returns each document with its vector attached, both
    mappings link its id to slot [next_index + i], the vector count, the
    slot counter have grown by the batch size, and documents under other
    ids are as before. *)
Theorem add_documents_round_trip
    (docs : list Document) (embeddings : list vector) (w : World)
    (i : nat) (doc : Document) (v : vector) :
  is_trained (index (store w)) = true →
  length docs = length embeddings →
  Forall (λ v, Z.of_nat (length v) = index_d (index (store w))) embeddings →
  NoDup (map doc_id docs) →
  docs !! i = Some doc →
  embeddings !! i = Some v →
  ∃ w',
    add_documents docs embeddings w = (Ok tt, w') ∧
    (get_document (doc_id doc) w').1
      = Ok (Some {| doc_id := doc_id doc; doc_content := doc_content doc;
                    doc_metadata := doc_metadata doc;
                    doc_created_at := doc_created_at doc;
                    doc_embedding := Some v |}) ∧
    id_to_index (store w') !! doc_id doc
      = Some (next_index (store w) + Z.of_nat i) ∧
    index_to_id (store w') !! (next_index (store w) + Z.of_nat i)
      = Some (doc_id doc) ∧
    ntotal (index (store w'))
      = ntotal (index (store w)) + Z.of_nat (length docs) ∧
    next_index (store w') = next_index (store w) + Z.of_nat (length docs) ∧
    (∀ id, id ∉ map doc_id docs →
           documents (store w') !! id = documents (store w) !! id).
Proof.
  intros Htr Hlen Hall Hnodup Hi Hv.
  assert (Hne : embeddings ≠ []) by (intros ->; done).
  eexists. split; [by apply add_documents_trained |].
  unfold get_document, added. run_monad. cbn.
  destruct (store_documents_stored (next_index (store w)) docs embeddings
              (set_index (with_rows (index (store w)) embeddings) (store w))
              i doc Hnodup Hi) as (Hdoc & Hi2x & Hx2i).
  rewrite Hv in Hdoc. rewrite Hdoc, Hi2x, Hx2i.
  rewrite (proj1 (store_documents_frame _ _ _ _)). cbn.
  rewrite ntotal_with_rows, Hlen. repeat split; try done.
  intros id Hid.
  by rewrite (proj1 (proj1 (store_documents_other _ _ _ _) id Hid)).
Qed.

(** X7.  A store of type "ivf" whose index is still untrained accepts a
    first batch of fewer than 100 vectors by replacing the index with a
    flat one that holds exactly the batch; a warning is logged and the
    store still reports the type "ivf". *)
Theorem add_documents_ivf_small_batch
    (docs : list Document) (embeddings : list vector) (w : World) (d nlist : Z) :
  index (store w) = IndexIVFFlat d nlist None →
  index_type (store w) = "ivf" →
  dimension (store w) = d →
  length docs = length embeddings →
  embeddings ≠ [] →
  (length embeddings < 100)%nat →
  Forall (λ v, Z.of_nat (length v) = d) embeddings →
  ∃ w',
    add_documents docs embeddings w = (Ok tt, w') ∧
    index (store w') = IndexFlatL2 d embeddings ∧
    index_type (store w') = "ivf" ∧
    (WARNING, "Not enough documents to train IVF index, using flat index")
      ∈ log w'.
Proof.
  intros Hix Hty Hdim Hlen Hne Hsmall Hall.
  eexists. split; [by eapply add_documents_ivf_fallback |].
  unfold added. cbn.
  rewrite (proj1 (store_documents_frame _ _ _ _)).
  rewrite (proj2 (proj2 (proj2 (store_documents_frame _ _ _ _)))). cbn.
  split; [done |]. split; [done |].
  apply elem_of_app. left. apply elem_of_app. right. apply list_elem_of_here.
Qed.

(** ** The shape of the store after [add_documents], whatever the outcome *)

Lemma set_index_same s : set_index (index s) s = s.
Proof. by destruct s. Qed.

Lemma add_documents_store docs embeddings w :
  ∃ ix,
    store (after (add_documents docs embeddings) w) = set_index ix (store w) ∨
    store (after (add_documents docs embeddings) w)
      = set_next_index (next_index (store w) + Z.of_nat (length docs))
          (store_documents (next_index (store w)) docs embeddings
             (set_index ix (store w))).
Proof.
  assert (Hsame : ∃ ix, store w = set_index ix (store w))
    by (exists (index (store w)); by rewrite set_index_same).
  unfold add_documents.
  destruct (negb _); [run_monad; destruct Hsame as [ix ?]; eauto |].
  run_monad.
  destruct (np_array embeddings) as [arr|e];
    [| destruct Hsame as [ix ?]; eauto].
  destruct (String.eqb _ _ && negb _).
  - destruct (100 <=? shape0 arr).
    + destruct (faiss_train _ arr) as [ix|e]; cbn;
        [| destruct Hsame as [ix ?]; eauto].
      destruct (faiss_add ix arr) as [ix'|e]; cbn.
      * exists ix'. right.
        by rewrite (proj1 (proj2 (store_documents_frame _ _ _ _))).
      * exists ix. by left.
    + cbn. destruct (faiss_add _ arr) as [ix'|e]; cbn.
      * exists ix'. right.
        by rewrite (proj1 (proj2 (store_documents_frame _ _ _ _))).
      * eexists. by left.
  - cbn. destruct (faiss_add _ arr) as [ix'|e]; cbn.
    + exists ix'. right.
      by rewrite (proj1 (proj2 (store_documents_frame _ _ _ _))).
    + destruct Hsame as [ix ?]; eauto.
Qed.

Lemma add_documents_agree docs embeddings w :
  maps_agree (store w) →
  maps_agree (store (after (add_documents docs embeddings) w)).
Proof.
  intros Hagree.
  destruct (add_documents_store docs embeddings w) as [ix [-> | ->]].
  - exact Hagree.
  - intros id p Hid. cbn in *.
    by apply (store_documents_agree (next_index (store w)) docs embeddings
                (set_index ix (store w)) Hagree).
Qed.

(** [delete_document] in a state whose mappings agree. *)
Lemma delete_document_agree id w :
  maps_agree (store w) →
  ∃ w',
    delete_document id w
      = (Ok (bool_decide (is_Some (documents (store w) !! id))), w') ∧
    index (store w') = index (store w) ∧
    next_index (store w') = next_index (store w) ∧
    maps_agree (store w') ∧
    (documents (store w) !! id = None → w' = w) ∧
    (is_Some (documents (store w) !! id) →
       documents (store w') = delete id (documents (store w)) ∧
       id_to_index (store w') = delete id (id_to_index (store w))).
Proof.
  intros Hagree. unfold delete_document. run_monad.
  destruct (bool_decide (is_Some (documents (store w) !! id))) eqn:Hin.
  2: { apply bool_decide_eq_false in Hin. eexists. split; [reflexivity |].
       split_and!; try done; intros Hsome; by destruct Hin. }
  apply bool_decide_eq_true in Hin as [doc Hin].
  destruct (id_to_index (store w) !! id) as [p|] eqn:Hp; cbn.
  - destruct (Hagree id p Hp) as [Hrev Hlt].
    rewrite bool_decide_eq_true_2 by (rewrite Hrev; eauto).
    run_monad. cbn. eexists. split; [reflexivity |]. cbn.
    split_and!; try done; [| congruence].
    intros id' p' Hid'. cbn in *.
    apply lookup_delete_Some in Hid' as [Hne Hid'].
    destruct (Hagree id' p' Hid') as [Hrev' Hlt'].
    split; [| done]. rewrite lookup_delete_ne; [done |].
    intros <-. congruence.
  - eexists. split; [reflexivity |]. cbn.
    split_and!; try done; [congruence |].
    intros _. split; [done |]. symmetry. by apply delete_id.
Qed.

Lemma store_documents_dom start docs embeddings s :
  (∀ id, is_Some (documents s !! id) ↔ is_Some (id_to_index s !! id)) →
  ∀ id, is_Some (documents (store_documents start docs embeddings s) !! id)
        ↔ is_Some (id_to_index (store_documents start docs embeddings s) !! id).
Proof.
  intros Hdom. induction docs as [|doc docs IH] using rev_ind; [done |].
  rewrite store_documents_snoc. cbn. intros id.
  destruct (decide (doc_id doc = id)) as [<- | Hne].
  - rewrite !lookup_insert_eq. split; eauto.
  - rewrite !lookup_insert_ne by done. apply IH.
Qed.

Lemma add_documents_consistent docs embeddings w :
  store_consistent (store w) →
  store_consistent (store (after (add_documents docs embeddings) w)).
Proof.
  intros [Hagree Hdom]. split; [by apply add_documents_agree |].
  destruct (add_documents_store docs embeddings w) as [ix [-> | ->]].
  - exact Hdom.
  - cbn. by apply store_documents_dom.
Qed.

Lemma delete_document_consistent id w :
  store_consistent (store w) →
  store_consistent (store (after (delete_document id) w)).
Proof.
  intros [Hagree Hdom].
  destruct (delete_document_agree id w Hagree)
    as (w' & Heq & _ & _ & Hagree' & Hnone & Hsome).
  unfold after. rewrite Heq. cbn. split; [done |].
  destruct (documents (store w) !! id) as [doc|] eqn:Hdoc.
  - destruct Hsome as [-> ->]; [eauto |]. intros id'.
    destruct (decide (id = id')) as [<- | Hne].
    + rewrite !lookup_delete_eq. split; intros [? ?]; done.
    + rewrite !lookup_delete_ne by done. apply Hdom.
  - by rewrite (Hnone eq_refl).
Qed.

Lemma exec_consistent c w :
  store_consistent (store w) → store_consistent (store (exec c w)).
Proof.
  intros Hcons. destruct c as [docs embeddings | id | q k f |]; simpl.
  - by apply add_documents_consistent.
  - by apply delete_document_consistent.
  - by rewrite similarity_search_store.
  - by rewrite save_index_store.
Qed.

(** X8.  Consistency of the store (every id that has a slot is the id
    recorded for that slot, the slot is below the slot counter, and the
    documents are exactly the ids that have a slot) is kept by every
    sequence of insertions, deletions, searches and saves. *)
Theorem exec_all_consistent (cs : list call) (w : World) :
  store_consistent (store w) → store_consistent (store (exec_all cs w)).
Proof.
  revert w. induction cs as [|c cs IH]; intros w Hcons; [done |].
  apply IH. by apply exec_consistent.
Qed.

End StoreRoundTrips.

Section StoreEdgeCases.
Context `{Externals}.

Lemma fresh_world_consistent dim d : store_consistent (store (fresh_world dim d)).
Proof.
  split.
  - intros id p Hid. cbn in Hid. by rewrite lookup_empty in Hid.
  - intros id. cbn. by rewrite !lookup_empty.
Qed.

Lemma sample_world_consistent : store_consistent (store sample_world).
Proof. apply add_documents_consistent, fresh_world_consistent. Qed.

(** X9.  In a consistent state [delete_document] never raises: it returns
    whether the id was stored; for an unknown id it changes nothing; for a
    stored id the document and its id-to-slot entry are removed while the
    numeric index and the slot counter stay as they are; and deleting the
    same id again returns [False]. *)
Theorem delete_document_returns_presence (id : string) (w : World) :
  store_consistent (store w) →
  ∃ w',
    delete_document id w
      = (Ok (bool_decide (is_Some (documents (store w) !! id))), w') ∧
    (documents (store w) !! id = None → w' = w) ∧
    index (store w') = index (store w) ∧
    next_index (store w') = next_index (store w) ∧
    (get_document id w').1 = Ok None ∧
    id_to_index (store w') !! id = None ∧
    (delete_document id w').1 = Ok false.
Proof.
  intros [Hagree Hdom].
  destruct (delete_document_agree id w Hagree)
    as (w' & Heq & Hix & Hnext & Hagree' & Hnone & Hsome).
  assert (Hgone : documents (store w') !! id = None).
  { destruct (documents (store w) !! id) as [doc|] eqn:Hdoc.
    - destruct Hsome as [-> _]; [eauto |]. apply lookup_delete_eq.
    - by rewrite (Hnone eq_refl). }
  assert (Hslot : id_to_index (store w') !! id = None).
  { destruct (documents (store w) !! id) as [doc|] eqn:Hdoc.
    - destruct Hsome as [_ ->]; [eauto |]. apply lookup_delete_eq.
    - rewrite (Hnone eq_refl).
      destruct (id_to_index (store w) !! id) as [p|] eqn:Hp; [| done].
      destruct (proj2 (Hdom id)) as [? Hdoc']; [eauto | congruence]. }
  exists w'. split_and!; try done.
  - unfold get_document. run_monad. cbn. by rewrite Hgone.
  - unfold delete_document. run_monad. rewrite Hgone.
    by rewrite bool_decide_eq_false_2 by (intros [? ?]; done).
Qed.

Lemma delete_document_config id w :
  dimension (store (after (delete_document id) w)) = dimension (store w) ∧
  index_type (store (after (delete_document id) w)) = index_type (store w).
Proof.
  unfold delete_document. run_monad.
  destruct (bool_decide (is_Some (documents (store w) !! id))); [| done].
  destruct (id_to_index (store w) !! id) as [index_pos|]; cbn; [| done].
  by destruct (bool_decide (is_Some (index_to_id (store w) !! index_pos)));
    run_monad; cbn.
Qed.

(** X10.  After a stored document is deleted from a consistent store,
    [get_stats] reports one document less and the same index size: the
    document count and the number of stored vectors part ways. *)
Theorem get_stats_after_delete (id : string) (w w' : World) :
  store_consistent (store w) →
  delete_document id w = (Ok true, w') →
  ∃ st st',
    (get_stats w).1 = Ok st ∧ (get_stats w').1 = Ok st' ∧
    total_documents st' = total_documents st - 1 ∧
    index_size st' = index_size st ∧
    stats_dimension st' = stats_dimension st ∧
    stats_index_type st' = stats_index_type st.
Proof.
  intros [Hagree Hdom] Hdel.
  destruct (delete_document_agree id w Hagree)
    as (w1 & Heq & Hix & Hnext & _ & _ & Hsome).
  pose proof (delete_document_config id w) as [Hdim Hty].
  unfold after in Hdim, Hty. rewrite Hdel in Hdim, Hty. cbn in Hdim, Hty.
  rewrite Heq in Hdel. injection Hdel as Hb <-.
  apply bool_decide_eq_true in Hb. destruct (Hsome Hb) as [Hdocs _].
  unfold get_stats. run_monad. do 2 eexists.
  split; [reflexivity |]. split; [reflexivity |]. cbn.
  rewrite Hix, Hdocs, Hdim, Hty. rewrite (map_size_delete_Some _ _ Hb).
  pose proof (map_size_ne_0_lookup_2 _ _ Hb).
  split_and!; try done. lia.
Qed.

(** The declared dimension of a constructed store never changes, and it is
    one that [faiss.IndexFlatL2] accepts: the constructor has called it
    with that dimension, for the index itself or for the quantizer.  So
    the call of [faiss.IndexFlatL2(self.dimension)] in [add_documents]
    returns in every reachable state. *)
Lemma init_dimension dim ty w0 w :
  FAISSVectorStore_init dim ty w0 = (Ok tt, w) →
  dimension (store w) = dim ∧
  faiss_IndexFlatL2 dim = Ok (IndexFlatL2 dim []).
Proof.
  unfold FAISSVectorStore_init.
  destruct FAISS_AVAILABLE; cbn [negb]; [| done].
  unfold bind at 1. rewrite persist_directory_mkdir_eq.
  destruct (mkdir w0) as [e|]; [done |].
  assert (Hgo : ∀ ix,
    (put_store (fresh_store dim ty ix) ;;;
     load_index ;;;
     s <- get_store ;;
     logger INFO ("Initialized FAISS vector store with "
                  +:+ Py.str_of_int (ntotal (index s)) +:+ " documents")) w0
    = (Ok tt, w) → dimension (store w) = dim).
  { intros ix. destruct (init_tail dim ty ix w0) as (w' & -> & Hdim & _).
    by intros [= <-]. }
  assert (Hflat : ∀ ix, faiss_IndexFlatL2 dim = Ok ix →
                        faiss_IndexFlatL2 dim = Ok (IndexFlatL2 dim [])).
  { unfold faiss_IndexFlatL2. intros ix. by destruct (_ && _). }
  unfold bind at 1.
  destruct (String.eqb ty "flat").
  - unfold lift. destruct (faiss_IndexFlatL2 dim) as [ix|e] eqn:Hix; [| done].
    intros Heq. split; [by apply (Hgo ix) | by apply (Hflat ix)].
  - destruct (String.eqb ty "ivf"); [| done].
    unfold bind at 1, lift.
    destruct (faiss_IndexFlatL2 dim) as [q|e] eqn:Hq; [| done].
    destruct (faiss_IndexIVFFlat q dim 100) as [ix|e]; [| done].
    intros Heq. split; [by apply (Hgo ix) | by apply (Hflat q)].
Qed.

Lemma exec_dimension c w : dimension (store (exec c w)) = dimension (store w).
Proof.
  destruct c as [docs embeddings | id | q k f |]; simpl.
  - destruct (add_documents_store docs embeddings w) as [ix [-> | ->]];
      [done |].
    cbn. by rewrite (proj1 (proj2 (proj2 (store_documents_frame _ _ _ _)))).
  - apply delete_document_config.
  - by rewrite similarity_search_store.
  - by rewrite save_index_store.
Qed.

Lemma reachable_dimension w :
  reachable w →
  faiss_IndexFlatL2 (dimension (store w))
  = Ok (IndexFlatL2 (dimension (store w)) []).
Proof.
  induction 1 as [dim ty w0 w Hinit | c w _ IH].
  - by destruct (init_dimension _ _ _ _ Hinit) as [-> ?].
  - by rewrite exec_dimension.
Qed.

End StoreEdgeCases.

Section SearchFacts.
Context `{Externals}.

(** X11.  With a non-empty metadata filter, every hit of
    [similarity_search] matches the filter: for each key of the filter the
    document's metadata value, or [None] when the document has no such
    key, equals the filter's value. *)
Theorem similarity_search_filter_sound
    (q : vector) (k : Z) (f : metadata) (w : World)
    (hits : list (Document * Q)) (w' : World) :
  f ≠ ∅ →
  similarity_search q k (Some f) w = (Ok hits, w') →
  Forall (λ hit, ∀ key v, f !! key = Some v →
            py_eq (default PNone (doc_metadata hit.1 !! key)) v = true) hits.
Proof.
  intros Hf. unfold similarity_search. run_monad.
  destruct (ntotal _ =? 0); [intros [= <- _]; constructor |].
  destruct (faiss_search _ _ _) as [found|e]; [| done].
  intros [= <- _]. apply Forall_forall. intros hit Hin.
  apply list_elem_of_omap in Hin as ([dist ix] & _ & Hc).
  unfold search_candidate in Hc.
  destruct (ix =? -1); [done |].
  destruct (index_to_id (store w) !! ix) as [key|]; [| done].
  destruct (Py.truthy key); [| done].
  destruct (documents (store w) !! key) as [doc|]; [| done].
  rewrite bool_decide_eq_true_2 in Hc by done. cbn in Hc.
  destruct (metadata_matches doc f) eqn:Hm; [| done].
  cbn in Hc. injection Hc as <-. cbn.
  unfold metadata_matches in Hm. apply bool_decide_eq_true in Hm.
  intros key' v Hkey. exact (Hm key' v Hkey).
Qed.

(** An empty filter dictionary is no filter. *)
Lemma similarity_search_empty_filter (q : vector) (k : Z) (w : World) :
  similarity_search q k (Some ∅) w = similarity_search q k None w.
Proof.
  unfold similarity_search. run_monad.
  destruct (ntotal _ =? 0); [done |].
  by destruct (faiss_search _ _ _) as [found|e].
Qed.

(** X12.  On a store without vectors, [similarity_search] returns no hit
    without consulting faiss, and [retrieve_context] returns the empty
    context and no source, leaving the world, its log included, as it
    is. *)
Theorem empty_index_gives_nothing
    (rag : RAGSystem) (q : vector) (query : string) (k : Z)
    (f : option metadata) (w : World) :
  ntotal (index (store w)) = 0 →
  similarity_search q k f w = (Ok [], w) ∧
  retrieve_context rag query k f w = (Ok ("", []), w).
Proof.
  intros Hempty.
  assert (Hs : ∀ q', similarity_search q' k f w = (Ok [], w)).
  { intros q'. unfold similarity_search. run_monad. by rewrite Hempty. }
  split; [apply Hs |].
  unfold retrieve_context, try_except, manager_similarity_search.
  run_monad. by rewrite Hs.
Qed.

End SearchFacts.

Section SearchWitness.
#[local] Existing Instance reference_externals.

Lemma similarity_search_filter_sound_witness :
  let f : metadata := {[ "lang" := PStr "en" ]} in
  f ≠ ∅ ∧
  ∃ hits w', similarity_search [1; 0; 0]%Q 2 (Some f) tagged_world
             = (Ok hits, w') ∧
             length hits = 1%nat ∧
             Forall (λ hit, ∀ key v, f !! key = Some v →
                       py_eq (default PNone (doc_metadata hit.1 !! key)) v = true)
                    hits.
Proof.
  assert (Hf : ({[ "lang" := PStr "en" ]} : metadata) ≠ ∅)
    by apply insert_non_empty.
  split; [exact Hf |].
  destruct (similarity_search [1; 0; 0]%Q 2 (Some {[ "lang" := PStr "en" ]})
              tagged_world) as [[hits|e] w'] eqn:Hsearch.
  - exists hits, w'. split; [reflexivity |]. split.
    + vm_compute in Hsearch. injection Hsearch as <- _. reflexivity.
    + exact (similarity_search_filter_sound _ _ _ _ _ _ Hf Hsearch).
  - vm_compute in Hsearch. discriminate Hsearch.
Defined.

Lemma empty_index_gives_nothing_witness :
  ntotal (index (store (fresh_world 3 empty_disk))) = 0 ∧
  retrieve_context default_rag "refund policy" 5 None (fresh_world 3 empty_disk)
    = (Ok ("", []), fresh_world 3 empty_disk).
Proof.
  assert (Hempty : ntotal (index (store (fresh_world 3 empty_disk))) = 0)
    by reflexivity.
  split; [exact Hempty |].
  exact (proj2 (empty_index_gives_nothing default_rag [] "refund policy" 5 None
                  (fresh_world 3 empty_disk) Hempty)).
Defined.

End SearchWitness.

(* ===================================================================== *)
(** * Persistence and construction *)
(* ===================================================================== *)

Lemma restored_lookup items docs k :
  NoDup items.*1 →
  restored items docs !! k
  = match (list_to_map items : gmap string DocDict) !! k with
    | Some dd => Some (restore_document k dd)
    | None => docs !! k
    end.
Proof.
  revert docs. induction items as [|[id dd] items IH]; intros docs Hnodup;
    [done |].
  cbn in Hnodup. apply NoDup_cons in Hnodup as [Hid Hnodup].
  change (restored ((id, dd) :: items) docs)
    with (restored items (<[id := restore_document id dd]> docs)).
  rewrite (IH _ Hnodup). cbn [list_to_map foldr fst snd].
  destruct (decide (id = k)) as [-> | Hne].
  - rewrite lookup_insert_eq.
    rewrite (not_elem_of_list_to_map_1 _ _ Hid). by rewrite lookup_insert_eq.
  - by rewrite !lookup_insert_ne by done.
Qed.

(** What the loop of [load_index] makes of the entries that [save_index]
    writes. *)
Lemma restored_documents (docs : gmap string Document) :
  (∀ k d, docs !! k = Some d → doc_id d = k) →
  restored (map_to_list (to_dict <$> docs)) ∅ = without_embedding <$> docs.
Proof.
  intros Hkeyed. apply map_eq. intros k.
  rewrite restored_lookup by apply NoDup_fst_map_to_list.
  rewrite list_to_map_to_list, !lookup_fmap, lookup_empty.
  destruct (docs !! k) as [d|] eqn:Hd; simpl; [| done].
  unfold restore_document, without_embedding, to_dict. simpl.
  by rewrite (Hkeyed k d Hd).
Qed.

Lemma saved_entries_ok (docs : gmap string Document) :
  forallb (λ e, entry_ok e.2) (map_to_list (to_dict <$> docs)) = true.
Proof.
  apply forallb_forall. intros [k dd] Hin. apply list_elem_of_In in Hin.
  apply elem_of_map_to_list in Hin. rewrite lookup_fmap in Hin.
  destruct (docs !! k) as [d|]; [| done]. cbn in Hin. by simplify_eq.
Qed.

Section PersistenceFacts.
Context `{Externals}.

(** When [save_index] ends with its success line, both files hold what
    the store holds. *)
Lemma save_index_saved w :
  last (log (after save_index w)) = Some (INFO, "Saved vector store") →
  disk (after save_index w)
  = {| faiss_index_file := Stored (index (store w));
       metadata_file :=
         Stored {| md_documents :=
                     Some (map_to_list (to_dict <$> documents (store w)));
                   md_id_to_index := Some (id_to_index (store w));
                   md_index_to_id := Some (index_to_id (store w));
                   md_next_index := Some (next_index (store w));
                   md_dimension := dimension (store w);
                   md_index_type := index_type (store w) |} |}.
Proof.
  unfold save_index, write_index_file, write_metadata_file. run_monad.
  destruct (faiss_write_index w) as [[e f]|]; cbn.
  { rewrite last_snoc. discriminate. }
  destruct (write_metadata _) as [[e f]|]; cbn; [| done].
  rewrite last_snoc. discriminate.
Qed.

(** X13.  What [save_index] writes, [load_index] reads back.  When the
    store's documents are filed under their own ids and [save_index] ends
    with its success line (neither write has raised), a load into any
    store over the directory as the save left it returns normally and
    gives the same numeric index, the same id mappings and slot counter,
    and the same documents except that their embeddings are gone; the
    declared dimension and index type of the loading store are not
    touched. *)
Theorem save_then_load (w w0 : World) :
  docs_keyed (store w) →
  last (log (after save_index w)) = Some (INFO, "Saved vector store") →
  disk w0 = disk (after save_index w) →
  ∃ w',
    load_index w0 = (Ok tt, w') ∧
    index (store w') = index (store w) ∧
    documents (store w') = without_embedding <$> documents (store w) ∧
    id_to_index (store w') = id_to_index (store w) ∧
    index_to_id (store w') = index_to_id (store w) ∧
    next_index (store w') = next_index (store w) ∧
    size (documents (store w')) = size (documents (store w)) ∧
    dimension (store w') = dimension (store w0) ∧
    index_type (store w') = index_type (store w0).
Proof.
  intros Hkeyed Hsaved Hdisk. rewrite (save_index_saved w Hsaved) in Hdisk.
  set (md := {| md_documents :=
                  Some (map_to_list (to_dict <$> documents (store w)));
                md_id_to_index := Some (id_to_index (store w));
                md_index_to_id := Some (index_to_id (store w));
                md_next_index := Some (next_index (store w));
                md_dimension := dimension (store w);
                md_index_type := index_type (store w) |}) in *.
  destruct (load_index_stored w0 (index (store w)) md)
    as (w' & n & Heq & _ & Hindex & Hdim & Hty & _ & Hdocs & Hok & _);
    [by rewrite Hdisk | by rewrite Hdisk |].
  destruct Hok as (-> & [= Hi2x] & [= Hx2i] & [= Hnext] & _).
  { unfold metadata_ok. cbn. apply saved_entries_ok. }
  cbn [md md_documents default from_option id] in Hdocs.
  rewrite firstn_all, (restored_documents _ Hkeyed) in Hdocs.
  exists w'. rewrite Hdocs, map_size_fmap. by split_and!.
Qed.


End PersistenceFacts.

Lemma sample_world_keyed : docs_keyed (store sample_world).
Proof.
  intros k d Hk.
  apply (add_documents_lookup _ _ (fresh_world 3 empty_disk)) in Hk
    as [Hk | [? _]]; [| done].
  cbn in Hk. by rewrite lookup_empty in Hk.
Qed.

Section PersistenceWitness.
#[local] Existing Instance reference_externals.

Lemma save_then_load_witness :
  let w0 := fresh_world 3 (disk (after save_index sample_world)) in
  docs_keyed (store sample_world) ∧
  last (log (after save_index sample_world))
    = Some (INFO, "Saved vector store") ∧
  disk w0 = disk (after save_index sample_world) ∧
  ∃ w', load_index w0 = (Ok tt, w') ∧
        index (store w') = index (store sample_world) ∧
        size (documents (store w')) = size (documents (store sample_world)).
Proof.
  assert (Hsaved : last (log (after save_index sample_world))
                   = Some (INFO, "Saved vector store")) by reflexivity.
  assert (Hdisk : disk (fresh_world 3 (disk (after save_index sample_world)))
                  = disk (after save_index sample_world)) by reflexivity.
  split; [exact sample_world_keyed |]. split; [exact Hsaved |].
  split; [exact Hdisk |].
  destruct (save_then_load sample_world
              (fresh_world 3 (disk (after save_index sample_world)))
              sample_world_keyed Hsaved Hdisk)
    as (w' & Heq & Hix & _ & _ & _ & _ & Hsize & _).
  exists w'. split; [exact Heq | split; [exact Hix | exact Hsize]].
Defined.


End PersistenceWitness.

(* ===================================================================== *)
(** * Further properties of ingestion *)
(* ===================================================================== *)

Lemma bump_bump du dc du' dc' w :
  bump du dc (bump du' dc' w) = bump (du + du') (dc + dc') w.
Proof. unfold bump. cbn. f_equal; lia. Qed.

Lemma bump_0 w : bump 0 0 w = w.
Proof. by destruct w. Qed.

(** A loop whose body only builds a value from the next uuid and clock
    reading, drawing [du] uuids and reading the clock [dc] times. *)
Lemma for_each_bump {A B} (f : A → M B) (g : nat → nat → A → B) (du dc : nat) :
  (∀ a w, f a w = (Ok (g (uuids_drawn w) (clock_reads w) a), bump du dc w)) →
  ∀ l w,
    for_each f l w
    = (Ok (imap (λ i a, g (du * i + uuids_drawn w)%nat
                          (dc * i + clock_reads w)%nat a) l),
       bump (du * length l) (dc * length l) w).
Proof.
  intros Hf l. induction l as [|a l IH]; intros w.
  - cbn. by rewrite !Nat.mul_0_r, bump_0.
  - cbn [for_each]. rewrite (bind_Ok _ _ _ _ _ (Hf a w)).
    rewrite (bind_Ok _ _ _ _ _ (IH (bump du dc w))). unfold ret.
    rewrite bump_bump. cbn [imap length]. f_equal.
    + f_equal. f_equal.
      * by rewrite !Nat.mul_0_r.
      * apply imap_ext. intros i x _. cbn. f_equal; lia.
    + f_equal; lia.
Qed.

Section IngestFacts.
Context `{Externals}.

Lemma new_Documents l w :
  for_each (λ '(text, md), new_Document text md) l w
  = (Ok (imap (λ i p, drawn_document (i + uuids_drawn w) (i + clock_reads w) p) l),
     bump (length l) (length l) w).
Proof.
  rewrite (for_each_bump (λ '(text, md), new_Document text md)
             drawn_document 1 1); [| by intros [text md] w'].
  rewrite !Nat.mul_1_l. do 2 f_equal. apply imap_ext. intros i p _. cbn.
  by rewrite !Nat.add_0_r.
Qed.

Lemma drawn_documents_ids (l : list (string * metadata)) (u c : nat) :
  map doc_id (imap (λ i p, drawn_document (i + u) (i + c) p) l)
  = map uuid4 (seq u (length l)).
Proof.
  revert u c. induction l as [|p l IH]; intros u c; [done |].
  cbn [imap length seq map]. f_equal.
  rewrite <- (IH (S u) (S c)). f_equal. apply imap_ext. intros i x _. cbn.
  unfold drawn_document. f_equal; f_equal; lia.
Qed.

Lemma drawn_documents_contents (l : list (string * metadata)) (u c : nat) :
  map doc_content (imap (λ i p, drawn_document (i + u) (i + c) p) l) = l.*1.
Proof.
  revert u c. induction l as [|p l IH]; intros u c; [done |].
  cbn [imap fmap list_fmap map]. f_equal.
  rewrite <- (IH (S u) (S c)). f_equal. apply imap_ext. intros i x _. cbn.
  unfold drawn_document. f_equal; f_equal; lia.
Qed.

Lemma store_documents_in start docs embeddings s doc :
  doc ∈ docs →
  ∃ d, documents (store_documents start docs embeddings s) !! doc_id doc = Some d
       ∧ doc_id d = doc_id doc.
Proof.
  induction docs as [|d0 docs IH] using rev_ind; intros Hin;
    [by apply elem_of_nil in Hin |].
  rewrite store_documents_snoc. cbn.
  destruct (decide (doc_id d0 = doc_id doc)) as [Heq | Hne].
  - rewrite Heq, lookup_insert_eq. eexists. split; [done |]. by cbn.
  - rewrite lookup_insert_ne by done. apply IH.
    apply elem_of_app in Hin as [Hin | Hin]; [done |].
    apply list_elem_of_singleton in Hin. by subst.
Qed.

(** X16.  When [add_texts] is given fewer metadata dictionaries than
    texts, the documents built from the pairs are fewer than the
    embeddings, so the call raises the count-mismatch [ValueError]; the
    store and the persist directory are not changed, although the uuids of
    the discarded documents have been drawn. *)
Theorem add_texts_too_few_metadatas
    (texts : list string) (metadatas : list metadata) (w : World) :
  (length metadatas < length texts)%nat →
  ∃ w',
    add_texts texts (Some metadatas) w
      = (Raise (mkExn ValueError
                  "Number of documents must match number of embeddings"), w') ∧
    store w' = store w ∧ disk w' = disk w ∧
    uuids_drawn w' = (length metadatas + uuids_drawn w)%nat.
Proof.
  intros Hfew. unfold add_texts. cbn [default from_option id].
  rewrite (bind_Ok _ _ _ _ _ (new_Documents (zip texts metadatas) w)).
  run_monad. cbn. unfold add_documents.
  rewrite length_imap, length_zip. unfold embed_documents. rewrite length_map.
  destruct (Nat.eqb_spec (length texts `min` length metadatas) (length texts));
    [lia |].
  cbn. eexists. split; [reflexivity |]. cbn. split_and!; try done.
  f_equal. lia.
Qed.

(** [add_texts] on a trained index of the store's dimension. *)
Lemma add_texts_trained texts metadatas w :
  is_trained (index (store w)) = true →
  index_d (index (store w)) = dimension (store w) →
  0 ≤ dimension (store w) →
  texts ≠ [] →
  (length texts ≤ length (default (replicate (length texts) ∅) metadatas))%nat →
  ∃ docs w',
    add_texts texts metadatas w = (Ok (map doc_id docs), w') ∧
    map doc_id docs = map uuid4 (seq (uuids_drawn w) (length texts)) ∧
    map doc_content docs = texts ∧
    store w'
      = store (added docs (embed_documents (dimension (store w)) texts)
                 (index (store w)) (log w) w) ∧
    uuids_drawn w' = (length texts + uuids_drawn w)%nat.
Proof.
  intros Htr Hd Hdim Hne Hlen. unfold add_texts.
  set (mds := default (replicate (length texts) ∅) metadatas) in *.
  rewrite (bind_Ok _ _ _ _ _ (new_Documents (zip texts mds) w)).
  set (docs := imap (λ i p, drawn_document (i + uuids_drawn w)
                                           (i + clock_reads w) p)
                    (zip texts mds)).
  assert (Hzip : length (zip texts mds) = length texts)
    by (rewrite length_zip; lia).
  assert (Hfst : (zip texts mds).*1 = texts) by (apply fst_zip; lia).
  set (w1 := bump (length (zip texts mds)) (length (zip texts mds)) w).
  rewrite (bind_Ok get_store _ w1 (store w1) w1 eq_refl).
  change (dimension (store w1)) with (dimension (store w)).
  cbv zeta.
  rewrite (bind_Ok _ _ w1 tt
             (added docs (embed_documents (dimension (store w)) texts)
                    (index (store w)) (log w) w1)).
  2: { apply (add_documents_trained docs _ w1 Htr).
       - unfold docs, embed_documents. by rewrite length_imap, length_map.
       - unfold embed_documents. by destruct texts.
       - unfold embed_documents. apply Forall_forall. intros v Hv.
         apply list_elem_of_fmap in Hv as (text & -> & _). cbn. rewrite Hd.
         by apply mock_embedding_length. }
  match goal with
  | |- context [bind save_index _ ?w2] =>
      destruct (save_index_total w2)
        as (w3 & lv & msg & Hsave & Hstore & _ & Hu & _)
  end.
  rewrite (bind_Ok _ _ _ _ _ Hsave). unfold ret.
  exists docs, w3. rewrite Hstore, Hu. cbn.
  split_and!; try done.
  - unfold docs. by rewrite drawn_documents_ids, Hzip.
  - unfold docs. by rewrite drawn_documents_contents.
  - by rewrite Hzip.
Qed.

(** [add_texts] on a trained index: what is returned and stored. *)
Lemma add_texts_stored
    (texts : list string) (metadatas : option (list metadata)) (w : World) :
  is_trained (index (store w)) = true →
  index_d (index (store w)) = dimension (store w) →
  0 ≤ dimension (store w) →
  texts ≠ [] →
  (length texts ≤ length (default (replicate (length texts) ∅) metadatas))%nat →
  ∃ ids w',
    add_texts texts metadatas w = (Ok ids, w') ∧
    ids = map uuid4 (seq (uuids_drawn w) (length texts)) ∧
    Forall (λ id, ∃ d, documents (store w') !! id = Some d ∧ doc_id d = id) ids ∧
    ntotal (index (store w'))
      = ntotal (index (store w)) + Z.of_nat (length texts) ∧
    next_index (store w') = next_index (store w) + Z.of_nat (length texts).
Proof.
  intros Htr Hd Hdim Hne Hlen.
  destruct (add_texts_trained texts metadatas w Htr Hd Hdim Hne Hlen)
    as (docs & w' & Heq & Hids & Hcontents & Hstore & _).
  assert (Hn : length docs = length texts).
  { by rewrite <- (length_map doc_id docs), Hids, length_map, length_seq. }
  exists (map doc_id docs), w'. split; [done |]. split; [done |].
  rewrite Hstore. unfold added. cbn.
  rewrite (proj1 (store_documents_frame _ _ _ _)). cbn.
  rewrite ntotal_with_rows. unfold embed_documents. rewrite length_map, Hn.
  split_and!; try done.
  apply Forall_forall. intros id Hin.
  apply list_elem_of_fmap in Hin as (doc & -> & Hin).
  by apply store_documents_in.
Qed.

(** X17.  On a trained index whose dimension is the store's, [add_texts]
    of a non-empty list of texts (without metadata, or with at least as
    many dictionaries as texts) returns the next uuids as ids, one per
    text and in order, whether or not the save that follows the insertion
    succeeds; every returned id is then the key of a stored document, the
    index holds one more vector per text, and the slot counter has
    advanced as much. *)
Theorem add_texts_stores_every_text
    (texts : list string) (metadatas : option (list metadata)) (w : World) :
  is_trained (index (store w)) = true →
  index_d (index (store w)) = dimension (store w) →
  0 ≤ dimension (store w) →
  texts ≠ [] →
  (length texts ≤ length (default (replicate (length texts) ∅) metadatas))%nat →
  ∃ ids w',
    add_texts texts metadatas w = (Ok ids, w') ∧
    ids = map uuid4 (seq (uuids_drawn w) (length texts)) ∧
    Forall (λ id, ∃ d, documents (store w') !! id = Some d ∧ doc_id d = id) ids ∧
    ntotal (index (store w'))
      = ntotal (index (store w)) + Z.of_nat (length texts) ∧
    next_index (store w') = next_index (store w) + Z.of_nat (length texts).
Proof. apply add_texts_stored. Qed.

(** ** [process_text_content] and [add_text_content] *)

Lemma process_text_content_eq ts content source_name md w :
  let chunks := split_text ts content in
  let n := length chunks in
  process_text_content ts content source_name md w
  = (Ok (imap (λ i p, drawn_chunk source_name (processed_metadata md content n)
                                  (i + uuids_drawn w) (i + clock_reads w) p)
              (imap (λ i chunk, (i, chunk)) chunks)),
     (logger INFO ("Processed text content into "
                   +:+ Py.str_of_int (Z.of_nat n) +:+ " chunks")
             (bump n n w)).2).
Proof.
  cbv zeta. unfold process_text_content.
  pose proof (for_each_bump
    (λ '(i, chunk),
       new_DocumentChunk chunk source_name (Z.of_nat i)
         (processed_metadata md content (length (split_text ts content))))
    (drawn_chunk source_name
       (processed_metadata md content (length (split_text ts content))))
    1 1) as Hloop.
  rewrite (bind_Ok _ _ _ _ _
             (Hloop ltac:(by intros [i chunk] w') _ w)).
  rewrite !Nat.mul_1_l, length_imap. run_monad. cbn. do 2 f_equal.
  apply imap_ext. intros i p _. cbn. by rewrite !Nat.add_0_r.
Qed.

(** X18.  [process_text_content] never raises.  Its chunks carry the
    contents returned by [split_text], in order, numbered from 0, with the
    given source name; whatever metadata the caller passes, the keys
    [file_type], [total_chunks] and [content_length] are set by the
    processor, and every other key is the caller's.  The store and the
    persist directory are not touched. *)
Theorem process_text_content_chunks
    (ts : TextSplitter) (content source_name : string) (md : option metadata)
    (w : World) :
  ∃ chunks w',
    process_text_content ts content source_name md w = (Ok chunks, w') ∧
    map chunk_content chunks = split_text ts content ∧
    (∀ i c, chunks !! i = Some c →
       chunk_index c = Z.of_nat i ∧ chunk_source c = source_name ∧
       chunk_metadata c !! "file_type" = Some (PStr "text") ∧
       chunk_metadata c !! "total_chunks"
         = Some (PInt (Z.of_nat (length chunks))) ∧
       chunk_metadata c !! "content_length" = Some (PInt (Py.len content)) ∧
       (∀ key, key ≠ "file_type" → key ≠ "total_chunks" →
               key ≠ "content_length" →
               chunk_metadata c !! key = default ∅ md !! key)) ∧
    store w' = store w ∧ disk w' = disk w.
Proof.
  eexists _, _. split; [apply process_text_content_eq |].
  split; [| split; [| done]].
  - generalize (uuids_drawn w), (clock_reads w).
    generalize (processed_metadata md content (length (split_text ts content))).
    generalize (split_text ts content). intros l m.
    change (imap (λ i chunk, (i, chunk)) l) with (imap (λ i chunk, (id i, chunk)) l).
    generalize (@id nat). revert m.
    induction l as [|x l IH]; intros m g u c; [done |].
    cbn [imap map]. f_equal. rewrite <- (IH m (g ∘ S) (S u) (S c)) at 2.
    f_equal. apply imap_ext. intros i p _. cbn. unfold drawn_chunk.
    f_equal; f_equal; lia.
  - intros i c. rewrite !length_imap, !list_lookup_imap.
    destruct (split_text ts content !! i) as [chunk|]; [| done].
    cbn. intros [= <-]. cbn. unfold processed_metadata.
    split_and!; try done.
    + by rewrite !lookup_insert_ne, lookup_insert_eq by done.
    + by rewrite lookup_insert_ne, lookup_insert_eq by done.
    + by rewrite lookup_insert_eq.
    + intros key H1 H2 H3. by rewrite !lookup_insert_ne.
Qed.

Lemma entries_loop source_name md (chunks : list DocumentChunk) w :
  for_each (λ chunk,
              now <- read_clock ;;
              ret (chunk_content chunk,
                   chunk_metadata_for chunk source_name md now)) chunks w
  = (Ok (imap (λ i chunk,
                 (chunk_content chunk,
                  chunk_metadata_for chunk source_name md
                    (now_isoformat (i + clock_reads w)))) chunks),
     bump 0 (length chunks) w).
Proof.
  rewrite (for_each_bump
             (λ chunk, now <- read_clock ;;
                       ret (chunk_content chunk,
                            chunk_metadata_for chunk source_name md now))
             (λ _ c chunk, (chunk_content chunk,
                            chunk_metadata_for chunk source_name md
                              (now_isoformat c))) 0 1); [| done].
  rewrite Nat.mul_0_l, Nat.mul_1_l. do 2 f_equal.
  apply imap_ext. intros i chunk _. cbn. by rewrite Nat.add_0_r.
Qed.

Lemma imap_fst_content {B} (g : nat → DocumentChunk → B) chunks :
  (imap (λ i chunk, (chunk_content chunk, g i chunk)) chunks).*1
  = map chunk_content chunks.
Proof.
  revert g. induction chunks as [|c chunks IH]; intros g; [done |].
  cbn. f_equal. apply (IH (g ∘ S)).
Qed.

(** X19.  On a trained index whose dimension is the store's,
    [add_text_content] of a text for which [split_text] returns at least
    one chunk returns normally: [chunks_created] is the number of chunks,
    [total_characters] the length of the text, the document ids are the
    uuids drawn after those of the chunks, each of them is the key of a
    stored document, and the index holds one more vector per chunk. *)
Theorem add_text_content_ingests
    (rag : RAGSystem) (content source_name : string) (md : option metadata)
    (w : World) :
  is_trained (index (store w)) = true →
  index_d (index (store w)) = dimension (store w) →
  0 ≤ dimension (store w) →
  split_text (text_splitter rag) content ≠ [] →
  let n := length (split_text (text_splitter rag) content) in
  ∃ r w',
    add_text_content rag content source_name md w = (Ok r, w') ∧
    chunks_created r = Z.of_nat n ∧
    total_characters r = Py.len content ∧
    res_source_name r = source_name ∧
    document_ids r = map uuid4 (seq (n + uuids_drawn w) n) ∧
    Forall (λ id, ∃ d, documents (store w') !! id = Some d ∧ doc_id d = id)
           (document_ids r) ∧
    ntotal (index (store w')) = ntotal (index (store w)) + Z.of_nat n.
Proof.
  intros Htr Hd Hdim Hchunks n.
  unfold add_text_content, try_except.
  rewrite (bind_Ok _ _ _ _ _
             (process_text_content_eq (text_splitter rag) content source_name
                md w)).
  fold n.
  set (chunks := imap _ (imap _ (split_text (text_splitter rag) content))).
  assert (Hn : length chunks = n) by (unfold chunks; by rewrite !length_imap).
  assert (Hn0 : n ≠ 0%nat)
    by (unfold n; by destruct (split_text (text_splitter rag) content)).
  assert (chunks ≠ []) by (intros Heq; rewrite Heq in Hn; simpl in Hn; lia).
  rewrite bool_decide_eq_false_2 by done.
  set (w1 := (logger INFO _ (bump n n w)).2).
  rewrite (bind_Ok _ _ _ _ _ (entries_loop source_name md chunks w1)).
  set (entries := imap _ chunks).
  set (w2 := bump 0 (length chunks) w1).
  assert (Hlen1 : length (entries.*1) = n)
    by (unfold entries; by rewrite length_fmap, length_imap).
  assert (Hlen2 : length (entries.*2) = n)
    by (unfold entries; by rewrite length_fmap, length_imap).
  destruct (add_texts_stored (entries.*1) (Some (entries.*2)) w2)
    as (ids & w3 & Hadd & Hids & Hstored & Hnt & _); try done.
  { intros Heq. rewrite Heq in Hlen1. simpl in Hlen1. lia. }
  { cbn. lia. }
  rewrite (bind_Ok _ _ _ _ _ Hadd). run_monad. cbn.
  eexists _, _. split; [reflexivity |]. cbn.
  rewrite Hlen1 in *. cbn in Hids, Hnt.
  split_and!; try done. by rewrite Hn.
Qed.

End IngestFacts.

(* ===================================================================== *)
(** * Further properties of context assembly *)
(* ===================================================================== *)

Lemma substring_0_length m s :
  (m ≤ String.length s)%nat → String.length (substring 0 m s) = m.
Proof.
  revert m. induction s as [|c s IH]; intros [|m] Hm; simpl in *; try lia.
  by rewrite IH by lia.
Qed.

(** X20.  When a hit is truncated to fit, the truncated content together
    with its ellipsis has exactly [remaining_space] characters: the budget
    left is used up and not exceeded. *)
Theorem partial_content_length (content : string) (remaining_space : Z) :
  100 < remaining_space →
  remaining_space < Py.len content →
  Py.len (partial_content content remaining_space) = remaining_space.
Proof.
  intros Hroom Hover. unfold partial_content, Py.slice, Py.adjust, Py.len in *.
  rewrite string_app_length.
  destruct (Z.ltb_spec 0 0); [lia |].
  destruct (Z.ltb_spec (remaining_space - 3) 0); [lia |].
  rewrite Z.min_l by lia. rewrite Z.min_l by lia. cbn [Z.to_nat].
  rewrite Z.sub_0_r, substring_0_length by lia. simpl. lia.
Qed.

Lemma partial_content_length_witness :
  let content := String.concat "" (replicate 30 "refund ") in
  100 < 120 ∧ 120 < Py.len content ∧
  Py.len (partial_content content 120) = 120.
Proof.
  assert (Hroom : 100 < 120) by lia.
  assert (Hover : 120 < Py.len (String.concat "" (replicate 30 "refund ")))
    by (vm_compute; reflexivity).
  split; [exact Hroom |]. split; [exact Hover |].
  exact (partial_content_length _ 120 Hroom Hover).
Defined.

Lemma join_cons_nonempty sep c r parts :
  Py.join sep (String c r :: parts) ≠ "".
Proof. unfold Py.join. simpl. by destruct parts. Qed.

(** X21.  Whenever [assemble] returns a source, the context string is not
    empty, so a caller that tests the context for emptiness never drops
    sources. *)
Theorem assemble_sources_imply_context
    (max_len : Z) (hits : list (string * Q)) :
  (assemble max_len hits).2 ≠ [] → (assemble max_len hits).1 ≠ "".
Proof.
  destruct (context_loop_spec max_len hits 0 [] 0 [])
    as (n & tail & _ & Heq & _ & _).
  unfold assemble. rewrite Heq. cbn [fst snd app].
  destruct (take n hits) as [|[content score] rest]; [done |].
  intros _. rewrite full_blocks_cons. apply join_cons_nonempty.
Qed.

Lemma assemble_sources_imply_context_witness :
  (assemble 4000 [("A 30-day refund window applies.", 0%Q)]).2 ≠ [] ∧
  (assemble 4000 [("A 30-day refund window applies.", 0%Q)]).1 ≠ "".
Proof.
  assert (Hsrc : (assemble 4000 [("A 30-day refund window applies.", 0%Q)]).2
                 ≠ []) by (vm_compute; discriminate).
  split; [exact Hsrc |].
  exact (assemble_sources_imply_context 4000 _ Hsrc).
Defined.

(* ===================================================================== *)
(** * Further properties of the RAG system *)
(* ===================================================================== *)

Section RagMoreFacts.
Context `{Externals}.

(** X22.  In the metadata that [add_text_content] stores with a chunk, the
    keys [chunk_id], [source_name], [chunk_index] and [processed_at] are
    always the system's; for every other key the caller's value wins over
    the chunk's own, so a caller can override the [file_type] that the
    processor had set. *)
Theorem chunk_metadata_precedence
    (chunk : DocumentChunk) (source_name : string) (md : option metadata)
    (now : string) :
  let stored := chunk_metadata_for chunk source_name md now in
  stored !! "chunk_id" = Some (PStr (chunk_id chunk)) ∧
  stored !! "source_name" = Some (PStr source_name) ∧
  stored !! "chunk_index" = Some (PInt (chunk_index chunk)) ∧
  stored !! "processed_at" = Some (PStr now) ∧
  (∀ key, key ≠ "chunk_id" → key ≠ "source_name" → key ≠ "chunk_index" →
          key ≠ "processed_at" →
          stored !! key = match default ∅ md !! key with
                          | Some v => Some v
                          | None => chunk_metadata chunk !! key
                          end).
Proof.
  cbv zeta. unfold chunk_metadata_for. split_and!.
  - by rewrite !lookup_insert_ne, lookup_insert_eq by done.
  - by rewrite !lookup_insert_ne, lookup_insert_eq by done.
  - by rewrite lookup_insert_ne, lookup_insert_eq by done.
  - by rewrite lookup_insert_eq.
  - intros key H1 H2 H3 H4. rewrite !lookup_insert_ne by done.
    rewrite lookup_union. by destruct (default ∅ md !! key), (chunk_metadata chunk !! key).
Qed.

Lemma similarity_search_world q k f w : (similarity_search q k f w).2 = w.
Proof.
  unfold similarity_search. run_monad.
  destruct (ntotal _ =? 0); [done |]. by destruct (faiss_search _ _ _).
Qed.

(** X23.  [retrieve_context] is a query: whatever the search does, the
    store, the persist directory and the uuid and clock counters are what
    they were, and the log has only grown. *)
Theorem retrieve_context_read_only
    (rag : RAGSystem) (query : string) (k : Z) (f : option metadata) (w : World) :
  let w' := (retrieve_context rag query k f w).2 in
  store w' = store w ∧ disk w' = disk w ∧
  uuids_drawn w' = uuids_drawn w ∧ clock_reads w' = clock_reads w ∧
  ∃ lines, log w' = log w ++ lines.
Proof.
  cbv zeta.
  assert (Hm : ∃ outcome, manager_similarity_search query k f w = (outcome, w)).
  { unfold manager_similarity_search.
    rewrite (bind_Ok get_store _ w (store w) w eq_refl). cbv zeta.
    pose proof (similarity_search_world
                  (embed_query (dimension (store w)) query) k f w) as Hw.
    unfold bind, ret.
    destruct (similarity_search _ k f w) as [[results|e] w1];
      cbn in Hw; subst w1; eauto. }
  destruct Hm as [[hits|e] Hm]; unfold retrieve_context, try_except.
  - rewrite (bind_Ok _ _ _ _ _ Hm). destruct hits as [|hit hits].
    + rewrite bool_decide_eq_true_2 by done. cbn.
      split_and!; try done. exists []. by rewrite app_nil_r.
    + rewrite !bool_decide_eq_false_2 by done.
      destruct (assemble _ _) as [context sources]. run_monad. cbn.
      split_and!; try done. rewrite <- app_assoc. eauto.
  - rewrite (bind_Raise _ _ _ _ _ Hm). run_monad. cbn.
    split_and!; try done. eauto.
Qed.

End RagMoreFacts.

(* ===================================================================== *)
(** * Instances of the insertion theorems *)
(* ===================================================================== *)

Lemma add_documents_round_trip_witness :
  let docs := [sample_doc "c" "gift cards"; sample_doc "d" "returns"] in
  let embeddings := [[0; 0; 1]%Q; [1; 1; 0]%Q] in
  is_trained (index (store sample_world)) = true ∧
  length docs = length embeddings ∧
  NoDup (map doc_id docs) ∧
  docs !! 1%nat = Some (sample_doc "d" "returns") ∧
  embeddings !! 1%nat = Some [1; 1; 0]%Q ∧
  ∃ w',
    add_documents docs embeddings sample_world = (Ok tt, w') ∧
    id_to_index (store w') !! "d" = Some 3 ∧
    ntotal (index (store w')) = 4.
Proof.
  set (docs := [sample_doc "c" "gift cards"; sample_doc "d" "returns"]).
  set (embeddings := [[0; 0; 1]%Q; [1; 1; 0]%Q]).
  assert (Htr : is_trained (index (store sample_world)) = true) by reflexivity.
  assert (Hlen : length docs = length embeddings) by reflexivity.
  assert (Hall : Forall (λ v : vector,
                    Z.of_nat (length v) = index_d (index (store sample_world)))
                  embeddings) by (repeat constructor).
  assert (Hnodup : NoDup (map doc_id docs)).
  { apply NoDup_cons. split; [| apply NoDup_singleton].
    intros Hin. apply list_elem_of_singleton in Hin. discriminate Hin. }
  assert (Hi : docs !! 1%nat = Some (sample_doc "d" "returns")) by reflexivity.
  assert (Hv : embeddings !! 1%nat = Some [1; 1; 0]%Q) by reflexivity.
  cbv zeta. split; [exact Htr |]. split; [exact Hlen |].
  split; [exact Hnodup |]. split; [exact Hi |]. split; [exact Hv |].
  destruct (add_documents_round_trip docs embeddings sample_world 1
              (sample_doc "d" "returns") [1; 1; 0]%Q Htr Hlen Hall Hnodup Hi Hv)
    as (w' & Heq & _ & Hslot & _ & Hn & _).
  exists w'. split; [exact Heq |]. split; [exact Hslot | exact Hn].
Defined.

Lemma add_documents_ivf_small_batch_witness :
  let w := {| store := fresh_store 3 "ivf" (IndexIVFFlat 3 100 None);
              disk := empty_disk; log := []; uuids_drawn := 0;
              clock_reads := 0 |} in
  let docs := [sample_doc "a" "refund window"] in
  index (store w) = IndexIVFFlat 3 100 None ∧
  index_type (store w) = "ivf" ∧
  dimension (store w) = 3 ∧
  (length [[1; 0; 0]%Q] < 100)%nat ∧
  ∃ w', add_documents docs [[1; 0; 0]%Q] w = (Ok tt, w') ∧
        index (store w') = IndexFlatL2 3 [[1; 0; 0]%Q].
Proof.
  set (w := {| store := fresh_store 3 "ivf" (IndexIVFFlat 3 100 None);
               disk := empty_disk; log := []; uuids_drawn := 0;
               clock_reads := 0 |}).
  assert (Hsmall : (length [[1; 0; 0]%Q] < 100)%nat) by (simpl; lia).
  assert (Hall : Forall (λ v : vector, Z.of_nat (length v) = 3) [[1; 0; 0]%Q])
    by (repeat constructor).
  assert (Hne : [[1; 0; 0]%Q] ≠ @nil vector) by discriminate.
  cbv zeta. split; [reflexivity |]. split; [reflexivity |].
  split; [reflexivity |]. split; [exact Hsmall |].
  destruct (add_documents_ivf_small_batch [sample_doc "a" "refund window"]
              [[1; 0; 0]%Q] w 3 100 eq_refl eq_refl eq_refl eq_refl
              Hne Hsmall Hall)
    as (w' & Heq & Hix & _).
  exists w'. split; [exact Heq | exact Hix].
Defined.

Section MoreWitnesses.
#[local] Existing Instance reference_externals.

Lemma embed_documents_shape_witness :
  0 ≤ 3 ∧ length (embed_documents 3 ["refund"; "shipping"]) = 2%nat.
Proof.
  assert (Hdim : 0 ≤ 3) by lia. split; [exact Hdim |].
  exact (proj1 (embed_documents_shape 3 ["refund"; "shipping"] Hdim)).
Defined.

Lemma exec_all_consistent_witness :
  let cs := [CallAdd [sample_doc "a" "refund window"] [[1; 0; 0]%Q];
             CallDelete "a"; CallSave] in
  store_consistent (store (fresh_world 3 empty_disk)) ∧
  store_consistent (store (exec_all cs (fresh_world 3 empty_disk))).
Proof.
  split; [exact (fresh_world_consistent 3 empty_disk) |].
  exact (exec_all_consistent _ _ (fresh_world_consistent 3 empty_disk)).
Defined.

Lemma add_texts_too_few_metadatas_witness :
  (length [(∅ : metadata)] < length ["refund"; "shipping"])%nat ∧
  ∃ w', add_texts ["refund"; "shipping"] (Some [∅]) (fresh_world 3 empty_disk)
        = (Raise (mkExn ValueError
                    "Number of documents must match number of embeddings"), w') ∧
        store w' = store (fresh_world 3 empty_disk).
Proof.
  assert (Hfew : (length [(∅ : metadata)] < length ["refund"; "shipping"])%nat)
    by (simpl; lia).
  split; [exact Hfew |].
  destruct (add_texts_too_few_metadatas ["refund"; "shipping"] [∅]
              (fresh_world 3 empty_disk) Hfew) as (w' & Heq & Hstore & _).
  exists w'. split; [exact Heq | exact Hstore].
Defined.

Lemma add_texts_stores_every_text_witness :
  is_trained (index (store sample_world)) = true ∧
  index_d (index (store sample_world)) = dimension (store sample_world) ∧
  0 ≤ dimension (store sample_world) ∧
  ["gift cards"; "returns"] ≠ [] ∧
  ∃ ids w',
    add_texts ["gift cards"; "returns"] None sample_world = (Ok ids, w') ∧
    ids = [uuid4 0; uuid4 1] ∧
    ntotal (index (store w')) = 4.
Proof.
  assert (Htr : is_trained (index (store sample_world)) = true) by reflexivity.
  assert (Hd : index_d (index (store sample_world))
               = dimension (store sample_world)) by reflexivity.
  assert (Hdim : 0 ≤ dimension (store sample_world)) by (vm_compute; discriminate).
  assert (Hne : ["gift cards"; "returns"] ≠ @nil string) by discriminate.
  assert (Hlen : (length ["gift cards"; "returns"]
                  ≤ length (default (replicate (length ["gift cards"; "returns"])
                                               (∅ : metadata)) None))%nat)
    by (simpl; lia).
  split; [exact Htr |]. split; [exact Hd |]. split; [exact Hdim |].
  split; [exact Hne |].
  destruct (add_texts_stores_every_text ["gift cards"; "returns"] None
              sample_world Htr Hd Hdim Hne Hlen)
    as (ids & w' & Heq & Hids & _ & Hn & _).
  exists ids, w'. split; [exact Heq |]. split; [exact Hids | exact Hn].
Defined.

Lemma add_text_content_ingests_witness :
  let content := "A 30-day refund window applies. Shipping is free over $50." in
  is_trained (index (store sample_world)) = true ∧
  index_d (index (store sample_world)) = dimension (store sample_world) ∧
  0 ≤ dimension (store sample_world) ∧
  split_text (text_splitter default_rag) content ≠ [] ∧
  ∃ r w',
    add_text_content default_rag content "policy" None sample_world = (Ok r, w') ∧
    chunks_created r = 1 ∧
    ntotal (index (store w')) = 3.
Proof.
  assert (Htr : is_trained (index (store sample_world)) = true) by reflexivity.
  assert (Hd : index_d (index (store sample_world))
               = dimension (store sample_world)) by reflexivity.
  assert (Hdim : 0 ≤ dimension (store sample_world)) by (vm_compute; discriminate).
  assert (Hchunks : split_text (text_splitter default_rag)
            "A 30-day refund window applies. Shipping is free over $50." ≠ [])
    by (vm_compute; discriminate).
  split; [exact Htr |]. split; [exact Hd |]. split; [exact Hdim |].
  split; [exact Hchunks |].
  destruct (add_text_content_ingests default_rag
              "A 30-day refund window applies. Shipping is free over $50."
              "policy" None sample_world Htr Hd Hdim Hchunks)
    as (r & w' & Heq & Hcreated & _ & _ & _ & _ & Hn).
  exists r, w'. split; [exact Heq |]. split; [exact Hcreated | exact Hn].
Defined.

Lemma delete_document_returns_presence_witness :
  store_consistent (store sample_world) ∧
  ∃ w', delete_document "a" sample_world = (Ok true, w') ∧
        (delete_document "a" w').1 = Ok false.
Proof.
  split; [exact sample_world_consistent |].
  destruct (delete_document_returns_presence "a" sample_world
              sample_world_consistent)
    as (w' & Heq & _ & _ & _ & _ & _ & Hagain).
  exists w'. split; [exact Heq | exact Hagain].
Defined.

Lemma get_stats_after_delete_witness :
  let w' := after (delete_document "a") sample_world in
  store_consistent (store sample_world) ∧
  delete_document "a" sample_world = (Ok true, w') ∧
  ∃ st st', (get_stats sample_world).1 = Ok st ∧ (get_stats w').1 = Ok st' ∧
            total_documents st' = total_documents st - 1.
Proof.
  assert (Hdel : delete_document "a" sample_world
                 = (Ok true, after (delete_document "a") sample_world))
    by (vm_compute; reflexivity).
  split; [exact sample_world_consistent |]. split; [exact Hdel |].
  destruct (get_stats_after_delete "a" sample_world _
              sample_world_consistent Hdel)
    as (st & st' & Hst & Hst' & Htotal & _).
  exists st, st'. split; [exact Hst | split; [exact Hst' | exact Htotal]].
Defined.

End MoreWitnesses.
